(** * nmt/model.py: the sequence-to-sequence model, as a shallow embedding

    The module builds a TensorFlow 1.x graph.  A tensor is read here as the
    value it takes when the graph is run: a scalar that depends on the
    session's [global_step] is a function of it, a tensor that depends on
    the batch is computed from the batch delivered by the iterator.

    Conventions.
    - [int32] tensors are [Z] with the wrap-around written out ([wrap32]).
    - [float32] tensors are real numbers.  Rounding error is not modelled;
      a value of type [option R] is [None] when some intermediate float of
      its computation is not finite (a division by zero), in which case the
      real-valued reading stops following the program.
    - Python exceptions are the [Raise] results of the monad [result]. *)

From Stdlib Require Import ZArith List String Bool Reals Lra Lia.
Import ListNotations.

Set Warnings "-register-all".

Local Open Scope string_scope.
Local Open Scope Z_scope.

(* ================================================================== *)
(** * Python exceptions *)

Inductive exn : Type :=
| ValueError (msg : string)
| AssertionError
| UnboundLocalError (name : string)
| AttributeError (name : string)
| IndexError
| TypeError.

Inductive result (A : Type) : Type :=
| Ok (a : A)
| Raise (e : exn).

Arguments Ok {A} a.
Arguments Raise {A} e.

Definition bind {A B : Type} (m : result A) (k : A -> result B) : result B :=
  match m with
  | Ok a => k a
  | Raise e => Raise e
  end.

Notation "x <- m ;; k" := (bind m (fun x => k))
  (at level 61, m at next level, right associativity).
Notation "' p <- m ;; k" := (bind m (fun x => match x with p => k end))
  (at level 61, p pattern, m at next level, right associativity).

Definition py_assert (b : bool) : result unit :=
  if b then Ok tt else Raise AssertionError.

Definition is_ValueError {A : Type} (r : result A) : bool :=
  match r with
  | Raise (ValueError _) => true
  | _ => false
  end.

Definition raises {A : Type} (r : result A) : bool :=
  match r with
  | Raise _ => true
  | Ok _ => false
  end.

(* ================================================================== *)
(** * Numbers *)

(** [int32] arithmetic. *)
Definition wrap32 (z : Z) : Z := (z + 2 ^ 31) mod 2 ^ 32 - 2 ^ 31.

Definition int32_sub (a b : Z) : Z := wrap32 (a - b).

(** [tf.to_float]. *)
Definition to_float (z : Z) : R := IZR z.

(** [tf.floor], as an integer. *)
Definition tf_floor (x : R) : Z := Int_part x.

(** [tf.round]: to the nearest integer, halves to the even one. *)
Definition tf_round (x : R) : Z :=
  let f := tf_floor x in
  let d := (x - IZR f)%R in
  if Rlt_dec d (1 / 2) then f
  else if Rlt_dec (1 / 2) d then f + 1
  else if Z.even f then f else f + 1.

(** [tf.to_float] of an [int32] whose integer value matters: the nearest
    float32.  A float32 has 24 significant bits, so an integer of more
    bits is rounded to a multiple of a power of two, halves going to the
    even neighbour; the result is an integer again. *)
Definition round_to_float32 (z : Z) : Z :=
  let a := Z.abs z in
  if a <? 2 ^ 24 then z
  else
    let e := Z.log2 a - 23 in
    let q := a / 2 ^ e in
    let r := a mod 2 ^ e in
    let half := 2 ^ (e - 1) in
    let q' :=
      if r <? half then q
      else if half <? r then q + 1
      else if Z.even q then q else q + 1 in
    Z.sgn z * (q' * 2 ^ e).

Definition to_float32 (z : Z) : R := IZR (round_to_float32 z).

(** [tf.to_int32] of a float that holds an integer: the integer itself
    within [int32], the nearest bound of [int32] outside. *)
Definition to_int32 (z : Z) : Z := Z.max (- 2 ^ 31) (Z.min (2 ^ 31 - 1) z).

(** [tf.pow] on floats, for a positive base. *)
Definition tf_pow (x y : R) : R := Rpower x y.

(** Float division: not finite when the divisor is zero. *)
Definition float_div (x y : R) : option R :=
  if Req_dec_T y 0 then None else Some (x / y)%R.

Definition omap {A B : Type} (f : A -> B) (o : option A) : option B :=
  match o with
  | Some a => Some (f a)
  | None => None
  end.

Definition obind {A B : Type} (o : option A) (f : A -> option B) : option B :=
  match o with
  | Some a => f a
  | None => None
  end.

(** A scalar float tensor that depends on the session's [global_step]. *)
Definition ScalarTensor : Type := Z -> option R.

(** [tf.constant]. *)
Definition tf_constant (x : R) : ScalarTensor := fun _ => Some x.

(** [tf.cond(pred, true_fn, false_fn)]: only the selected branch flows to
    the result. *)
Definition tf_cond {A : Type} (pred : bool) (true_fn false_fn : A) : A :=
  if pred then true_fn else false_fn.

(** [tf.train.exponential_decay(learning_rate, global_step, decay_steps,
    decay_rate, staircase=True)]:
    [learning_rate * decay_rate ^ floor(global_step / decay_steps)],
    computed in floats. *)
Definition exponential_decay (learning_rate : option R) (global_step : Z)
    (decay_steps : Z) (decay_rate : R) : option R :=
  obind (float_div (to_float global_step) (to_float decay_steps)) (fun p =>
  let p := IZR (tf_floor p) in
  omap (fun lr => (lr * tf_pow decay_rate p)%R) learning_rate).

(** [int(a / b)] under [from __future__ import division]: true division,
    then truncation towards zero. *)
Definition py_int_div (a b : Z) : Z := Z.quot a b.

(* ================================================================== *)
(** * Tensors *)

(** A tensor seen through its two leading axes: its shape and its entries.
    The entries of a rank-3 float tensor are the vectors along its last
    axis. *)
Record Matrix (A : Type) : Type := mkMatrix {
  dim0 : nat;
  dim1 : nat;
  at_ : nat -> nat -> A
}.

Arguments mkMatrix {A} dim0 dim1 at_.
Arguments dim0 {A} m.
Arguments dim1 {A} m.
Arguments at_ {A} m i j.

Definition Tensor3 : Type := Matrix (list R).

(** [tf.transpose] of the two leading axes. *)
Definition tf_transpose {A : Type} (m : Matrix A) : Matrix A :=
  mkMatrix (dim1 m) (dim0 m) (fun i j => at_ m j i).

(** The sum of [f 0 .. f (n-1)]. *)
Fixpoint big_sum (n : nat) (f : nat -> R) : R :=
  match n with
  | O => 0%R
  | S k => (big_sum k f + f k)%R
  end.

(** [tf.reduce_sum(input_tensor, axis=None)]. *)
Definition reduce_sum (m : Matrix R) : R :=
  big_sum (dim0 m) (fun i => big_sum (dim1 m) (fun j => at_ m i j)).

(** [tf.reduce_sum] and [tf.reduce_max] of an [int32] vector. *)
Definition reduce_sum_int (l : list Z) : Z :=
  fold_left (fun acc x => wrap32 (acc + x)) l 0.

Definition reduce_max (l : list Z) : Z :=
  fold_right Z.max (- 2 ^ 31) l.

(** [tf.size]. *)
Definition tf_size {A : Type} (l : list A) : Z := Z.of_nat (List.length l).

(** [tf.sequence_mask(lengths, maxlen, dtype)]: row [i] holds ones at the
    positions before [lengths[i]] and zeros from there on. *)
Definition mask_at (len : Z) (j : nat) : R :=
  if Z.of_nat j <? len then 1%R else 0%R.

Definition sequence_mask (lengths : list Z) (maxlen : nat) : Matrix R :=
  mkMatrix (List.length lengths) maxlen (fun i j => mask_at (nth i lengths 0) j).

(** Broadcasting of one axis: equal sizes, or one of them is 1. *)
Definition broadcast_dim (a b : nat) : option nat :=
  if Nat.eqb a b then Some a
  else if Nat.eqb a 1 then Some b
  else if Nat.eqb b 1 then Some a
  else None.

Definition bcast_index (d i : nat) : nat := if Nat.eqb d 1 then O else i.

(** The element-wise product [a * b] of two float tensors; [None] when the
    shapes cannot be broadcast together. *)
Definition tf_multiply (a b : Matrix R) : option (Matrix R) :=
  match broadcast_dim (dim0 a) (dim0 b), broadcast_dim (dim1 a) (dim1 b) with
  | Some d0, Some d1 =>
      Some (mkMatrix d0 d1 (fun i j =>
        (at_ a (bcast_index (dim0 a) i) (bcast_index (dim1 a) j)
         * at_ b (bcast_index (dim0 b) i) (bcast_index (dim1 b) j))%R))
  | _, _ => None
  end.

(** The value of an RNN state tensor: nested rows, the leading axis being
    the batch. *)
Inductive Tensor : Type :=
| Scalar (x : R)
| Dim (rows : list Tensor).

(** Python's nested structures of state tensors (tuples of per-layer
    states, [LSTMStateTuple]s). *)
Inductive Nest : Type :=
| Leaf (t : Tensor)
| Tuple (items : list Nest).

(** Induction over nested structures. *)
Fixpoint Nest_ind' (P : Nest -> Prop)
    (Hleaf : forall t : Tensor, P (Leaf t))
    (Htuple : forall items : list Nest, Forall P items -> P (Tuple items))
    (n : Nest) {struct n} : P n :=
  match n with
  | Leaf t => Hleaf t
  | Tuple items =>
      Htuple items
        ((fix go (l : list Nest) : Forall P l :=
            match l with
            | [] => Forall_nil P
            | x :: l' =>
                Forall_cons x (Nest_ind' P Hleaf Htuple x) (go l')
            end) items)
  end.

(** [x[i]] on a tuple or on a tensor. *)
Definition getitem (x : Nest) (i : nat) : result Nest :=
  match x with
  | Tuple items =>
      match nth_error items i with
      | Some y => Ok y
      | None => Raise IndexError
      end
  | Leaf (Dim rows) =>
      match nth_error rows i with
      | Some r => Ok (Leaf r)
      | None => Raise IndexError
      end
  | Leaf (Scalar _) => Raise TypeError
  end.

(** [tf.contrib.seq2seq.tile_batch(t, multiplier)]: every entry of the
    batch axis of every tensor of the structure is repeated [multiplier]
    times, the copies of one entry next to each other. *)
Definition tile_rows (rows : list Tensor) (multiplier : Z) : list Tensor :=
  flat_map (fun r => repeat r (Z.to_nat multiplier)) rows.

Fixpoint tile_batch (t : Nest) (multiplier : Z) : result Nest :=
  match t with
  | Leaf (Scalar _) => Raise (ValueError "t must have statically known rank")
  | Leaf (Dim rows) => Ok (Leaf (Dim (tile_rows rows multiplier)))
  | Tuple items =>
      items' <- (fix go (l : list Nest) : result (list Nest) :=
                   match l with
                   | [] => Ok []
                   | x :: l' =>
                       x' <- tile_batch x multiplier ;;
                       l'' <- go l' ;;
                       Ok (x' :: l'')
                   end) items ;;
      Ok (Tuple items')
  end.

(* ================================================================== *)
(** * Configuration and input *)

(** [tf.contrib.learn.ModeKeys]. *)
Inductive Mode : Type := TRAIN | EVAL | INFER.

Definition Mode_eqb (a b : Mode) : bool :=
  match a, b with
  | TRAIN, TRAIN | EVAL, EVAL | INFER, INFER => true
  | _, _ => false
  end.

(** The fields of [hparams] that the module reads. *)
Module hparams.
Record t : Type := mk {
  src_vocab_size : Z;
  tgt_vocab_size : Z;
  num_gpus : Z;
  time_major : bool;
  num_encoder_layers : Z;
  num_decoder_layers : Z;
  (* present on the test hparams only: [hasattr(hparams, ...)] *)
  num_residual_layers : option Z;
  num_encoder_residual_layers : Z;
  num_decoder_residual_layers : Z;
  init_op : string;
  random_seed : option Z;
  init_weight : R;
  share_vocab : bool;
  num_units : Z;
  num_embeddings_partitions : Z;
  learning_rate : R;
  optimizer : string;
  max_gradient_norm : R;
  colocate_gradients_with_ops : bool;
  warmup_steps : Z;
  warmup_scheme : string;
  decay_scheme : string;
  num_train_steps : Z;
  sos : string;
  eos : string;
  tgt_max_len_infer : option Z;
  beam_width : Z;
  length_penalty_weight : R;
  sampling_temperature : R;
  encoder_type : string;
  (* read for its truth value only *)
  attention : bool;
  unit_type : string;
  forget_bias : R;
  dropout : R;
  num_keep_ckpts : Z
}.
End hparams.

(** [iterator_utils.BatchedInput]: the batch delivered by the iterator,
    batch-major. *)
Module BatchedInput.
Record t : Type := mk {
  source : Matrix Z;
  target_input : Matrix Z;
  target_output : Matrix Z;
  source_sequence_length : list Z;
  target_sequence_length : list Z
}.
End BatchedInput.

(** The keyword arguments of [model_helper.create_rnn_cell]. *)
Module cell_args.
Record t (SingleCellFn : Type) : Type := mk {
  unit_type : string;
  num_units : Z;
  num_layers : Z;
  num_residual_layers : Z;
  forget_bias : R;
  dropout : R;
  num_gpus : Z;
  mode : Mode;
  (* [None] when the caller leaves the default *)
  base_gpu : option Z;
  single_cell_fn : option SingleCellFn
}.
Arguments mk {SingleCellFn}.
Arguments unit_type {SingleCellFn}.
Arguments num_units {SingleCellFn}.
Arguments num_layers {SingleCellFn}.
Arguments num_residual_layers {SingleCellFn}.
Arguments forget_bias {SingleCellFn}.
Arguments dropout {SingleCellFn}.
Arguments num_gpus {SingleCellFn}.
Arguments mode {SingleCellFn}.
Arguments base_gpu {SingleCellFn}.
Arguments single_cell_fn {SingleCellFn}.
End cell_args.

(** The keyword arguments of
    [model_helper.create_emb_for_encoder_and_decoder]. *)
Module emb_args.
Record t : Type := mk {
  share_vocab : bool;
  src_vocab_size : Z;
  tgt_vocab_size : Z;
  src_embed_size : Z;
  tgt_embed_size : Z;
  num_partitions : Z
}.
End emb_args.

(** [layers_core.Dense(units, use_bias, name)]. *)
Record Dense : Type := mkDense {
  units : Z;
  use_bias : bool;
  name : string
}.

(** The logits slot of the graph's result. *)
Inductive Logits : Type :=
| no_op
| logits_tensor (t : Tensor3).

(** Token ids of a decoding run: [batch x time], or with a trailing beam
    axis. *)
Inductive Ids : Type :=
| ids2 (m : Matrix Z)
| ids3 (m : Matrix (list Z)).

(** [BasicDecoderOutput] and [FinalBeamSearchDecoderOutput]. *)
Inductive DecoderOutput : Type :=
| BasicDecoderOutput (rnn_output : Tensor3) (sample_id : Matrix Z)
| FinalBeamSearchDecoderOutput (predicted_ids : Matrix (list Z)).

Definition get_rnn_output (o : DecoderOutput) : result Tensor3 :=
  match o with
  | BasicDecoderOutput r _ => Ok r
  | FinalBeamSearchDecoderOutput _ => Raise (AttributeError "rnn_output")
  end.

Definition get_sample_id (o : DecoderOutput) : result (Matrix Z) :=
  match o with
  | BasicDecoderOutput _ s => Ok s
  | FinalBeamSearchDecoderOutput _ => Raise (AttributeError "sample_id")
  end.

Definition get_predicted_ids (o : DecoderOutput) : result (Matrix (list Z)) :=
  match o with
  | BasicDecoderOutput _ _ => Raise (AttributeError "predicted_ids")
  | FinalBeamSearchDecoderOutput p => Ok p
  end.

(** ** The collaborators

    What the module calls but does not define: [model_helper] and the
    TensorFlow primitives.  Cells and embeddings are opaque; a primitive is
    given by the value it computes when the graph is run. *)
Class Framework : Type := {
  Cell : Type;
  Embedding : Type;
  SingleCellFn : Type;
  Initializer : Type;
  (* model_helper *)
  get_initializer : string -> option Z -> R -> result Initializer;
  create_rnn_cell : cell_args.t SingleCellFn -> result Cell;
  create_emb_for_encoder_and_decoder :
    emb_args.t -> result (Embedding * Embedding);
  (* vocabulary table: [tgt_vocab_table.lookup] *)
  tgt_vocab_lookup : string -> Z;
  (* tf.nn *)
  embedding_lookup : Embedding -> Matrix Z -> Tensor3;
  dynamic_rnn : Cell -> Tensor3 -> list Z -> bool -> Tensor3 * Nest;
  bidirectional_dynamic_rnn :
    Cell -> Cell -> Tensor3 -> list Z -> bool ->
    (Tensor3 * Tensor3) * (Nest * Nest);
  (* cross-entropy of one position: the label and the logits there *)
  sparse_softmax_cross_entropy : Z -> list R -> R;
  (* [tf.concat(.., axis=-1)] of the two outputs of a bidirectional run *)
  tf_concat_last : Tensor3 * Tensor3 -> Tensor3;
  (* the output projection applied to a rank-3 tensor *)
  dense_apply : Dense -> Tensor3 -> Tensor3
}.

(** ** The object under construction

    The attributes of [self] that are set before [build_graph] runs. *)
Module Self.
Record t {F : Framework} : Type := mk {
  iterator : BatchedInput.t;
  mode : Mode;
  src_vocab_size : Z;
  tgt_vocab_size : Z;
  num_gpus : Z;
  time_major : bool;
  single_cell_fn : option SingleCellFn;
  num_encoder_layers : Z;
  num_decoder_layers : Z;
  num_encoder_residual_layers : Z;
  num_decoder_residual_layers : Z;
  embedding_encoder : Embedding;
  embedding_decoder : Embedding;
  batch_size : Z;
  output_layer : Dense
}.
Arguments mk {F}.
End Self.

Section Graph.
Context {F : Framework}.

(** ** [tf.contrib.seq2seq]: helpers and decoders *)

Inductive Helper : Type :=
| TrainingHelper (inputs : Tensor3) (sequence_length : list Z)
    (time_major : bool)
| SampleEmbeddingHelper (embedding : Embedding) (start_tokens : list Z)
    (end_token : Z) (softmax_temperature : R) (seed : option Z)
| GreedyEmbeddingHelper (embedding : Embedding) (start_tokens : list Z)
    (end_token : Z).

Inductive Decoder : Type :=
| BasicDecoder (cell : Cell) (helper : Helper) (initial_state : Nest)
    (output_layer : option Dense)
| BeamSearchDecoder (cell : Cell) (embedding : Embedding)
    (start_tokens : list Z) (end_token : Z) (initial_state : Nest)
    (beam_width : Z) (output_layer : Dense) (length_penalty_weight : R).

(** The decoding loop, per kind of decoder.  The arguments after the
    decoder are [maximum_iterations] and [output_time_major]. *)
Class Decoding : Type := {
  basic_decode :
    Cell -> Helper -> Nest -> option Dense -> option Z -> bool ->
    (Tensor3 * Matrix Z) * Nest;
  beam_search_decode :
    Decoder -> option Z -> bool -> Matrix (list Z) * Nest
}.

Context {D : Decoding}.

(** [tf.contrib.seq2seq.dynamic_decode]: the final outputs of the decoder
    (a [BasicDecoderOutput] for a [BasicDecoder], a
    [FinalBeamSearchDecoderOutput] for a [BeamSearchDecoder]) and its final
    state. *)
Definition dynamic_decode (decoder : Decoder) (maximum_iterations : option Z)
    (output_time_major : bool) : DecoderOutput * Nest :=
  match decoder with
  | BasicDecoder cell helper initial_state output_layer =>
      let '((rnn_output, sample_id), final_state) :=
        basic_decode cell helper initial_state output_layer
          maximum_iterations output_time_major in
      (BasicDecoderOutput rnn_output sample_id, final_state)
  | BeamSearchDecoder _ _ _ _ _ _ _ _ =>
      let '(predicted_ids, final_state) :=
        beam_search_decode decoder maximum_iterations output_time_major in
      (FinalBeamSearchDecoderOutput predicted_ids, final_state)
  end.

End Graph.

(* ================================================================== *)
(** * class BaseModel *)

Section BaseModel.
Context {F : Framework} {D : Decoding}.

(** The methods that [BaseModel] leaves to its subclasses. *)
Class Seq2Seq : Type := {
  _build_encoder : Self.t -> hparams.t -> result (Tensor3 * Nest);
  _build_decoder_cell :
    Self.t -> hparams.t -> Tensor3 -> Nest -> list Z -> result (Cell * Nest)
}.

(** ** Learning rate *)

(** [_get_learning_rate_warmup]; [learning_rate] is [self.learning_rate]
    on entry, the argument of the tensors is [self.global_step]. *)
Definition _get_learning_rate_warmup (learning_rate : ScalarTensor)
    (hp : hparams.t) : result ScalarTensor :=
  let warmup_steps := hparams.warmup_steps hp in
  let warmup_scheme := hparams.warmup_scheme hp in
  inv_decay <-
    (if String.eqb warmup_scheme "t2t" then
       let warmup_factor :=
         omap exp (float_div (ln 0.01) (to_float warmup_steps)) in
       Ok (fun global_step : Z =>
             omap (fun w =>
                     tf_pow w (to_float (int32_sub warmup_steps global_step)))
                  warmup_factor)
     else
       Raise (ValueError (String.append "Unknown warmup scheme " warmup_scheme))) ;;
  Ok (fun global_step : Z =>
        tf_cond (global_step <? hparams.warmup_steps hp)
          (obind (inv_decay global_step) (fun d =>
             omap (fun lr => (d * lr)%R) (learning_rate global_step)))
          (learning_rate global_step)).

(** Lines 213-231 of [_get_learning_rate_decay]: the triple
    [(start_decay_step, decay_steps, decay_factor)]. *)
Definition decay_schedule (hp : hparams.t) : result (Z * Z * R) :=
  let decay_scheme := hparams.decay_scheme hp in
  let num_train_steps := hparams.num_train_steps hp in
  if existsb (String.eqb decay_scheme) ["luong5"; "luong10"; "luong234"] then
    let decay_factor := 0.5%R in
    '(start_decay_step, decay_times) <-
      (if String.eqb decay_scheme "luong5" then
         Ok (py_int_div num_train_steps 2, 5)
       else if String.eqb decay_scheme "luong10" then
         Ok (py_int_div num_train_steps 2, 10)
       else if String.eqb decay_scheme "luong234" then
         Ok (py_int_div (num_train_steps * 2) 3, 4)
       else Raise (UnboundLocalError "start_decay_step")) ;;
    let remain_steps := num_train_steps - start_decay_step in
    let decay_steps := py_int_div remain_steps decay_times in
    Ok (start_decay_step, decay_steps, decay_factor)
  else if String.eqb decay_scheme "" then
    (* no decay *)
    Ok (num_train_steps, 0, 1.0%R)
  else
    Raise (ValueError (String.append "Unknown decay scheme " decay_scheme)).

(** [_get_learning_rate_decay]: [start_decay_step] and [decay_steps] are
    Python integers that the graph turns into constants; the comparison
    and the decay are followed for schedules whose values are int32
    values, that is for [num_train_steps] below 2^31. *)
Definition _get_learning_rate_decay (learning_rate : ScalarTensor)
    (hp : hparams.t) : result ScalarTensor :=
  '(start_decay_step, decay_steps, decay_factor) <- decay_schedule hp ;;
  Ok (fun global_step : Z =>
        tf_cond (global_step <? start_decay_step)
          (learning_rate global_step)
          (exponential_decay (learning_rate global_step)
             (int32_sub global_step start_decay_step)
             decay_steps decay_factor)).

(** Lines 140-144 of [__init__]: the constant rate, then warmup, then
    decay. *)
Definition build_learning_rate (hp : hparams.t) : result ScalarTensor :=
  let learning_rate := tf_constant (hparams.learning_rate hp) in
  learning_rate <- _get_learning_rate_warmup learning_rate hp ;;
  _get_learning_rate_decay learning_rate hp.

(** ** Cells *)

Definition _build_encoder_cell (self : Self.t) (hp : hparams.t)
    (num_layers num_residual_layers : Z) (base_gpu : Z) : result Cell :=
  create_rnn_cell
    (cell_args.mk
       (hparams.unit_type hp)
       (hparams.num_units hp)
       num_layers
       num_residual_layers
       (hparams.forget_bias hp)
       (hparams.dropout hp)
       (hparams.num_gpus hp)
       (Self.mode self)
       (Some base_gpu)
       (Self.single_cell_fn self)).

(** ** Decoder *)

Definition _get_infer_maximum_iterations (hp : hparams.t)
    (source_sequence_length : list Z) : Z :=
  match hparams.tgt_max_len_infer hp with
  | Some (Zpos _ as n) | Some (Zneg _ as n) => n
  | Some 0 | None =>
      let decoding_length_factor := 2.0%R in
      let max_encoder_length := reduce_max source_sequence_length in
      to_int32
        (tf_round (to_float32 max_encoder_length * decoding_length_factor))
  end.

(** Lines 466-519 of [_build_decoder]: the decoder of the inference
    branch. *)
Definition infer_my_decoder (self : Self.t) (hp : hparams.t) (cell : Cell)
    (decoder_initial_state : Nest) (tgt_sos_id tgt_eos_id : Z) : Decoder :=
  let beam_width := hparams.beam_width hp in
  let length_penalty_weight := hparams.length_penalty_weight hp in
  let start_tokens := repeat tgt_sos_id (Z.to_nat (Self.batch_size self)) in
  let end_token := tgt_eos_id in
  if 0 <? beam_width then
    BeamSearchDecoder cell (Self.embedding_decoder self) start_tokens
      end_token decoder_initial_state beam_width (Self.output_layer self)
      length_penalty_weight
  else
    let sampling_temperature := hparams.sampling_temperature hp in
    let helper :=
      if Rlt_dec 0 sampling_temperature then
        SampleEmbeddingHelper (Self.embedding_decoder self) start_tokens
          end_token sampling_temperature (hparams.random_seed hp)
      else
        GreedyEmbeddingHelper (Self.embedding_decoder self) start_tokens
          end_token in
    BasicDecoder cell helper decoder_initial_state
      (Some (Self.output_layer self)).

Definition _build_decoder {M : Seq2Seq} (self : Self.t)
    (encoder_outputs : Tensor3) (encoder_state : Nest) (hp : hparams.t)
    : result (Logits * Ids * Nest) :=
  let tgt_sos_id := wrap32 (tgt_vocab_lookup (hparams.sos hp)) in
  let tgt_eos_id := wrap32 (tgt_vocab_lookup (hparams.eos hp)) in
  let iterator := Self.iterator self in
  let maximum_iterations :=
    _get_infer_maximum_iterations hp
      (BatchedInput.source_sequence_length iterator) in
  '(cell, decoder_initial_state) <-
    _build_decoder_cell self hp encoder_outputs encoder_state
      (BatchedInput.source_sequence_length iterator) ;;
  if negb (Mode_eqb (Self.mode self) INFER) then
    (* Train or eval *)
    let target_input := BatchedInput.target_input iterator in
    let target_input :=
      if Self.time_major self then tf_transpose target_input
      else target_input in
    let decoder_emb_inp :=
      embedding_lookup (Self.embedding_decoder self) target_input in
    let helper :=
      TrainingHelper decoder_emb_inp
        (BatchedInput.target_sequence_length iterator)
        (Self.time_major self) in
    let my_decoder := BasicDecoder cell helper decoder_initial_state None in
    let '(decoder_outputs, final_context_state) :=
      dynamic_decode my_decoder None (Self.time_major self) in
    sample_id <- get_sample_id decoder_outputs ;;
    rnn_output <- get_rnn_output decoder_outputs ;;
    let logits := dense_apply (Self.output_layer self) rnn_output in
    Ok (logits_tensor logits, ids2 sample_id, final_context_state)
  else
    (* Inference *)
    let beam_width := hparams.beam_width hp in
    let my_decoder :=
      infer_my_decoder self hp cell decoder_initial_state
        tgt_sos_id tgt_eos_id in
    let '(decoder_outputs, final_context_state) :=
      dynamic_decode my_decoder (Some maximum_iterations)
        (Self.time_major self) in
    if 0 <? beam_width then
      sample_id <- get_predicted_ids decoder_outputs ;;
      Ok (no_op, ids3 sample_id, final_context_state)
    else
      logits <- get_rnn_output decoder_outputs ;;
      sample_id <- get_sample_id decoder_outputs ;;
      Ok (logits_tensor logits, ids2 sample_id, final_context_state).

(** ** Loss *)

Definition get_max_time {A : Type} (self : Self.t) (tensor : Matrix A) : nat :=
  if Self.time_major self then dim0 tensor else dim1 tensor.

(** [tf.nn.sparse_softmax_cross_entropy_with_logits]: the cross-entropy of
    every position; the shape of the labels must be the shape of the
    logits without its last axis. *)
Definition sparse_softmax_cross_entropy_with_logits (labels : Matrix Z)
    (logits : Tensor3) : option (Matrix R) :=
  if Nat.eqb (dim0 labels) (dim0 logits) && Nat.eqb (dim1 labels) (dim1 logits)
  then
    Some (mkMatrix (dim0 labels) (dim1 labels) (fun i j =>
            sparse_softmax_cross_entropy (at_ labels i j) (at_ logits i j)))
  else None.

Definition _compute_loss (self : Self.t) (logits : Tensor3) : option R :=
  let target_output := BatchedInput.target_output (Self.iterator self) in
  let target_output :=
    if Self.time_major self then tf_transpose target_output
    else target_output in
  let max_time := get_max_time self target_output in
  obind (sparse_softmax_cross_entropy_with_logits target_output logits)
    (fun crossent =>
  let target_weights :=
    sequence_mask
      (BatchedInput.target_sequence_length (Self.iterator self)) max_time in
  let target_weights :=
    if Self.time_major self then tf_transpose target_weights
    else target_weights in
  obind (tf_multiply crossent target_weights) (fun weighted =>
  float_div (reduce_sum weighted) (to_float (Self.batch_size self)))).

(** ** [build_graph]

    The device on which the loss is placed is a hint to the execution
    engine and has no value here. *)

Definition build_graph {M : Seq2Seq} (self : Self.t) (hp : hparams.t)
    : result (Logits * option (option R) * Nest * Ids) :=
  '(encoder_outputs, encoder_state) <- _build_encoder self hp ;;
  '(logits, sample_id, final_context_state) <-
    _build_decoder self encoder_outputs encoder_state hp ;;
  loss <-
    (if negb (Mode_eqb (Self.mode self) INFER) then
       match logits with
       | logits_tensor t => Ok (Some (_compute_loss self t))
       | no_op => Raise TypeError
       end
     else Ok None) ;;
  Ok (logits, loss, final_context_state, sample_id).

End BaseModel.

(* ================================================================== *)
(** * class Model(BaseModel) *)

Section Model.
Context {F : Framework} {D : Decoding}.

Definition _build_bidirectional_rnn (self : Self.t) (inputs : Tensor3)
    (sequence_length : list Z) (hp : hparams.t)
    (num_bi_layers num_bi_residual_layers : Z) (base_gpu : Z)
    : result (Tensor3 * (Nest * Nest)) :=
  fw_cell <-
    _build_encoder_cell self hp num_bi_layers num_bi_residual_layers
      base_gpu ;;
  bw_cell <-
    _build_encoder_cell self hp num_bi_layers num_bi_residual_layers
      (base_gpu + num_bi_layers) ;;
  let '(bi_outputs, bi_state) :=
    bidirectional_dynamic_rnn fw_cell bw_cell inputs sequence_length
      (Self.time_major self) in
  Ok (tf_concat_last bi_outputs, bi_state).

(** [range(n)]. *)
Definition py_range (n : Z) : list nat := seq 0 (Z.to_nat n).

(** Lines 698-703 of [_build_encoder]: the loop that appends, layer by
    layer, the forward and then the backward state. *)
Definition alternate_states (bi_encoder_state : Nest * Nest)
    (num_bi_layers : Z) : result Nest :=
  encoder_state <-
    fold_left
      (fun (acc : result (list Nest)) (layer_id : nat) =>
         encoder_state <- acc ;;
         fw <- getitem (fst bi_encoder_state) layer_id ;;
         encoder_state <- Ok (encoder_state ++ [fw])%list ;;
         bw <- getitem (snd bi_encoder_state) layer_id ;;
         Ok (encoder_state ++ [bw])%list)
      (py_range num_bi_layers) (Ok []) ;;
  Ok (Tuple encoder_state).

Definition Model_build_encoder (self : Self.t) (hp : hparams.t)
    : result (Tensor3 * Nest) :=
  let num_layers := Self.num_encoder_layers self in
  let num_residual_layers := Self.num_encoder_residual_layers self in
  let iterator := Self.iterator self in
  let source := BatchedInput.source iterator in
  let source :=
    if Self.time_major self then tf_transpose source else source in
  let encoder_emb_inp :=
    embedding_lookup (Self.embedding_encoder self) source in
  if String.eqb (hparams.encoder_type hp) "uni" then
    cell <- _build_encoder_cell self hp num_layers num_residual_layers 0 ;;
    Ok (dynamic_rnn cell encoder_emb_inp
          (BatchedInput.source_sequence_length iterator)
          (Self.time_major self))
  else if String.eqb (hparams.encoder_type hp) "bi" then
    let num_bi_layers := py_int_div num_layers 2 in
    let num_bi_residual_layers := py_int_div num_residual_layers 2 in
    '(encoder_outputs, bi_encoder_state) <-
      _build_bidirectional_rnn self encoder_emb_inp
        (BatchedInput.source_sequence_length iterator) hp
        num_bi_layers num_bi_residual_layers 0 ;;
    encoder_state <-
      (if num_bi_layers =? 1 then
         Ok (Tuple [fst bi_encoder_state; snd bi_encoder_state])
       else
         (* alternatively concat forward and backward states *)
         alternate_states bi_encoder_state num_bi_layers) ;;
    Ok (encoder_outputs, encoder_state)
  else
    Raise (ValueError
             (String.append "Unknown encoder_type " (hparams.encoder_type hp))).

Definition Model_build_decoder_cell (self : Self.t) (hp : hparams.t)
    (encoder_outputs : Tensor3) (encoder_state : Nest)
    (source_sequence_length : list Z) : result (Cell * Nest) :=
  if hparams.attention hp then
    Raise (ValueError "BasicModel doesn't support attention.")
  else
    cell <-
      create_rnn_cell
        (cell_args.mk
           (hparams.unit_type hp)
           (hparams.num_units hp)
           (Self.num_decoder_layers self)
           (Self.num_decoder_residual_layers self)
           (hparams.forget_bias hp)
           (hparams.dropout hp)
           (Self.num_gpus self)
           (Self.mode self)
           None
           (Self.single_cell_fn self)) ;;
    (* For beam search, we need to replicate encoder infos beam_width times *)
    decoder_initial_state <-
      (if Mode_eqb (Self.mode self) INFER && (0 <? hparams.beam_width hp) then
         tile_batch encoder_state (hparams.beam_width hp)
       else Ok encoder_state) ;;
    Ok (cell, decoder_initial_state).

#[export] Instance Model : Seq2Seq := {|
  _build_encoder := Model_build_encoder;
  _build_decoder_cell := Model_build_decoder_cell
|}.

End Model.

(* ================================================================== *)
(** * Construction and the session calls *)

(** Decoded words, shaped like the ids they come from. *)
Inductive Words : Type :=
| words2 (m : Matrix string)
| words3 (m : Matrix (list string)).

(** [tf.train.GradientDescentOptimizer] and [tf.train.AdamOptimizer]. *)
Inductive Optimizer : Type :=
| GradientDescentOptimizer (learning_rate : ScalarTensor)
| AdamOptimizer (learning_rate : ScalarTensor).

(** The constructed object.  An attribute that [__init__] sets in some
    modes only is [None] in the others.  The gradient and summary
    operations, the saver and the variable listing belong to the
    collaborators and carry no value here. *)
Module BaseModel.
Record t : Type := mk {
  iterator : BatchedInput.t;
  mode : Mode;
  time_major : bool;
  batch_size : Z;
  (* the loss is [None] when the float it stands for is not finite *)
  train_loss : option (option R);
  eval_loss : option (option R);
  word_count : option Z;
  predict_count : option Z;
  infer_logits : option Logits;
  final_context_state : option Nest;
  sample_id : option Ids;
  sample_words : option Words;
  learning_rate : option ScalarTensor;
  opt : option Optimizer
}.
End BaseModel.

(** Attribute access on the constructed object. *)
Definition getattr {A : Type} (attr : string) (field : option A) : result A :=
  match field with
  | Some a => Ok a
  | None => Raise (AttributeError attr)
  end.

Section Init.
Context {F : Framework} {D : Decoding} {M : Seq2Seq}.

(** [reverse_target_vocab_table.lookup(tf.to_int64(self.sample_id))]. *)
Definition lookup_words (table : Z -> string) (sample_id : Ids) : Words :=
  match sample_id with
  | ids2 m => words2 (mkMatrix (dim0 m) (dim1 m) (fun i j => table (at_ m i j)))
  | ids3 m =>
      words3 (mkMatrix (dim0 m) (dim1 m) (fun i j => map table (at_ m i j)))
  end.

(** [BaseModel.__init__].  [extra_args] is [extra_args.single_cell_fn] when
    [extra_args] is given. *)
Definition __init__ (hp : hparams.t) (mode : Mode)
    (iterator : BatchedInput.t)
    (reverse_target_vocab_table : option (Z -> string))
    (extra_args : option (option SingleCellFn)) : result BaseModel.t :=
  let single_cell_fn :=
    match extra_args with
    | Some e => e
    | None => None
    end in
  (* Set num layers *)
  let num_encoder_layers := hparams.num_encoder_layers hp in
  let num_decoder_layers := hparams.num_decoder_layers hp in
  _ <- py_assert (negb (num_encoder_layers =? 0)) ;;
  _ <- py_assert (negb (num_decoder_layers =? 0)) ;;
  (* Set num residual layers *)
  let '(num_encoder_residual_layers, num_decoder_residual_layers) :=
    match hparams.num_residual_layers hp with
    | Some n => (n, n)
    | None => (hparams.num_encoder_residual_layers hp,
               hparams.num_decoder_residual_layers hp)
    end in
  (* Initializer *)
  _ <- get_initializer (hparams.init_op hp) (hparams.random_seed hp)
         (hparams.init_weight hp) ;;
  (* Embeddings *)
  '(embedding_encoder, embedding_decoder) <-
    create_emb_for_encoder_and_decoder
      (emb_args.mk (hparams.share_vocab hp)
         (hparams.src_vocab_size hp) (hparams.tgt_vocab_size hp)
         (hparams.num_units hp) (hparams.num_units hp)
         (hparams.num_embeddings_partitions hp)) ;;
  let batch_size := tf_size (BatchedInput.source_sequence_length iterator) in
  (* Projection *)
  let output_layer :=
    mkDense (hparams.tgt_vocab_size hp) false "output_projection" in
  let self :=
    Self.mk iterator mode (hparams.src_vocab_size hp)
      (hparams.tgt_vocab_size hp) (hparams.num_gpus hp)
      (hparams.time_major hp) single_cell_fn
      num_encoder_layers num_decoder_layers
      num_encoder_residual_layers num_decoder_residual_layers
      embedding_encoder embedding_decoder batch_size output_layer in
  (* Train graph *)
  '(logits, loss, final_context_state, sample_id) <- build_graph self hp ;;
  sample_words <-
    (if Mode_eqb mode INFER then
       table <- getattr "lookup" reverse_target_vocab_table ;;
       Ok (Some (lookup_words table sample_id))
     else Ok None) ;;
  let target_count :=
    reduce_sum_int (BatchedInput.target_sequence_length iterator) in
  (* Gradients and SGD update operation for training the model. *)
  '(learning_rate, opt) <-
    (if Mode_eqb mode TRAIN then
       learning_rate <- build_learning_rate hp ;;
       let opt :=
         if String.eqb (hparams.optimizer hp) "sgd" then
           Some (GradientDescentOptimizer learning_rate)
         else if String.eqb (hparams.optimizer hp) "adam" then
           Some (AdamOptimizer learning_rate)
         else None in
       opt <- match opt with
              | Some o => Ok o
              | None => Raise (UnboundLocalError "opt")
              end ;;
       Ok (Some learning_rate, Some opt)
     else Ok (None, None)) ;;
  Ok (BaseModel.mk iterator mode (hparams.time_major hp) batch_size
        (if Mode_eqb mode TRAIN then loss else None)
        (if Mode_eqb mode EVAL then loss else None)
        (if Mode_eqb mode TRAIN then
           Some (wrap32
                   (reduce_sum_int
                      (BatchedInput.source_sequence_length iterator)
                    + target_count))
         else None)
        (if negb (Mode_eqb mode INFER) then Some target_count else None)
        (if Mode_eqb mode INFER then Some logits else None)
        (if Mode_eqb mode INFER then Some final_context_state else None)
        (if Mode_eqb mode INFER then Some sample_id else None)
        sample_words learning_rate opt).

(** [train(sess)]: the values fetched that the model computes itself,
    [(train_loss, predict_count, global_step, word_count, batch_size,
    learning_rate)], for a session whose [global_step] is the argument.
    The run applies [self.update], which increments [global_step]: the
    step that is fetched is the incremented one, the learning rate is the
    one the update was made with. *)
Definition train (self : BaseModel.t) (global_step : Z)
    : result (option R * Z * Z * Z * Z * option R) :=
  _ <- py_assert (Mode_eqb (BaseModel.mode self) TRAIN) ;;
  _ <- getattr "update" (BaseModel.opt self) ;;
  train_loss <- getattr "train_loss" (BaseModel.train_loss self) ;;
  predict_count <- getattr "predict_count" (BaseModel.predict_count self) ;;
  word_count <- getattr "word_count" (BaseModel.word_count self) ;;
  learning_rate <- getattr "learning_rate" (BaseModel.learning_rate self) ;;
  Ok (train_loss, predict_count, wrap32 (global_step + 1), word_count,
      BaseModel.batch_size self, learning_rate global_step).

(** [eval(sess)]: [(eval_loss, predict_count, batch_size)]. *)
Definition eval (self : BaseModel.t)
    : result (option R * Z * Z) :=
  _ <- py_assert (Mode_eqb (BaseModel.mode self) EVAL) ;;
  eval_loss <- getattr "eval_loss" (BaseModel.eval_loss self) ;;
  predict_count <- getattr "predict_count" (BaseModel.predict_count self) ;;
  Ok (eval_loss, predict_count, BaseModel.batch_size self).

(** [infer(sess)]: [(infer_logits, sample_id, sample_words)]. *)
Definition infer (self : BaseModel.t)
    : result (Logits * Ids * Words) :=
  _ <- py_assert (Mode_eqb (BaseModel.mode self) INFER) ;;
  infer_logits <- getattr "infer_logits" (BaseModel.infer_logits self) ;;
  sample_id <- getattr "sample_id" (BaseModel.sample_id self) ;;
  sample_words <- getattr "sample_words" (BaseModel.sample_words self) ;;
  Ok (infer_logits, sample_id, sample_words).

End Init.

(* ================================================================== *)
(** * Well-shaped inputs of the loss *)

(** The entry of a rank-3 tensor for sequence [i] at time [j], whichever
    of the two layouts the tensor has. *)
Definition at_batch_time {A : Type} (time_major : bool) (m : Matrix A)
    (i j : nat) : A :=
  if time_major then at_ m j i else at_ m i j.

(** A batch of [b] sequences padded to [T] steps, with logits laid out as
    the model's [time_major] says. *)
Definition loss_shapes {F : Framework} (self : Self.t) (logits : Tensor3)
    (b T : nat) : Prop :=
  let iterator := Self.iterator self in
  dim0 (BatchedInput.target_output iterator) = b /\
  dim1 (BatchedInput.target_output iterator) = T /\
  List.length (BatchedInput.target_sequence_length iterator) = b /\
  Self.batch_size self = Z.of_nat b /\
  (if Self.time_major self
   then dim0 logits = T /\ dim1 logits = b
   else dim0 logits = b /\ dim1 logits = T).

(* ================================================================== *)
(** * Vocabulary of the statements *)

(** [hparams] with another [sampling_temperature]. *)
Definition set_sampling_temperature (hp : hparams.t) (temperature : R)
    : hparams.t :=
  hparams.mk
    (hparams.src_vocab_size hp) (hparams.tgt_vocab_size hp)
    (hparams.num_gpus hp) (hparams.time_major hp)
    (hparams.num_encoder_layers hp) (hparams.num_decoder_layers hp)
    (hparams.num_residual_layers hp)
    (hparams.num_encoder_residual_layers hp)
    (hparams.num_decoder_residual_layers hp)
    (hparams.init_op hp) (hparams.random_seed hp) (hparams.init_weight hp)
    (hparams.share_vocab hp) (hparams.num_units hp)
    (hparams.num_embeddings_partitions hp)
    (hparams.learning_rate hp) (hparams.optimizer hp)
    (hparams.max_gradient_norm hp) (hparams.colocate_gradients_with_ops hp)
    (hparams.warmup_steps hp) (hparams.warmup_scheme hp)
    (hparams.decay_scheme hp) (hparams.num_train_steps hp)
    (hparams.sos hp) (hparams.eos hp) (hparams.tgt_max_len_infer hp)
    (hparams.beam_width hp) (hparams.length_penalty_weight hp)
    temperature
    (hparams.encoder_type hp) (hparams.attention hp) (hparams.unit_type hp)
    (hparams.forget_bias hp) (hparams.dropout hp) (hparams.num_keep_ckpts hp).

(** [tiled] is [t] with every batch entry of every tensor replicated [k]
    times: entry [i] of [t] fills the positions [i * k .. i * k + k - 1] of
    [tiled]. *)
Inductive replicated (k : nat) : Nest -> Nest -> Prop :=
| replicated_leaf (rows rows' : list Tensor) :
    List.length rows' = (List.length rows * k)%nat ->
    (forall i j : nat,
        (j < k)%nat -> nth_error rows' (i * k + j) = nth_error rows i) ->
    replicated k (Leaf (Dim rows)) (Leaf (Dim rows'))
| replicated_tuple (items items' : list Nest) :
    Forall2 (replicated k) items items' ->
    replicated k (Tuple items) (Tuple items').

(** The arguments with which [_build_decoder_cell] asks for its cell. *)
Definition decoder_cell_args {F : Framework} (self : Self.t) (hp : hparams.t)
    : cell_args.t SingleCellFn :=
  cell_args.mk
    (hparams.unit_type hp) (hparams.num_units hp)
    (Self.num_decoder_layers self) (Self.num_decoder_residual_layers self)
    (hparams.forget_bias hp) (hparams.dropout hp)
    (Self.num_gpus self) (Self.mode self) None (Self.single_cell_fn self).

(** The arguments with which the encoder asks for a cell. *)
Definition encoder_cell_args {F : Framework} (self : Self.t) (hp : hparams.t)
    (num_layers num_residual_layers base_gpu : Z) : cell_args.t SingleCellFn :=
  cell_args.mk
    (hparams.unit_type hp) (hparams.num_units hp)
    num_layers num_residual_layers
    (hparams.forget_bias hp) (hparams.dropout hp)
    (hparams.num_gpus hp) (Self.mode self) (Some base_gpu)
    (Self.single_cell_fn self).

(** Every tensor of the structure has a batch axis. *)
Fixpoint batched (n : Nest) : bool :=
  match n with
  | Leaf (Dim _) => true
  | Leaf (Scalar _) => false
  | Tuple items => forallb batched items
  end.

(** The object on which [__init__] calls [build_graph], given the
    embeddings that [init_embeddings] obtained. *)
Definition initial_self {F : Framework} (hp : hparams.t) (mode : Mode)
    (iterator : BatchedInput.t) (extra_args : option (option SingleCellFn))
    (embedding_encoder embedding_decoder : Embedding) : Self.t :=
  Self.mk iterator mode (hparams.src_vocab_size hp)
    (hparams.tgt_vocab_size hp) (hparams.num_gpus hp)
    (hparams.time_major hp)
    match extra_args with
    | Some e => e
    | None => None
    end
    (hparams.num_encoder_layers hp) (hparams.num_decoder_layers hp)
    match hparams.num_residual_layers hp with
    | Some n => n
    | None => hparams.num_encoder_residual_layers hp
    end
    match hparams.num_residual_layers hp with
    | Some n => n
    | None => hparams.num_decoder_residual_layers hp
    end
    embedding_encoder embedding_decoder
    (tf_size (BatchedInput.source_sequence_length iterator))
    (mkDense (hparams.tgt_vocab_size hp) false "output_projection").

(** The collaborators accept the configuration: the initializer and the
    embeddings are obtained, and the cell factory returns a cell for each
    argument record that the constructor passes it, that is for the
    encoder cell of a unidirectional encoder, for the forward and the
    backward cell of a bidirectional one, and for the decoder cell when no
    attention is requested.  Nothing is asked of the factory on other
    arguments. *)
Definition collaborators_accept {F : Framework} (hp : hparams.t)
    (mode : Mode) (iterator : BatchedInput.t)
    (extra_args : option (option SingleCellFn)) : Prop :=
  (exists i : Initializer,
      get_initializer (hparams.init_op hp) (hparams.random_seed hp)
        (hparams.init_weight hp) = Ok i) /\
  exists embedding_encoder embedding_decoder : Embedding,
    create_emb_for_encoder_and_decoder
      (emb_args.mk (hparams.share_vocab hp)
         (hparams.src_vocab_size hp) (hparams.tgt_vocab_size hp)
         (hparams.num_units hp) (hparams.num_units hp)
         (hparams.num_embeddings_partitions hp))
    = Ok (embedding_encoder, embedding_decoder) /\
    let self :=
      initial_self hp mode iterator extra_args
        embedding_encoder embedding_decoder in
    let num_bi_layers := py_int_div (Self.num_encoder_layers self) 2 in
    let num_bi_residual_layers :=
      py_int_div (Self.num_encoder_residual_layers self) 2 in
    (hparams.encoder_type hp = "uni" ->
     exists cell : Cell,
       create_rnn_cell
         (encoder_cell_args self hp (Self.num_encoder_layers self)
            (Self.num_encoder_residual_layers self) 0) = Ok cell) /\
    (hparams.encoder_type hp = "bi" ->
     exists fw bw : Cell,
       create_rnn_cell
         (encoder_cell_args self hp num_bi_layers num_bi_residual_layers 0)
       = Ok fw /\
       create_rnn_cell
         (encoder_cell_args self hp num_bi_layers num_bi_residual_layers
            (0 + num_bi_layers))
       = Ok bw) /\
    (hparams.attention hp = false ->
     exists cell : Cell,
       create_rnn_cell (decoder_cell_args self hp) = Ok cell).

(** The final states of the RNN primitives are made of batched tensors,
    and those of a bidirectional run whose cells have [num_bi_layers > 1]
    layers are the tuples of the layers' states. *)
Definition states_well_formed {F : Framework} (hp : hparams.t) : Prop :=
  let num_bi_layers := py_int_div (hparams.num_encoder_layers hp) 2 in
  (forall cell inputs lengths time_major,
      batched (snd (dynamic_rnn cell inputs lengths time_major)) = true) /\
  (forall fw_args bw_args fw bw inputs lengths time_major,
      create_rnn_cell fw_args = Ok fw ->
      create_rnn_cell bw_args = Ok bw ->
      cell_args.num_layers fw_args = num_bi_layers ->
      cell_args.num_layers bw_args = num_bi_layers ->
      let st :=
        snd (bidirectional_dynamic_rnn fw bw inputs lengths time_major) in
      batched (fst st) = true /\ batched (snd st) = true /\
      (1 < num_bi_layers ->
       exists lf lb : list Nest,
         st = (Tuple lf, Tuple lb) /\
         List.length lf = Z.to_nat num_bi_layers /\
         List.length lb = Z.to_nat num_bi_layers)).

(** The names that the module recognizes. *)
Definition known_encoder_type (hp : hparams.t) : bool :=
  String.eqb (hparams.encoder_type hp) "uni"
  || String.eqb (hparams.encoder_type hp) "bi".

Definition known_warmup_scheme (hp : hparams.t) : bool :=
  String.eqb (hparams.warmup_scheme hp) "t2t".

Definition known_decay_scheme (hp : hparams.t) : bool :=
  String.eqb (hparams.decay_scheme hp) ""
  || existsb (String.eqb (hparams.decay_scheme hp))
       ["luong5"; "luong10"; "luong234"].

(** A configuration with an unrecognized name or an unsupported
    combination, whatever the mode. *)
Definition misconfigured (hp : hparams.t) : bool :=
  negb (known_warmup_scheme hp)
  || negb (known_decay_scheme hp)
  || negb (known_encoder_type hp)
  || hparams.attention hp.

(** The configurations that the constructor examines and rejects in a
    given mode: the schedule names are read in TRAIN mode only. *)
Definition rejected (hp : hparams.t) (mode : Mode) : bool :=
  negb (known_encoder_type hp)
  || hparams.attention hp
  || (Mode_eqb mode TRAIN
      && (negb (known_warmup_scheme hp) || negb (known_decay_scheme hp))).

(* ================================================================== *)
(** * A plain instance of the collaborators, and sample inputs

    Cells are their own construction arguments, the final state of a run
    has one tensor per layer of the cell, decoding emits nothing. *)

Definition plain_layer_states (cell : cell_args.t unit) : Nest :=
  let n := cell_args.num_layers cell in
  let direction :=
    match cell_args.base_gpu cell with
    | Some g => IZR g
    | None => 0%R
    end in
  if 1 <? n then
    Tuple (map (fun l : nat => Leaf (Dim [Scalar (INR l); Scalar direction]))
             (seq 0 (Z.to_nat n)))
  else Leaf (Dim [Scalar 0%R; Scalar direction]).

(** The cross-entropy of a softmax:
    [log (sum_k exp logits[k]) - logits[label]]. *)
Definition softmax_cross_entropy (label : Z) (logits : list R) : R :=
  (ln (fold_right Rplus 0 (map exp logits))
   - nth (Z.to_nat label) logits 0)%R.

Definition plain_framework : Framework := {|
  Cell := cell_args.t unit;
  Embedding := bool;
  SingleCellFn := unit;
  Initializer := unit;
  get_initializer := fun _ _ _ => Ok tt;
  create_rnn_cell := fun args => Ok args;
  create_emb_for_encoder_and_decoder := fun _ => Ok (true, false);
  tgt_vocab_lookup := fun w => if String.eqb w "<s>" then 1 else 2;
  embedding_lookup := fun _ ids =>
    mkMatrix (dim0 ids) (dim1 ids) (fun i j => [IZR (at_ ids i j)]);
  dynamic_rnn := fun cell inputs _ _ => (inputs, plain_layer_states cell);
  bidirectional_dynamic_rnn := fun fw bw inputs _ _ =>
    ((inputs, inputs), (plain_layer_states fw, plain_layer_states bw));
  sparse_softmax_cross_entropy := softmax_cross_entropy;
  tf_concat_last := fun ab =>
    mkMatrix (dim0 (fst ab)) (dim1 (fst ab))
      (fun i j => (at_ (fst ab) i j ++ at_ (snd ab) i j)%list);
  dense_apply := fun _ t => t
|}.

Definition plain_decoding : @Decoding plain_framework := {|
  basic_decode := fun _ _ (initial_state : Nest) _ _ _ =>
    ((mkMatrix 0 0 (fun _ _ => []), mkMatrix 0 0 (fun _ _ => 0)),
     initial_state);
  beam_search_decode := fun decoder _ _ =>
    (mkMatrix 0 0 (fun _ _ => []),
     match decoder with
     | BasicDecoder _ _ initial_state _ => initial_state
     | BeamSearchDecoder _ _ _ _ initial_state _ _ _ => initial_state
     end)
|}.

(** A configuration, given the fields that the statements vary. *)
Definition sample_hparams (num_layers : Z)
    (encoder_type warmup_scheme decay_scheme : string)
    (warmup_steps num_train_steps : Z) (tgt_max_len_infer : option Z)
    (beam_width : Z) (sampling_temperature : R) (attention : bool)
    : hparams.t :=
  hparams.mk 10 10 1 false num_layers num_layers None 0 0
    "uniform" None 0.1%R false 4 0
    1%R "sgd" 5%R true
    warmup_steps warmup_scheme decay_scheme num_train_steps
    "<s>" "</s>" tgt_max_len_infer beam_width 0%R sampling_temperature
    encoder_type attention "lstm" 1%R 0.2%R 5.

(** Two sequences of target lengths 2 and 3, padded to [T] steps with the
    token [pad]; the logits at the padded positions are [pad_logits]. *)
Definition sample_lengths : list Z := [2; 3].

Definition sample_tokens (T : nat) (pad : Z) : Matrix Z :=
  mkMatrix 2 T (fun i j =>
    if Z.of_nat j <? nth i sample_lengths 0 then Z.of_nat (i + j) mod 2
    else pad).

Definition sample_batch (T : nat) (pad : Z) : BatchedInput.t :=
  BatchedInput.mk (sample_tokens T 0) (sample_tokens T pad)
    (sample_tokens T pad) sample_lengths sample_lengths.

Definition sample_logits (T : nat) (pad_logits : list R) : Tensor3 :=
  mkMatrix 2 T (fun i j =>
    if Z.of_nat j <? nth i sample_lengths 0 then [INR i; INR j]
    else pad_logits).

Definition sample_self (mode : Mode) (num_encoder_layers : Z)
    (iterator : BatchedInput.t) : @Self.t plain_framework :=
  @Self.mk plain_framework iterator mode 10 10 1 false None
    num_encoder_layers 2 0 0 true false
    (tf_size (BatchedInput.source_sequence_length iterator))
    (mkDense 10 false "output_projection").

(** An encoder state of one layer over a batch of two. *)
Definition sample_state : Nest := Tuple [Leaf (Dim [Scalar 1%R; Scalar 2%R])].

(** Configurations: a regular one; one whose schedule names are not
    recognized; one with a bidirectional encoder of four layers; one with
    beam search of width 2; one with a negative sampling temperature and a
    cap on the decoding length. *)
Definition regular_hparams : hparams.t :=
  sample_hparams 2 "uni" "t2t" "luong5" 4 1000 None 0 0%R false.

Definition misnamed_schedule_hparams : hparams.t :=
  sample_hparams 2 "uni" "linear" "cosine" 4 1000 None 0 0%R false.

Definition no_decay_hparams : hparams.t :=
  sample_hparams 2 "uni" "t2t" "" 4 1000 None 0 0%R false.

Definition bidirectional_hparams : hparams.t :=
  sample_hparams 4 "bi" "t2t" "" 4 1000 None 0 0%R false.

Definition beam_hparams : hparams.t :=
  sample_hparams 2 "uni" "t2t" "" 4 1000 None 2 0%R false.

Definition cold_hparams : hparams.t :=
  sample_hparams 2 "uni" "t2t" "" 4 1000 (Some 50) 0 (-1)%R false.

(* ================================================================== *)
(** * [decode] *)

(** A numpy array: its shape and its items, addressed by one index per
    axis. *)
Record ndarray (A : Type) : Type := mkArray {
  shape : list nat;
  item : list nat -> A
}.

Arguments mkArray {A} shape item.
Arguments shape {A} _.
Arguments item {A} _ _.

Definition ndim {A : Type} (a : ndarray A) : nat := List.length (shape a).

(** The position of axis [q] in [axes]. *)
Fixpoint axis_position (q : nat) (axes : list nat) : nat :=
  match axes with
  | [] => O
  | x :: rest => if Nat.eqb x q then O else S (axis_position q rest)
  end.

(** [a.transpose(axes)], for [axes] a permutation of the axes of [a]: axis
    [p] of the result is axis [axes[p]] of [a]. *)
Definition np_transpose {A : Type} (a : ndarray A) (axes : list nat)
    : ndarray A :=
  mkArray (map (fun ax => nth ax (shape a) O) axes)
    (fun index =>
       item a (map (fun q => nth (axis_position q axes) index O)
                 (seq 0 (ndim a)))).

(** [a.transpose()]: the axes in reverse order. *)
Definition np_transpose_all {A : Type} (a : ndarray A) : ndarray A :=
  np_transpose a (rev (seq 0 (ndim a))).

Section Decode.
Context {F : Framework} {D : Decoding} {M : Seq2Seq}.

(** [decode(sess)]; [fetch] is the session's conversion of the fetched
    [sample_words] tensor to a numpy array. *)
Definition decode (self : BaseModel.t) (fetch : Words -> ndarray string)
    : result (ndarray string) :=
  '(_, _, sample_words) <- infer self ;;
  let sample_words := fetch sample_words in
  (* make sure outputs is of shape [batch_size, time] or [beam_width,
     batch_size, time] when using beam search. *)
  if BaseModel.time_major self then
    Ok (np_transpose_all sample_words)
  else if Nat.eqb (ndim sample_words) 3 then
    (* beam search output in [batch_size, time, beam_width] shape. *)
    Ok (np_transpose sample_words [2; 0; 1]%nat)
  else Ok sample_words.

End Decode.

(* ================================================================== *)
(** * Further vocabulary of the statements *)

(** [hparams] with another [beam_width]. *)
Definition set_beam_width (hp : hparams.t) (beam_width : Z) : hparams.t :=
  hparams.mk
    (hparams.src_vocab_size hp) (hparams.tgt_vocab_size hp)
    (hparams.num_gpus hp) (hparams.time_major hp)
    (hparams.num_encoder_layers hp) (hparams.num_decoder_layers hp)
    (hparams.num_residual_layers hp)
    (hparams.num_encoder_residual_layers hp)
    (hparams.num_decoder_residual_layers hp)
    (hparams.init_op hp) (hparams.random_seed hp) (hparams.init_weight hp)
    (hparams.share_vocab hp) (hparams.num_units hp)
    (hparams.num_embeddings_partitions hp)
    (hparams.learning_rate hp) (hparams.optimizer hp)
    (hparams.max_gradient_norm hp) (hparams.colocate_gradients_with_ops hp)
    (hparams.warmup_steps hp) (hparams.warmup_scheme hp)
    (hparams.decay_scheme hp) (hparams.num_train_steps hp)
    (hparams.sos hp) (hparams.eos hp) (hparams.tgt_max_len_infer hp)
    beam_width (hparams.length_penalty_weight hp)
    (hparams.sampling_temperature hp)
    (hparams.encoder_type hp) (hparams.attention hp) (hparams.unit_type hp)
    (hparams.forget_bias hp) (hparams.dropout hp) (hparams.num_keep_ckpts hp).

Definition known_optimizer (hp : hparams.t) : bool :=
  String.eqb (hparams.optimizer hp) "sgd"
  || String.eqb (hparams.optimizer hp) "adam".

(** The plain sum of a list of integers. *)
Definition sum_Z (l : list Z) : Z := fold_right Z.add 0 l.

(** The plain collaborators, but for a bidirectional run whose backward
    state has one layer only. *)
Definition short_state_framework : Framework := {|
  Cell := cell_args.t unit;
  Embedding := bool;
  SingleCellFn := unit;
  Initializer := unit;
  get_initializer := fun _ _ _ => Ok tt;
  create_rnn_cell := fun args => Ok args;
  create_emb_for_encoder_and_decoder := fun _ => Ok (true, false);
  tgt_vocab_lookup := fun w => if String.eqb w "<s>" then 1 else 2;
  embedding_lookup := fun _ ids =>
    mkMatrix (dim0 ids) (dim1 ids) (fun i j => [IZR (at_ ids i j)]);
  dynamic_rnn := fun cell inputs _ _ => (inputs, plain_layer_states cell);
  bidirectional_dynamic_rnn := fun fw bw inputs _ _ =>
    ((inputs, inputs),
     (plain_layer_states fw, Tuple [Leaf (Dim [Scalar 0%R])]));
  sparse_softmax_cross_entropy := softmax_cross_entropy;
  tf_concat_last := fun ab => fst ab;
  dense_apply := fun _ t => t
|}.

(** A model object in INFER mode with a time-major layout, and a session
    whose fetched words are a [3 x 2 x 4] array (time, batch, beam). *)
Definition sample_infer_model : BaseModel.t :=
  BaseModel.mk (sample_batch 3 0) INFER true 2 None None None None
    (Some no_op) (Some sample_state)
    (Some (ids3 (mkMatrix 3 2 (fun _ _ => [0; 0; 0; 0]))))
    (Some (words3 (mkMatrix 3 2 (fun _ _ => ["a"; "b"; "c"; "d"]))))
    None None.

Definition sample_fetch (w : Words) : ndarray string :=
  match w with
  | words2 m => mkArray [dim0 m; dim1 m] (fun index =>
      at_ m (nth 0 index O) (nth 1 index O))
  | words3 m => mkArray [dim0 m; dim1 m; 4%nat] (fun index =>
      nth (nth 2 index O) (at_ m (nth 0 index O) (nth 1 index O)) "")
  end.

(** Modelled from the spec: the recurrent cell factory
    [model_helper.create_rnn_cell], of another module.  The spec has it
    fail with a configuration error if the number of layers is zero or
    the unit type is unrecognized, the unit types being lstm, gru,
    layer-norm-lstm and nas; here the cell it returns otherwise is its
    argument record. *)
Definition strict_create_rnn_cell (args : cell_args.t unit)
    : result (cell_args.t unit) :=
  if cell_args.num_layers args =? 0 then
    Raise (ValueError "num_layers must be positive")
  else if existsb (String.eqb (cell_args.unit_type args))
            ["lstm"; "gru"; "layer-norm-lstm"; "nas"] then
    Ok args
  else
    Raise (ValueError
             (String.append "Unknown unit type " (cell_args.unit_type args))).

(** The plain collaborators with that factory. *)
Definition strict_framework : Framework := {|
  Cell := cell_args.t unit;
  Embedding := bool;
  SingleCellFn := unit;
  Initializer := unit;
  get_initializer := fun _ _ _ => Ok tt;
  create_rnn_cell := strict_create_rnn_cell;
  create_emb_for_encoder_and_decoder := fun _ => Ok (true, false);
  tgt_vocab_lookup := fun w => if String.eqb w "<s>" then 1 else 2;
  embedding_lookup := fun _ ids =>
    mkMatrix (dim0 ids) (dim1 ids) (fun i j => [IZR (at_ ids i j)]);
  dynamic_rnn := fun cell inputs _ _ => (inputs, plain_layer_states cell);
  bidirectional_dynamic_rnn := fun fw bw inputs _ _ =>
    ((inputs, inputs), (plain_layer_states fw, plain_layer_states bw));
  sparse_softmax_cross_entropy := softmax_cross_entropy;
  tf_concat_last := fun ab =>
    mkMatrix (dim0 (fst ab)) (dim1 (fst ab))
      (fun i j => (at_ (fst ab) i j ++ at_ (snd ab) i j)%list);
  dense_apply := fun _ t => t
|}.

Definition strict_decoding : @Decoding strict_framework := {|
  basic_decode := fun _ _ (initial_state : Nest) _ _ _ =>
    ((mkMatrix 0 0 (fun _ _ => []), mkMatrix 0 0 (fun _ _ => 0)),
     initial_state);
  beam_search_decode := fun decoder _ _ =>
    (mkMatrix 0 0 (fun _ _ => []),
     match decoder with
     | BasicDecoder _ _ initial_state _ => initial_state
     | BeamSearchDecoder _ _ _ _ initial_state _ _ _ => initial_state
     end)
|}.

(** A reverse vocabulary table. *)
Definition sample_reverse_table (id : Z) : string :=
  if id =? 1 then "<s>" else "</s>".

(** A batch without sequences, padded to three steps. *)
Definition empty_batch : BatchedInput.t :=
  BatchedInput.mk (mkMatrix 0 3 (fun _ _ => 0)) (mkMatrix 0 3 (fun _ _ => 0))
    (mkMatrix 0 3 (fun _ _ => 0)) [] [].

(* ================================================================== *)
(** * Properties *)

(** ** Numbers *)

Lemma wrap32_id (z : Z) : - 2 ^ 31 <= z < 2 ^ 31 -> wrap32 z = z.
Proof.
  intros Hz. unfold wrap32.
  rewrite Z.mod_small by lia. lia.
Qed.

Lemma tf_floor_IZR (z : Z) : tf_floor (IZR z) = z.
Proof.
  unfold tf_floor. symmetry. apply Int_part_spec. lra.
Qed.

Lemma tf_floor_div (a b : Z) :
  0 < b -> tf_floor (IZR a / IZR b) = a / b.
Proof.
  intros Hb. unfold tf_floor. symmetry. apply Int_part_spec.
  assert (HbR : (0 < IZR b)%R) by (apply IZR_lt; exact Hb).
  pose proof (Z.div_mod a b ltac:(lia)) as Hdm.
  pose proof (Z.mod_pos_bound a b Hb) as Hmod.
  assert (Ha : IZR a = (IZR b * IZR (a / b) + IZR (a mod b))%R).
  { rewrite <- mult_IZR, <- plus_IZR. f_equal. exact Hdm. }
  assert (Hm0 : (0 <= IZR (a mod b))%R) by (apply IZR_le; lia).
  assert (Hm1 : (IZR (a mod b) < IZR b)%R) by (apply IZR_lt; lia).
  assert (Hq : (IZR a / IZR b = IZR (a / b) + IZR (a mod b) / IZR b)%R).
  { rewrite Ha. field. lra. }
  rewrite Hq.
  assert (H0 : (0 <= IZR (a mod b) / IZR b)%R).
  { apply Rmult_le_pos; [exact Hm0 | left; apply Rinv_0_lt_compat; exact HbR]. }
  assert (H1 : (IZR (a mod b) / IZR b < 1)%R).
  { apply (Rmult_lt_reg_r (IZR b)); [exact HbR |].
    unfold Rdiv. rewrite Rmult_assoc, Rinv_l by lra. lra. }
  lra.
Qed.

Lemma tf_round_IZR (z : Z) : tf_round (IZR z) = z.
Proof.
  unfold tf_round. rewrite tf_floor_IZR.
  destruct (Rlt_dec (IZR z - IZR z) (1 / 2)) as [_ | Hn]; [reflexivity |].
  exfalso. apply Hn. lra.
Qed.

Lemma IZR_to_nat (k : Z) : 0 <= k -> IZR k = INR (Z.to_nat k).
Proof.
  intros Hk. rewrite INR_IZR_INZ, Z2Nat.id by exact Hk. reflexivity.
Qed.

Lemma tf_pow_nat (x : R) (k : Z) :
  (0 < x)%R -> 0 <= k -> tf_pow x (IZR k) = (x ^ Z.to_nat k)%R.
Proof.
  intros Hx Hk. unfold tf_pow.
  rewrite (IZR_to_nat k Hk). apply Rpower_pow. exact Hx.
Qed.

Lemma float_div_nonzero (x y : R) : y <> 0%R -> float_div x y = Some (x / y)%R.
Proof.
  intros Hy. unfold float_div.
  destruct (Req_dec_T y 0) as [E | _]; [contradiction | reflexivity].
Qed.

Lemma float_div_zero (x : R) : float_div x 0 = None.
Proof.
  unfold float_div.
  destruct (Req_dec_T 0 0) as [_ | N]; [reflexivity | exfalso; apply N; reflexivity].
Qed.

(** The warmup factor raised to the number of warmup steps is the initial
    scaling [0.01]. *)
Lemma warmup_factor_full (n : Z) :
  0 < n -> tf_pow (exp (ln 0.01 / IZR n)) (IZR n) = 0.01%R.
Proof.
  intros Hn. unfold tf_pow, Rpower. rewrite ln_exp.
  assert (HnR : (0 < IZR n)%R) by (apply IZR_lt; exact Hn).
  replace (IZR n * (ln 0.01 / IZR n))%R with (ln 0.01) by (field; lra).
  apply exp_ln. lra.
Qed.

(** ** Learning rate *)

Lemma warmup_t2t_unfold (lr : ScalarTensor) (hp : hparams.t) :
  hparams.warmup_scheme hp = "t2t" ->
  _get_learning_rate_warmup lr hp =
  Ok (fun global_step : Z =>
        tf_cond (global_step <? hparams.warmup_steps hp)
          (obind
             (omap (fun w =>
                      tf_pow w (to_float
                                  (int32_sub (hparams.warmup_steps hp)
                                     global_step)))
                (omap exp (float_div (ln 0.01)
                             (to_float (hparams.warmup_steps hp)))))
             (fun d => omap (fun r => (d * r)%R) (lr global_step)))
          (lr global_step)).
Proof.
  intros Hs. unfold _get_learning_rate_warmup. rewrite Hs. reflexivity.
Qed.

Lemma warmup_rate_before (hp : hparams.t) (base : R) (rate : ScalarTensor)
    (global_step : Z) :
  _get_learning_rate_warmup (tf_constant base) hp = Ok rate ->
  hparams.warmup_scheme hp = "t2t" ->
  hparams.warmup_steps hp < 2 ^ 31 ->
  0 <= global_step < hparams.warmup_steps hp ->
  rate global_step =
  Some (base * tf_pow (exp (ln 0.01 / IZR (hparams.warmup_steps hp)))
                 (IZR (hparams.warmup_steps hp - global_step)))%R.
Proof.
  intros Hrate Hs Hw Hg.
  rewrite (warmup_t2t_unfold _ _ Hs) in Hrate.
  injection Hrate as <-.
  unfold tf_cond.
  destruct (Z.ltb_spec global_step (hparams.warmup_steps hp)) as [_ | Hge];
    [| lia].
  unfold to_float, int32_sub. rewrite wrap32_id by lia.
  rewrite float_div_nonzero by (apply not_0_IZR; lia).
  cbn. f_equal. apply Rmult_comm.
Qed.

Lemma warmup_rate_after (hp : hparams.t) (lr rate : ScalarTensor)
    (global_step : Z) :
  _get_learning_rate_warmup lr hp = Ok rate ->
  hparams.warmup_steps hp <= global_step ->
  rate global_step = lr global_step.
Proof.
  intros Hrate Hg. unfold _get_learning_rate_warmup in Hrate.
  destruct (String.eqb (hparams.warmup_scheme hp) "t2t"); [| discriminate].
  cbn in Hrate. injection Hrate as <-.
  unfold tf_cond.
  destruct (Z.ltb_spec global_step (hparams.warmup_steps hp)); [lia | reflexivity].
Qed.

(** C2.  Under the warmup scheme t2t, with [warmup_steps] an [int32] value:
    at every step before [warmup_steps] the rate is the base rate times
    [warmup_factor ^ (warmup_steps - global_step)], where
    [warmup_factor = exp (ln 0.01 / warmup_steps)]; so at step 0 (when
    there is a warmup stage at all) it is the base rate times 0.01; from
    [warmup_steps] on, and at [warmup_steps] itself, it is the base rate. *)
Theorem warmup_t2t_learning_rate (hp : hparams.t) :
  hparams.warmup_scheme hp = "t2t" ->
  hparams.warmup_steps hp < 2 ^ 31 ->
  let base := hparams.learning_rate hp in
  let warmup_steps := hparams.warmup_steps hp in
  let warmup_factor := exp (ln 0.01 / IZR warmup_steps) in
  exists rate : ScalarTensor,
    _get_learning_rate_warmup (tf_constant base) hp = Ok rate /\
    (forall global_step : Z,
        0 <= global_step < warmup_steps ->
        rate global_step =
        Some (base * tf_pow warmup_factor (IZR (warmup_steps - global_step)))%R) /\
    (0 < warmup_steps -> rate 0 = Some (base * 0.01)%R) /\
    (forall global_step : Z,
        warmup_steps <= global_step -> rate global_step = Some base) /\
    rate warmup_steps = Some base.
Proof.
  intros Hs Hw base warmup_steps warmup_factor.
  rewrite (warmup_t2t_unfold _ _ Hs).
  eexists. split; [reflexivity |].
  pose proof (warmup_t2t_unfold (tf_constant base) hp Hs) as Hrate.
  split; [| split; [| split]].
  - intros g Hg. exact (warmup_rate_before hp base _ g Hrate Hs Hw Hg).
  - intros Hpos.
    rewrite (warmup_rate_before hp base _ 0 Hrate Hs Hw) by (fold warmup_steps; lia).
    rewrite Z.sub_0_r. rewrite warmup_factor_full by exact Hpos. reflexivity.
  - intros g Hg. exact (warmup_rate_after hp _ _ g Hrate Hg).
  - apply (warmup_rate_after hp _ _ _ Hrate). lia.
Qed.


(** The staircase decay at a step offset [k] of a finite rate. *)
Lemma exponential_decay_staircase (base : R) (k decay_steps : Z) (r : R) :
  (0 < r)%R -> 0 <= k -> 0 < decay_steps ->
  exponential_decay (Some base) k decay_steps r =
  Some (base * r ^ Z.to_nat (k / decay_steps))%R.
Proof.
  intros Hr Hk Hd. unfold exponential_decay, to_float.
  rewrite float_div_nonzero by (apply not_0_IZR; lia).
  cbn [obind omap]. rewrite tf_floor_div by exact Hd.
  rewrite tf_pow_nat; [reflexivity | exact Hr |].
  apply Z.div_pos; lia.
Qed.

Lemma decay_unfold (lr : ScalarTensor) (hp : hparams.t)
    (start_decay_step decay_steps : Z) (decay_factor : R) :
  decay_schedule hp = Ok (start_decay_step, decay_steps, decay_factor) ->
  _get_learning_rate_decay lr hp =
  Ok (fun global_step : Z =>
        tf_cond (global_step <? start_decay_step)
          (lr global_step)
          (exponential_decay (lr global_step)
             (int32_sub global_step start_decay_step)
             decay_steps decay_factor)).
Proof.
  intros Hs. unfold _get_learning_rate_decay. rewrite Hs. reflexivity.
Qed.

Lemma decay_schedule_luong5 (hp : hparams.t) :
  hparams.decay_scheme hp = "luong5" ->
  let n := hparams.num_train_steps hp in
  decay_schedule hp =
  Ok (py_int_div n 2, py_int_div (n - py_int_div n 2) 5, 0.5%R).
Proof. intros Hs. unfold decay_schedule. rewrite Hs. reflexivity. Qed.

Lemma decay_schedule_luong10 (hp : hparams.t) :
  hparams.decay_scheme hp = "luong10" ->
  let n := hparams.num_train_steps hp in
  decay_schedule hp =
  Ok (py_int_div n 2, py_int_div (n - py_int_div n 2) 10, 0.5%R).
Proof. intros Hs. unfold decay_schedule. rewrite Hs. reflexivity. Qed.

Lemma decay_schedule_luong234 (hp : hparams.t) :
  hparams.decay_scheme hp = "luong234" ->
  let n := hparams.num_train_steps hp in
  decay_schedule hp =
  Ok (py_int_div (n * 2) 3, py_int_div (n - py_int_div (n * 2) 3) 4, 0.5%R).
Proof. intros Hs. unfold decay_schedule. rewrite Hs. reflexivity. Qed.

Lemma decay_schedule_none (hp : hparams.t) :
  hparams.decay_scheme hp = "" ->
  decay_schedule hp = Ok (hparams.num_train_steps hp, 0, 1.0%R).
Proof. intros Hs. unfold decay_schedule. rewrite Hs. reflexivity. Qed.

Lemma py_int_div_floor (a b : Z) : 0 <= a -> 0 < b -> py_int_div a b = a / b.
Proof. intros Ha Hb. unfold py_int_div. apply Z.quot_div_nonneg; assumption. Qed.

Lemma half_bounds (n : Z) : 0 <= n -> 0 <= n / 2 <= n.
Proof.
  intros Hn. split; [apply Z.div_pos; lia | apply Z.div_le_upper_bound; lia].
Qed.

Lemma two_thirds_bounds (n : Z) : 0 <= n -> 0 <= n * 2 / 3 <= n.
Proof.
  intros Hn. split; [apply Z.div_pos; lia | apply Z.div_le_upper_bound; lia].
Qed.

Lemma decay_schedule_luong5_floor (hp : hparams.t) :
  hparams.decay_scheme hp = "luong5" ->
  0 <= hparams.num_train_steps hp ->
  let n := hparams.num_train_steps hp in
  decay_schedule hp = Ok (n / 2, (n - n / 2) / 5, 0.5%R).
Proof.
  intros Hs Hn n. pose proof (half_bounds n Hn) as Hb.
  rewrite (decay_schedule_luong5 hp Hs). fold n.
  rewrite (py_int_div_floor n 2) by lia.
  rewrite py_int_div_floor by lia. reflexivity.
Qed.

Lemma decay_schedule_luong10_floor (hp : hparams.t) :
  hparams.decay_scheme hp = "luong10" ->
  0 <= hparams.num_train_steps hp ->
  let n := hparams.num_train_steps hp in
  decay_schedule hp = Ok (n / 2, (n - n / 2) / 10, 0.5%R).
Proof.
  intros Hs Hn n. pose proof (half_bounds n Hn) as Hb.
  rewrite (decay_schedule_luong10 hp Hs). fold n.
  rewrite (py_int_div_floor n 2) by lia.
  rewrite py_int_div_floor by lia. reflexivity.
Qed.

Lemma decay_schedule_luong234_floor (hp : hparams.t) :
  hparams.decay_scheme hp = "luong234" ->
  0 <= hparams.num_train_steps hp ->
  let n := hparams.num_train_steps hp in
  decay_schedule hp = Ok (n * 2 / 3, (n - n * 2 / 3) / 4, 0.5%R).
Proof.
  intros Hs Hn n. pose proof (two_thirds_bounds n Hn) as Hb.
  rewrite (decay_schedule_luong234 hp Hs). fold n.
  rewrite (py_int_div_floor (n * 2) 3) by lia.
  rewrite py_int_div_floor by lia. reflexivity.
Qed.

(** The start of the decay of a preset lies within the training steps. *)
Lemma luong_start_bounds (hp : hparams.t) (start decay_steps : Z) (f : R) :
  In (hparams.decay_scheme hp) ["luong5"; "luong10"; "luong234"] ->
  0 <= hparams.num_train_steps hp ->
  decay_schedule hp = Ok (start, decay_steps, f) ->
  0 <= start <= hparams.num_train_steps hp /\ f = 0.5%R.
Proof.
  intros Hin Hn Hs.
  pose proof (half_bounds _ Hn) as H2.
  pose proof (two_thirds_bounds _ Hn) as H3.
  destruct Hin as [E | [E | [E | []]]]; symmetry in E.
  - rewrite (decay_schedule_luong5_floor hp E Hn) in Hs.
    injection Hs as <- _ <-. split; [exact H2 | reflexivity].
  - rewrite (decay_schedule_luong10_floor hp E Hn) in Hs.
    injection Hs as <- _ <-. split; [exact H2 | reflexivity].
  - rewrite (decay_schedule_luong234_floor hp E Hn) in Hs.
    injection Hs as <- _ <-. split; [exact H3 | reflexivity].
Qed.

Lemma build_learning_rate_unfold (hp : hparams.t) (warm : ScalarTensor)
    (start_decay_step decay_steps : Z) (decay_factor : R) :
  _get_learning_rate_warmup (tf_constant (hparams.learning_rate hp)) hp
  = Ok warm ->
  decay_schedule hp = Ok (start_decay_step, decay_steps, decay_factor) ->
  build_learning_rate hp =
  Ok (fun global_step : Z =>
        tf_cond (global_step <? start_decay_step)
          (warm global_step)
          (exponential_decay (warm global_step)
             (int32_sub global_step start_decay_step)
             decay_steps decay_factor)).
Proof.
  intros Hw Hs. unfold build_learning_rate. rewrite Hw. cbn [bind].
  apply decay_unfold. exact Hs.
Qed.

(** Past warmup and past the start of the decay, the rate is the staircase
    decay of the base rate. *)
Lemma decayed_rate (hp : hparams.t) (rate : ScalarTensor)
    (start decay_steps : Z) (f : R) (global_step : Z) :
  build_learning_rate hp = Ok rate ->
  decay_schedule hp = Ok (start, decay_steps, f) ->
  (0 < f)%R -> 0 <= start -> 0 < decay_steps ->
  start <= global_step < 2 ^ 31 ->
  hparams.warmup_steps hp <= global_step ->
  rate global_step =
  Some (hparams.learning_rate hp
        * f ^ Z.to_nat ((global_step - start) / decay_steps))%R.
Proof.
  intros Hrate Hs Hf H0 Hd Hg Hw.
  unfold build_learning_rate in Hrate.
  destruct (_get_learning_rate_warmup (tf_constant (hparams.learning_rate hp)) hp)
    as [warm |] eqn:Hwarm; [| discriminate].
  cbn [bind] in Hrate.
  rewrite (decay_unfold _ _ _ _ _ Hs) in Hrate. injection Hrate as <-.
  unfold tf_cond.
  destruct (Z.ltb_spec global_step start) as [Hlt | _]; [lia |].
  rewrite (warmup_rate_after hp _ _ global_step Hwarm Hw).
  unfold tf_constant, int32_sub. rewrite wrap32_id by lia.
  apply exponential_decay_staircase; [exact Hf | lia | exact Hd].
Qed.


Lemma exponential_decay_zero_steps (lr : option R) (k : Z) (f : R) :
  exponential_decay lr k 0 f = None.
Proof.
  unfold exponential_decay, to_float. rewrite float_div_zero. reflexivity.
Qed.

Lemma warmup_rate_defined (hp : hparams.t) (base : R) (rate : ScalarTensor)
    (global_step : Z) :
  _get_learning_rate_warmup (tf_constant base) hp = Ok rate ->
  0 <= global_step ->
  exists r : R, rate global_step = Some r.
Proof.
  intros Hrate Hg. unfold _get_learning_rate_warmup in Hrate.
  destruct (String.eqb (hparams.warmup_scheme hp) "t2t"); [| discriminate].
  cbn in Hrate. injection Hrate as <-.
  unfold tf_cond, tf_constant.
  destruct (Z.ltb_spec global_step (hparams.warmup_steps hp)) as [Hlt | Hge].
  - unfold to_float.
    rewrite float_div_nonzero by (apply not_0_IZR; lia).
    cbn. eexists. reflexivity.
  - eexists. reflexivity.
Qed.

(** C10.  With an empty [decay_scheme] the schedule is
    [(num_train_steps, 0, 1.0)]; before [num_train_steps] the decay stage
    returns the rate of the warmup stage unchanged; the
    [exponential_decay] branch, whose division by [decay_steps = 0] is not
    finite, is the one taken exactly from [num_train_steps] on; so the
    learning rate of a step counter below [num_train_steps] is a finite
    number. *)
Theorem no_decay_learning_rate (hp : hparams.t) :
  hparams.decay_scheme hp = "" ->
  hparams.warmup_scheme hp = "t2t" ->
  let n := hparams.num_train_steps hp in
  decay_schedule hp = Ok (n, 0, 1.0%R) /\
  (forall warm : ScalarTensor,
      exists rate : ScalarTensor,
        _get_learning_rate_decay warm hp = Ok rate /\
        (forall global_step : Z,
            global_step < n -> rate global_step = warm global_step) /\
        (forall global_step : Z,
            n <= global_step ->
            rate global_step =
            exponential_decay (warm global_step) (int32_sub global_step n)
              0 1.0%R)) /\
  (forall (lr : option R) (k : Z) (f : R), exponential_decay lr k 0 f = None) /\
  (exists rate : ScalarTensor,
      build_learning_rate hp = Ok rate /\
      forall global_step : Z,
        0 <= global_step < n -> exists r : R, rate global_step = Some r).
Proof.
  intros Hd Hw n.
  pose proof (decay_schedule_none hp Hd) as Hs. fold n in Hs.
  split; [exact Hs |]. split; [| split].
  - intros warm. eexists. split; [apply (decay_unfold warm hp _ _ _ Hs) |].
    split; intros g Hg; unfold tf_cond.
    + destruct (Z.ltb_spec g n); [reflexivity | lia].
    + destruct (Z.ltb_spec g n); [lia | reflexivity].
  - exact exponential_decay_zero_steps.
  - pose proof (warmup_t2t_unfold (tf_constant (hparams.learning_rate hp)) hp Hw)
      as Hwarm.
    destruct (_get_learning_rate_warmup (tf_constant (hparams.learning_rate hp)) hp)
      as [warm | e] eqn:Hwarm'; [| discriminate].
    clear Hwarm.
    eexists. split; [apply (build_learning_rate_unfold hp warm _ _ _ Hwarm' Hs) |].
    intros g Hg. cbv beta. unfold tf_cond.
    destruct (Z.ltb_spec g n); [| lia].
    apply (warmup_rate_defined hp _ warm g Hwarm'). lia.
Qed.

(** ** Decoding length *)

Lemma reduce_max_upper (l : list Z) (x : Z) : In x l -> x <= reduce_max l.
Proof.
  unfold reduce_max. induction l as [| y l IH]; intros Hin.
  - destruct Hin.
  - cbn [fold_right]. destruct Hin as [-> | Hin]; [lia |].
    specialize (IH Hin). lia.
Qed.

Lemma reduce_max_in (l : list Z) :
  l <> [] -> (forall x, In x l -> - 2 ^ 31 <= x) -> In (reduce_max l) l.
Proof.
  unfold reduce_max. induction l as [| y l IH]; intros Hne Hlo; [congruence |].
  cbn [fold_right].
  destruct l as [| z l].
  - cbn [fold_right]. left.
    specialize (Hlo y (or_introl eq_refl)). lia.
  - assert (Hin : In (fold_right Z.max (- 2 ^ 31) (z :: l)) (z :: l)).
    { apply IH; [discriminate |]. intros x Hx. apply Hlo. right. exact Hx. }
    destruct (Z.max_spec y (fold_right Z.max (- 2 ^ 31) (z :: l)))
      as [[_ ->] | [_ ->]]; [right; exact Hin | left; reflexivity].
Qed.

Lemma round_to_float32_exact (z : Z) :
  - 2 ^ 24 <= z <= 2 ^ 24 -> round_to_float32 z = z.
Proof.
  intros Hz. unfold round_to_float32.
  destruct (Z.ltb_spec (Z.abs z) (2 ^ 24)) as [_ | Hge]; [reflexivity |].
  assert (Hcase : z = 2 ^ 24 \/ z = - 2 ^ 24) by lia.
  destruct Hcase as [-> | ->]; reflexivity.
Qed.

Lemma to_int32_id (z : Z) : - 2 ^ 31 <= z < 2 ^ 31 -> to_int32 z = z.
Proof. intros Hz. unfold to_int32. lia. Qed.

(** C7.  The number of decoding steps at inference is [tgt_max_len_infer]
    when that field is set and not zero; otherwise it is
    [round (2.0 * m)] converted to [int32], [m] being the largest source
    length of the batch converted to float32: twice the float32 nearest
    to [m] when that is an [int32] value, which is [2 * m] for every [m]
    that float32 holds exactly (up to [2 ^ 24] in magnitude). *)
Theorem infer_maximum_iterations_cap (hp : hparams.t)
    (source_sequence_length : list Z) :
  (forall n : Z,
      hparams.tgt_max_len_infer hp = Some n -> n <> 0 ->
      _get_infer_maximum_iterations hp source_sequence_length = n) /\
  (hparams.tgt_max_len_infer hp = None \/
   hparams.tgt_max_len_infer hp = Some 0 ->
   let m := reduce_max source_sequence_length in
   (source_sequence_length <> [] ->
    (forall x, In x source_sequence_length -> - 2 ^ 31 <= x) ->
    In m source_sequence_length /\
    forall x, In x source_sequence_length -> x <= m) /\
   (- 2 ^ 31 <= 2 * round_to_float32 m < 2 ^ 31 ->
    _get_infer_maximum_iterations hp source_sequence_length
    = 2 * round_to_float32 m) /\
   (- 2 ^ 24 <= m <= 2 ^ 24 ->
    _get_infer_maximum_iterations hp source_sequence_length = 2 * m)).
Proof.
  split.
  - intros n Hn Hz. unfold _get_infer_maximum_iterations. rewrite Hn.
    destruct n; [congruence | reflexivity | reflexivity].
  - intros Hunset m.
    assert (Hdef : _get_infer_maximum_iterations hp source_sequence_length
                   = to_int32 (tf_round (to_float32 m * 2.0))).
    { unfold _get_infer_maximum_iterations.
      destruct Hunset as [-> | ->]; reflexivity. }
    assert (Hround : - 2 ^ 31 <= 2 * round_to_float32 m < 2 ^ 31 ->
                     _get_infer_maximum_iterations hp source_sequence_length
                     = 2 * round_to_float32 m).
    { intros Hr. rewrite Hdef. unfold to_float32.
      replace (IZR (round_to_float32 m) * 2.0)%R
        with (IZR (2 * round_to_float32 m)) by (rewrite mult_IZR; lra).
      rewrite tf_round_IZR. apply to_int32_id. exact Hr. }
    split; [| split].
    + intros Hne Hlo. split.
      * apply reduce_max_in; assumption.
      * intros x. apply reduce_max_upper.
    + exact Hround.
    + intros Hm.
      pose proof (round_to_float32_exact m Hm) as He.
      rewrite Hround by (rewrite He; lia).
      rewrite He. reflexivity.
Qed.

(** Beyond 24 bits the conversion to float32 rounds: a longest source of
    [2 ^ 24 + 1] tokens gives [2 ^ 25] steps, not [2 ^ 25 + 2]. *)
Lemma infer_maximum_iterations_rounds :
  _get_infer_maximum_iterations regular_hparams [16777217] = 33554432.
Proof.
  unfold _get_infer_maximum_iterations, to_float32.
  cbn [hparams.tgt_max_len_infer regular_hparams sample_hparams].
  change (round_to_float32 (reduce_max [16777217])) with 16777216.
  replace (IZR 16777216 * 2.0)%R with (IZR 33554432) by lra.
  rewrite tf_round_IZR. reflexivity.
Qed.

(** ** Loss *)

Lemma big_sum_ext (n : nat) (f g : nat -> R) :
  (forall i, (i < n)%nat -> f i = g i) -> big_sum n f = big_sum n g.
Proof.
  induction n as [| n IH]; intros Hfg; [reflexivity |].
  cbn [big_sum]. rewrite IH by (intros i Hi; apply Hfg; lia).
  rewrite (Hfg n) by lia. reflexivity.
Qed.

Lemma big_sum_zero (n : nat) : big_sum n (fun _ => 0%R) = 0%R.
Proof. induction n as [| n IH]; cbn [big_sum]; [reflexivity | rewrite IH; lra]. Qed.

Lemma big_sum_plus (n : nat) (f g : nat -> R) :
  big_sum n (fun i => (f i + g i)%R) = (big_sum n f + big_sum n g)%R.
Proof.
  induction n as [| n IH]; cbn [big_sum]; [lra | rewrite IH; lra].
Qed.

(** Summing by rows or by columns. *)
Lemma big_sum_swap (n m : nat) (f : nat -> nat -> R) :
  big_sum n (fun i => big_sum m (fun j => f i j)) =
  big_sum m (fun j => big_sum n (fun i => f i j)).
Proof.
  induction n as [| n IH].
  - cbn [big_sum]. symmetry. apply big_sum_zero.
  - cbn [big_sum]. rewrite IH. symmetry. apply big_sum_plus.
Qed.

(** The mask cuts a row at the sequence's length. *)
Lemma mask_at_before (len : Z) (j : nat) : Z.of_nat j < len -> mask_at len j = 1%R.
Proof.
  intros H. unfold mask_at. destruct (Z.ltb_spec (Z.of_nat j) len); [reflexivity | lia].
Qed.

Lemma mask_at_beyond (len : Z) (j : nat) : len <= Z.of_nat j -> mask_at len j = 0%R.
Proof.
  intros H. unfold mask_at. destruct (Z.ltb_spec (Z.of_nat j) len); [lia | reflexivity].
Qed.

Lemma big_sum_masked (T : nat) (len : Z) (f : nat -> R) :
  big_sum T (fun j => (f j * mask_at len j)%R) =
  big_sum (Nat.min T (Z.to_nat len)) f.
Proof.
  induction T as [| T IH]; [reflexivity |].
  cbn [big_sum]. rewrite IH.
  destruct (Z.lt_ge_cases (Z.of_nat T) len) as [Hlt | Hge].
  - rewrite mask_at_before by exact Hlt.
    replace (Nat.min (S T) (Z.to_nat len)) with (S T) by lia.
    replace (Nat.min T (Z.to_nat len)) with T by lia.
    cbn [big_sum]. lra.
  - rewrite mask_at_beyond by exact Hge.
    replace (Nat.min (S T) (Z.to_nat len)) with (Nat.min T (Z.to_nat len)) by lia.
    lra.
Qed.

Lemma broadcast_dim_same (a : nat) : broadcast_dim a a = Some a.
Proof. unfold broadcast_dim. rewrite Nat.eqb_refl. reflexivity. Qed.

Lemma bcast_index_lt (d i : nat) : (i < d)%nat -> bcast_index d i = i.
Proof.
  intros Hi. unfold bcast_index. destruct (Nat.eqb_spec d 1); [lia | reflexivity].
Qed.

(** The product of two tensors of one shape, summed. *)
Lemma multiply_same_shape_sum (a b : Matrix R) :
  dim0 a = dim0 b -> dim1 a = dim1 b ->
  exists w : Matrix R,
    tf_multiply a b = Some w /\
    reduce_sum w =
    big_sum (dim0 a) (fun i => big_sum (dim1 a) (fun j =>
      (at_ a i j * at_ b i j)%R)).
Proof.
  intros H0 H1. unfold tf_multiply. rewrite <- H0, <- H1, !broadcast_dim_same.
  eexists. split; [reflexivity |].
  unfold reduce_sum. cbn [dim0 dim1 at_].
  apply big_sum_ext. intros i Hi. apply big_sum_ext. intros j Hj.
  rewrite !bcast_index_lt by assumption. reflexivity.
Qed.

Section Loss.
Context {F : Framework}.

(** The masked sum of the cross-entropies of a batch, sequence by sequence
    and step by step. *)
Lemma compute_loss_formula (self : Self.t) (logits : Tensor3) (b T : nat) :
  loss_shapes self logits b T -> (0 < b)%nat ->
  let iterator := Self.iterator self in
  let target_output := BatchedInput.target_output iterator in
  let lengths := BatchedInput.target_sequence_length iterator in
  _compute_loss self logits =
  Some (big_sum b (fun i => big_sum T (fun j =>
          (sparse_softmax_cross_entropy (at_ target_output i j)
             (at_batch_time (Self.time_major self) logits i j)
           * mask_at (nth i lengths 0%Z) j)%R))
        / IZR (Z.of_nat b))%R.
Proof.
  intros (Hd0 & Hd1 & Hlen & Hbs & Hlog) Hb iterator target_output lengths.
  subst iterator target_output lengths.
  unfold _compute_loss, get_max_time, at_batch_time.
  assert (HbR : IZR (Z.of_nat b) <> 0%R) by (apply not_0_IZR; lia).
  destruct (Self.time_major self).
  - destruct Hlog as [Hl0 Hl1].
    unfold sparse_softmax_cross_entropy_with_logits.
    cbn [tf_transpose dim0 dim1 at_].
    rewrite Hd0, Hd1, Hl0, Hl1, !Nat.eqb_refl. cbn [andb obind].
    match goal with
    | |- obind (tf_multiply ?a ?w) _ = _ =>
        destruct (multiply_same_shape_sum a w) as (prod & Hprod & Hsum)
    end.
    { cbn [dim0 dim1 tf_transpose sequence_mask]. reflexivity. }
    { cbn [dim0 dim1 tf_transpose sequence_mask]. symmetry. exact Hlen. }
    rewrite Hprod. cbn [obind]. rewrite Hsum. cbn [dim0 dim1 at_ tf_transpose sequence_mask].
    unfold to_float. rewrite Hbs, float_div_nonzero by exact HbR.
    f_equal. f_equal.
    apply (big_sum_swap T b
             (fun i j =>
                (sparse_softmax_cross_entropy
                   (at_ (BatchedInput.target_output (Self.iterator self)) j i)
                   (at_ logits i j)
                 * mask_at
                     (nth j (BatchedInput.target_sequence_length
                               (Self.iterator self)) 0%Z) i)%R)).
  - destruct Hlog as [Hl0 Hl1].
    unfold sparse_softmax_cross_entropy_with_logits.
    rewrite Hd0, Hd1, Hl0, Hl1, !Nat.eqb_refl. cbn [andb obind].
    match goal with
    | |- obind (tf_multiply ?a ?w) _ = _ =>
        destruct (multiply_same_shape_sum a w) as (prod & Hprod & Hsum)
    end.
    { cbn [dim0 dim1 sequence_mask]. symmetry. exact Hlen. }
    { cbn [dim0 dim1 sequence_mask]. reflexivity. }
    rewrite Hprod. cbn [obind]. rewrite Hsum. cbn [dim0 dim1 at_ sequence_mask].
    unfold to_float. rewrite Hbs, float_div_nonzero by exact HbR.
    reflexivity.
Qed.

(** C1.  For a batch of [b] sequences padded to [T] steps, the loss is the
    sum over all sequences [i] and steps [j] of the cross-entropy between
    the target-output token and the logits at [(i, j)], each multiplied by
    the mask of [target_sequence_length] (1 before the length of sequence
    [i], 0 from there on), and the sum is divided by the batch size [b]
    alone. *)
Theorem compute_loss_masked_sum (self : Self.t) (logits : Tensor3)
    (b T : nat) :
  loss_shapes self logits b T -> (0 < b)%nat ->
  let iterator := Self.iterator self in
  let target_output := BatchedInput.target_output iterator in
  let lengths := BatchedInput.target_sequence_length iterator in
  _compute_loss self logits =
  Some (big_sum b (fun i => big_sum T (fun j =>
          (sparse_softmax_cross_entropy (at_ target_output i j)
             (at_batch_time (Self.time_major self) logits i j)
           * mask_at (nth i lengths 0%Z) j)%R))
        / IZR (Z.of_nat b))%R /\
  (forall (len : Z) (j : nat),
      (Z.of_nat j < len -> mask_at len j = 1%R) /\
      (len <= Z.of_nat j -> mask_at len j = 0%R)) /\
  (forall i j : nat,
      at_ (sequence_mask lengths T) i j = mask_at (nth i lengths 0) j).
Proof.
  intros Hshape Hb iterator target_output lengths.
  split; [exact (compute_loss_formula self logits b T Hshape Hb) |].
  split.
  - intros len j. split; [apply mask_at_before | apply mask_at_beyond].
  - intros i j. reflexivity.
Qed.

(** C4.  Two batches with the same target lengths, that agree on the
    target-output tokens and on the logits at every position before each
    sequence's length, and differ only at the padded positions from the
    length on (possibly in how far they are padded), have the same loss. *)
Theorem compute_loss_padding_invariant (self1 self2 : Self.t)
    (logits1 logits2 : Tensor3) (b T1 T2 : nat) :
  loss_shapes self1 logits1 b T1 ->
  loss_shapes self2 logits2 b T2 ->
  (0 < b)%nat ->
  Self.time_major self1 = Self.time_major self2 ->
  BatchedInput.target_sequence_length (Self.iterator self1) =
  BatchedInput.target_sequence_length (Self.iterator self2) ->
  let lengths := BatchedInput.target_sequence_length (Self.iterator self1) in
  let target_output1 := BatchedInput.target_output (Self.iterator self1) in
  let target_output2 := BatchedInput.target_output (Self.iterator self2) in
  (forall i : nat,
      (i < b)%nat ->
      nth i lengths 0 <= Z.of_nat T1 /\ nth i lengths 0 <= Z.of_nat T2) ->
  (forall i j : nat,
      (i < b)%nat -> Z.of_nat j < nth i lengths 0 ->
      at_ target_output1 i j = at_ target_output2 i j /\
      at_batch_time (Self.time_major self1) logits1 i j =
      at_batch_time (Self.time_major self1) logits2 i j) ->
  _compute_loss self1 logits1 = _compute_loss self2 logits2 /\
  exists loss : R, _compute_loss self1 logits1 = Some loss.
Proof.
  intros Hs1 Hs2 Hb Htm Hlen lengths target_output1 target_output2 Hpad Hagree.
  rewrite (compute_loss_formula self1 logits1 b T1 Hs1 Hb).
  rewrite (compute_loss_formula self2 logits2 b T2 Hs2 Hb).
  cbv zeta. rewrite <- Hlen, <- Htm. fold lengths target_output1 target_output2.
  split; [| eexists; reflexivity].
  f_equal. f_equal.
  apply big_sum_ext. intros i Hi.
  destruct (Hpad i Hi) as [Hp1 Hp2].
  etransitivity;
    [apply (big_sum_masked T1 (nth i lengths 0)
              (fun j =>
                 sparse_softmax_cross_entropy (at_ target_output1 i j)
                   (at_batch_time (Self.time_major self1) logits1 i j))) |].
  etransitivity;
    [| symmetry;
       apply (big_sum_masked T2 (nth i lengths 0)
                (fun j =>
                   sparse_softmax_cross_entropy (at_ target_output2 i j)
                     (at_batch_time (Self.time_major self1) logits2 i j)))].
  replace (Nat.min T1 (Z.to_nat (nth i lengths 0)))
    with (Z.to_nat (nth i lengths 0)) by lia.
  replace (Nat.min T2 (Z.to_nat (nth i lengths 0)))
    with (Z.to_nat (nth i lengths 0)) by lia.
  apply big_sum_ext. intros j Hj.
  destruct (Hagree i j Hi ltac:(lia)) as [-> ->]. reflexivity.
Qed.

End Loss.

(** ** State structures *)

Lemma tile_rows_length (rows : list Tensor) (k : Z) :
  List.length (tile_rows rows k) = (List.length rows * Z.to_nat k)%nat.
Proof.
  unfold tile_rows. induction rows as [| r rows IH]; [reflexivity |].
  cbn [flat_map List.length]. rewrite length_app, repeat_length, IH. lia.
Qed.

Lemma tile_rows_nth (rows : list Tensor) (k : Z) (i j : nat) :
  (j < Z.to_nat k)%nat ->
  nth_error (tile_rows rows k) (i * Z.to_nat k + j) = nth_error rows i.
Proof.
  intros Hj. unfold tile_rows. revert i.
  induction rows as [| r rows IH]; intros i.
  - cbn [flat_map]. destruct i; cbn [nth_error];
      destruct (_ + j)%nat; reflexivity.
  - cbn [flat_map]. destruct i as [| i].
    + cbn [Nat.mul Nat.add nth_error].
      rewrite nth_error_app1 by (rewrite repeat_length; exact Hj).
      apply nth_error_repeat. exact Hj.
    + rewrite nth_error_app2 by (rewrite repeat_length; lia).
      rewrite repeat_length.
      replace (S i * Z.to_nat k + j - Z.to_nat k)%nat
        with (i * Z.to_nat k + j)%nat by lia.
      cbn [nth_error]. apply IH.
Qed.

(** [tile_batch] replicates, whenever it returns. *)
Lemma tile_batch_replicated (t : Nest) (k : Z) (tiled : Nest) :
  tile_batch t k = Ok tiled -> replicated (Z.to_nat k) t tiled.
Proof.
  revert tiled. induction t as [t | items IH] using Nest_ind'; intros tiled Ht.
  - destruct t as [x | rows]; cbn in Ht; [discriminate |].
    injection Ht as <-. constructor.
    + apply tile_rows_length.
    + intros i j Hj. apply tile_rows_nth. exact Hj.
  - cbn [tile_batch] in Ht.
    match type of Ht with
    | bind (?go items) _ = _ =>
        assert (Hgo : forall l, Forall
                   (fun n => forall tiled, tile_batch n k = Ok tiled ->
                                           replicated (Z.to_nat k) n tiled) l ->
                 forall l', go l = Ok l' ->
                            Forall2 (replicated (Z.to_nat k)) l l')
    end.
    { clear. induction l as [| x l IHl]; intros HF l' Hl'.
      - injection Hl' as <-. constructor.
      - inversion HF as [| ? ? Hx HF']; subst.
        revert Hl'.
        destruct (tile_batch x k) as [x' |] eqn:Ex; cbn [bind]; [| discriminate].
        match goal with
        | |- bind ?g _ = _ -> _ => destruct g as [l'' |] eqn:El
        end; cbn [bind]; [| discriminate].
        intros Hl'. injection Hl' as <-.
        constructor; [apply Hx; reflexivity | exact (IHl HF' l'' eq_refl)]. }
    match type of Ht with
    | bind ?g _ = _ => destruct g as [items' |] eqn:Ei
    end; cbn [bind] in Ht; [| discriminate].
    injection Ht as <-. constructor. apply Hgo; [exact IH | exact Ei].
Qed.

(** ** Decoder *)

Section DecoderProperties.
Context {F : Framework} {D : Decoding}.

Lemma infer_my_decoder_beam (self : Self.t) (hp : hparams.t) (cell : Cell)
    (state : Nest) (sos_id eos_id : Z) :
  0 < hparams.beam_width hp ->
  infer_my_decoder self hp cell state sos_id eos_id =
  BeamSearchDecoder cell (Self.embedding_decoder self)
    (repeat sos_id (Z.to_nat (Self.batch_size self))) eos_id state
    (hparams.beam_width hp) (Self.output_layer self)
    (hparams.length_penalty_weight hp).
Proof.
  intros Hk. unfold infer_my_decoder.
  destruct (Z.ltb_spec 0 (hparams.beam_width hp)); [reflexivity | lia].
Qed.

Lemma infer_my_decoder_basic (self : Self.t) (hp : hparams.t) (cell : Cell)
    (state : Nest) (sos_id eos_id : Z) :
  hparams.beam_width hp <= 0 ->
  infer_my_decoder self hp cell state sos_id eos_id =
  BasicDecoder cell
    (if Rlt_dec 0 (hparams.sampling_temperature hp) then
       SampleEmbeddingHelper (Self.embedding_decoder self)
         (repeat sos_id (Z.to_nat (Self.batch_size self))) eos_id
         (hparams.sampling_temperature hp) (hparams.random_seed hp)
     else
       GreedyEmbeddingHelper (Self.embedding_decoder self)
         (repeat sos_id (Z.to_nat (Self.batch_size self))) eos_id)
    state (Some (Self.output_layer self)).
Proof.
  intros Hk. unfold infer_my_decoder.
  destruct (Z.ltb_spec 0 (hparams.beam_width hp)); [lia | reflexivity].
Qed.

Lemma decoder_cell_unfold (self : Self.t) (hp : hparams.t)
    (encoder_outputs : Tensor3) (encoder_state : Nest) (lengths : list Z)
    (cell : Cell) :
  hparams.attention hp = false ->
  create_rnn_cell (decoder_cell_args self hp) = Ok cell ->
  Model_build_decoder_cell self hp encoder_outputs encoder_state lengths =
  (decoder_initial_state <-
     (if Mode_eqb (Self.mode self) INFER && (0 <? hparams.beam_width hp) then
        tile_batch encoder_state (hparams.beam_width hp)
      else Ok encoder_state) ;;
   Ok (cell, decoder_initial_state)).
Proof.
  intros Ha Hc. unfold Model_build_decoder_cell. rewrite Ha.
  unfold decoder_cell_args in Hc. rewrite Hc. reflexivity.
Qed.

(** C9.  At inference a positive [beam_width] selects the beam-search
    decoder, and [sampling_temperature] then has no influence on the
    decoder nor on what [_build_decoder] returns; with [beam_width = 0] the
    sampling helper is selected exactly for a temperature above 0, and the
    greedy helper for every temperature that is 0 or below. *)
Theorem inference_strategy_selection (self : Self.t) (hp : hparams.t)
    (cell : Cell) (state : Nest) (sos_id eos_id : Z) :
  let beam_width := hparams.beam_width hp in
  let temperature := hparams.sampling_temperature hp in
  let embedding := Self.embedding_decoder self in
  let start_tokens := repeat sos_id (Z.to_nat (Self.batch_size self)) in
  (0 < beam_width ->
   infer_my_decoder self hp cell state sos_id eos_id =
   BeamSearchDecoder cell embedding start_tokens eos_id state beam_width
     (Self.output_layer self) (hparams.length_penalty_weight hp) /\
   (forall t : R,
       infer_my_decoder self (set_sampling_temperature hp t) cell state
         sos_id eos_id =
       infer_my_decoder self hp cell state sos_id eos_id) /\
   (forall (t : R) (encoder_outputs : Tensor3) (encoder_state : Nest),
       _build_decoder (M := Model) self encoder_outputs encoder_state
         (set_sampling_temperature hp t) =
       _build_decoder (M := Model) self encoder_outputs encoder_state hp)) /\
  (beam_width = 0 ->
   ((0 < temperature)%R ->
    infer_my_decoder self hp cell state sos_id eos_id =
    BasicDecoder cell
      (SampleEmbeddingHelper embedding start_tokens eos_id temperature
         (hparams.random_seed hp))
      state (Some (Self.output_layer self))) /\
   ((temperature <= 0)%R ->
    infer_my_decoder self hp cell state sos_id eos_id =
    BasicDecoder cell
      (GreedyEmbeddingHelper embedding start_tokens eos_id)
      state (Some (Self.output_layer self)))).
Proof.
  intros beam_width temperature embedding start_tokens. split.
  - intros Hk. split; [| split].
    + apply infer_my_decoder_beam. exact Hk.
    + intros t. rewrite !infer_my_decoder_beam by exact Hk. reflexivity.
    + intros t encoder_outputs encoder_state.
      assert (Hcell : forall a b c,
                 Model_build_decoder_cell self (set_sampling_temperature hp t)
                   a b c
                 = Model_build_decoder_cell self hp a b c) by reflexivity.
      unfold _build_decoder. cbn [_build_decoder_cell Model].
      rewrite Hcell.
      destruct (Model_build_decoder_cell self hp encoder_outputs encoder_state
                  (BatchedInput.source_sequence_length (Self.iterator self)))
        as [[cell' state'] | e]; [| reflexivity].
      cbn [bind]. cbv beta iota.
      destruct (negb (Mode_eqb (Self.mode self) INFER)); [reflexivity |].
      rewrite (infer_my_decoder_beam self (set_sampling_temperature hp t))
        by exact Hk.
      rewrite (infer_my_decoder_beam self hp) by exact Hk.
      reflexivity.
  - intros Hk. split; intros Ht.
    + rewrite infer_my_decoder_basic by (fold beam_width; lia).
      destruct (Rlt_dec 0 (hparams.sampling_temperature hp)) as [_ | Hn];
        [reflexivity | contradiction].
    + rewrite infer_my_decoder_basic by (fold beam_width; lia).
      destruct (Rlt_dec 0 (hparams.sampling_temperature hp)) as [Hp | _];
        [| reflexivity].
      exfalso. fold temperature in Hp. lra.
Qed.

(** C5.  At inference with [beam_width = k > 0] the decoder starts from
    [tile_batch encoder_state k], the encoder state with every batch entry
    replicated [k] times, the result carries the [predicted_ids] of the
    beam search as sample ids and [no_op] in the logits slot; with
    [beam_width = 0] the decoder starts from the encoder state itself and
    the logits are the [rnn_output] of the decoder. *)
Theorem beam_search_tiles_encoder_state (self : Self.t) (hp : hparams.t)
    (encoder_outputs : Tensor3) (encoder_state : Nest) (cell : Cell) :
  Self.mode self = INFER ->
  hparams.attention hp = false ->
  create_rnn_cell (decoder_cell_args self hp) = Ok cell ->
  let k := hparams.beam_width hp in
  let lengths := BatchedInput.source_sequence_length (Self.iterator self) in
  let sos_id := wrap32 (tgt_vocab_lookup (hparams.sos hp)) in
  let eos_id := wrap32 (tgt_vocab_lookup (hparams.eos hp)) in
  let start_tokens := repeat sos_id (Z.to_nat (Self.batch_size self)) in
  let maximum_iterations := _get_infer_maximum_iterations hp lengths in
  (0 < k ->
   forall tiled : Nest,
     tile_batch encoder_state k = Ok tiled ->
     replicated (Z.to_nat k) encoder_state tiled /\
     _build_decoder_cell (Seq2Seq := Model) self hp encoder_outputs
       encoder_state lengths = Ok (cell, tiled) /\
     let my_decoder :=
       BeamSearchDecoder cell (Self.embedding_decoder self) start_tokens
         eos_id tiled k (Self.output_layer self)
         (hparams.length_penalty_weight hp) in
     let beam :=
       beam_search_decode my_decoder (Some maximum_iterations)
         (Self.time_major self) in
     _build_decoder (M := Model) self encoder_outputs encoder_state hp =
     Ok (no_op, ids3 (fst beam), snd beam)) /\
  (k = 0 ->
   _build_decoder_cell (Seq2Seq := Model) self hp encoder_outputs
     encoder_state lengths = Ok (cell, encoder_state) /\
   exists helper : Helper,
     infer_my_decoder self hp cell encoder_state sos_id eos_id =
     BasicDecoder cell helper encoder_state (Some (Self.output_layer self)) /\
     let run :=
       basic_decode cell helper encoder_state (Some (Self.output_layer self))
         (Some maximum_iterations) (Self.time_major self) in
     _build_decoder (M := Model) self encoder_outputs encoder_state hp =
     Ok (logits_tensor (fst (fst run)), ids2 (snd (fst run)), snd run)).
Proof.
  intros Hmode Hatt Hcell k lengths sos_id eos_id start_tokens
    maximum_iterations.
  pose proof (decoder_cell_unfold self hp encoder_outputs encoder_state lengths
                cell Hatt Hcell) as Hdc.
  rewrite Hmode in Hdc. cbn [Mode_eqb andb] in Hdc.
  split.
  - intros Hk tiled Htile.
    assert (Hlt : (0 <? hparams.beam_width hp) = true)
      by (apply Z.ltb_lt; exact Hk).
    rewrite Hlt in Hdc. fold k in Hdc. rewrite Htile in Hdc. cbn [bind] in Hdc.
    split; [apply tile_batch_replicated; exact Htile |].
    split; [exact Hdc |].
    intros my_decoder beam.
    unfold _build_decoder. fold lengths. cbn [_build_decoder_cell Model].
    rewrite Hdc. cbn [bind]. cbv beta iota.
    rewrite Hmode. cbn [Mode_eqb negb].
    rewrite infer_my_decoder_beam by exact Hk.
    rewrite Hlt.
    fold sos_id eos_id start_tokens maximum_iterations k my_decoder.
    unfold dynamic_decode, my_decoder. fold my_decoder. fold beam.
    destruct beam as [predicted_ids final_state]. reflexivity.
  - intros Hk.
    assert (Hlt : (0 <? hparams.beam_width hp) = false)
      by (apply Z.ltb_ge; fold k; lia).
    rewrite Hlt in Hdc. cbn [bind] in Hdc.
    split; [exact Hdc |].
    eexists. split; [apply infer_my_decoder_basic; fold k; lia |].
    intros run.
    unfold _build_decoder. fold lengths. cbn [_build_decoder_cell Model].
    rewrite Hdc. cbn [bind]. cbv beta iota.
    rewrite Hmode. cbn [Mode_eqb negb].
    rewrite infer_my_decoder_basic by (fold k; lia).
    rewrite Hlt.
    unfold dynamic_decode. subst run.
    unfold start_tokens, maximum_iterations, sos_id, eos_id, lengths.
    match goal with
    | |- context [basic_decode ?c ?h ?s ?o ?m ?t] =>
        destruct (basic_decode c h s o m t)
          as [[rnn_output sample_id] final_state]
    end.
    reflexivity.
Qed.

End DecoderProperties.

(** ** Encoder *)

Section EncoderProperties.
Context {F : Framework}.

(** The loop of [alternate_states] over the first [m] layers. *)
Lemma alternate_loop (lf lb : list Nest) (m : nat) :
  (m <= List.length lf)%nat -> (m <= List.length lb)%nat ->
  exists items : list Nest,
    fold_left
      (fun (acc : result (list Nest)) (layer_id : nat) =>
         encoder_state <- acc ;;
         fw <- getitem (fst (Tuple lf, Tuple lb)) layer_id ;;
         encoder_state <- Ok (encoder_state ++ [fw])%list ;;
         bw <- getitem (snd (Tuple lf, Tuple lb)) layer_id ;;
         Ok (encoder_state ++ [bw])%list)
      (seq 0 m) (Ok []) = Ok items /\
    List.length items = (2 * m)%nat /\
    forall i : nat,
      (i < m)%nat ->
      nth_error items (2 * i) = nth_error lf i /\
      nth_error items (2 * i + 1) = nth_error lb i.
Proof.
  induction m as [| m IH]; intros Hf Hb.
  - exists []. split; [reflexivity |]. split; [reflexivity |]. intros i Hi. lia.
  - destruct IH as (items & Hfold & Hlen & Hnth); [lia | lia |].
    destruct (nth_error lf m) as [fw |] eqn:Efw;
      [| apply nth_error_None in Efw; lia].
    destruct (nth_error lb m) as [bw |] eqn:Ebw;
      [| apply nth_error_None in Ebw; lia].
    exists ((items ++ [fw]) ++ [bw])%list.
    split; [| split].
    + rewrite seq_S, fold_left_app, Hfold. cbn [fold_left bind fst snd getitem Nat.add].
      rewrite Efw. cbn [bind]. rewrite Ebw. reflexivity.
    + rewrite !length_app, Hlen. cbn [List.length]. lia.
    + intros i Hi. destruct (Nat.eq_dec i m) as [-> | Hne].
      * split.
        -- rewrite nth_error_app1 by (rewrite length_app, Hlen; cbn; lia).
           rewrite nth_error_app2 by lia.
           rewrite Hlen, Nat.sub_diag, Efw. reflexivity.
        -- rewrite nth_error_app2 by (rewrite length_app, Hlen; cbn; lia).
           rewrite length_app, Hlen. cbn [List.length].
           replace (2 * m + 1 - (2 * m + 1))%nat with 0%nat by lia.
           rewrite Ebw. reflexivity.
      * destruct (Hnth i ltac:(lia)) as [H0 H1].
        split.
        -- rewrite nth_error_app1 by (rewrite length_app, Hlen; cbn; lia).
           rewrite nth_error_app1 by lia. exact H0.
        -- rewrite nth_error_app1 by (rewrite length_app, Hlen; cbn; lia).
           rewrite nth_error_app1 by lia. exact H1.
Qed.

Lemma alternate_states_interleaves (lf lb : list Nest) (n : Z) :
  (Z.to_nat n <= List.length lf)%nat -> (Z.to_nat n <= List.length lb)%nat ->
  exists items : list Nest,
    alternate_states (Tuple lf, Tuple lb) n = Ok (Tuple items) /\
    List.length items = (2 * Z.to_nat n)%nat /\
    forall i : nat,
      (i < Z.to_nat n)%nat ->
      nth_error items (2 * i) = nth_error lf i /\
      nth_error items (2 * i + 1) = nth_error lb i.
Proof.
  intros Hf Hb.
  destruct (alternate_loop lf lb (Z.to_nat n) Hf Hb) as (items & Hfold & Hrest).
  exists items. split; [| exact Hrest].
  unfold alternate_states, py_range. rewrite Hfold. reflexivity.
Qed.

Lemma bidirectional_rnn_unfold (self : Self.t) (inputs : Tensor3)
    (lengths : list Z) (hp : hparams.t) (n r : Z) (fw_cell bw_cell : Cell) :
  create_rnn_cell (encoder_cell_args self hp n r 0) = Ok fw_cell ->
  create_rnn_cell (encoder_cell_args self hp n r (0 + n)) = Ok bw_cell ->
  _build_bidirectional_rnn self inputs lengths hp n r 0 =
  Ok (tf_concat_last
        (fst (bidirectional_dynamic_rnn fw_cell bw_cell inputs lengths
                (Self.time_major self))),
      snd (bidirectional_dynamic_rnn fw_cell bw_cell inputs lengths
             (Self.time_major self))).
Proof.
  intros Hfw Hbw. unfold _build_bidirectional_rnn, _build_encoder_cell.
  unfold encoder_cell_args in Hfw, Hbw. rewrite Hfw. cbn [bind].
  rewrite Hbw. cbn [bind].
  destruct (bidirectional_dynamic_rnn fw_cell bw_cell inputs lengths
              (Self.time_major self)) as [outs st].
  reflexivity.
Qed.

(** C6.  The bidirectional encoder builds a forward and a backward cell of
    [num_bi_layers = num_encoder_layers / 2] layers each (integer
    division).  With [num_bi_layers = 1] its final state is the pair
    (forward state, backward state) of the bidirectional run as it is;
    with [num_bi_layers > 1], the states of the two directions being the
    tuples of their layers' states, it is the tuple of length
    [2 * num_bi_layers] that holds at [2 i] the forward and at [2 i + 1]
    the backward state of layer [i]. *)
Theorem bidirectional_encoder_state (self : Self.t) (hp : hparams.t)
    (fw_cell bw_cell : Cell) :
  hparams.encoder_type hp = "bi" ->
  let num_bi_layers := py_int_div (Self.num_encoder_layers self) 2 in
  let num_bi_residual_layers :=
    py_int_div (Self.num_encoder_residual_layers self) 2 in
  let iterator := Self.iterator self in
  let source :=
    if Self.time_major self then tf_transpose (BatchedInput.source iterator)
    else BatchedInput.source iterator in
  let run :=
    bidirectional_dynamic_rnn fw_cell bw_cell
      (embedding_lookup (Self.embedding_encoder self) source)
      (BatchedInput.source_sequence_length iterator)
      (Self.time_major self) in
  create_rnn_cell
    (encoder_cell_args self hp num_bi_layers num_bi_residual_layers 0)
  = Ok fw_cell ->
  create_rnn_cell
    (encoder_cell_args self hp num_bi_layers num_bi_residual_layers
       (0 + num_bi_layers))
  = Ok bw_cell ->
  cell_args.num_layers
    (encoder_cell_args self hp num_bi_layers num_bi_residual_layers 0)
  = num_bi_layers /\
  cell_args.num_layers
    (encoder_cell_args self hp num_bi_layers num_bi_residual_layers
       (0 + num_bi_layers))
  = num_bi_layers /\
  (0 <= Self.num_encoder_layers self ->
   num_bi_layers = Self.num_encoder_layers self / 2) /\
  (num_bi_layers = 1 ->
   _build_encoder (Seq2Seq := Model) self hp =
   Ok (tf_concat_last (fst run), Tuple [fst (snd run); snd (snd run)])) /\
  (1 < num_bi_layers ->
   forall lf lb : list Nest,
     snd run = (Tuple lf, Tuple lb) ->
     List.length lf = Z.to_nat num_bi_layers ->
     List.length lb = Z.to_nat num_bi_layers ->
     exists items : list Nest,
       _build_encoder (Seq2Seq := Model) self hp =
       Ok (tf_concat_last (fst run), Tuple items) /\
       Z.of_nat (List.length items) = 2 * num_bi_layers /\
       forall i : nat,
         (i < Z.to_nat num_bi_layers)%nat ->
         nth_error items (2 * i) = nth_error lf i /\
         nth_error items (2 * i + 1) = nth_error lb i).
Proof.
  intros Hty num_bi_layers num_bi_residual_layers iterator source run Hfw Hbw.
  split; [reflexivity |]. split; [reflexivity |].
  split.
  { intros Hn. unfold num_bi_layers. apply py_int_div_floor; lia. }
  assert (Henc : _build_encoder (Seq2Seq := Model) self hp =
                 (encoder_state <-
                    (if num_bi_layers =? 1 then
                       Ok (Tuple [fst (snd run); snd (snd run)])
                     else alternate_states (snd run) num_bi_layers) ;;
                  Ok (tf_concat_last (fst run), encoder_state))).
  { cbn [_build_encoder Model]. unfold Model_build_encoder.
    rewrite Hty. cbn [String.eqb Ascii.eqb Bool.eqb andb].
    fold num_bi_layers num_bi_residual_layers iterator source.
    rewrite (bidirectional_rnn_unfold self _ _ hp num_bi_layers
               num_bi_residual_layers fw_cell bw_cell Hfw Hbw).
    reflexivity. }
  split.
  - intros H1. rewrite Henc, H1. reflexivity.
  - intros Hgt lf lb Hrun Hlf Hlb.
    destruct (alternate_states_interleaves lf lb num_bi_layers)
      as (items & Halt & Hlen & Hnth); [lia | lia |].
    exists items. split; [| split].
    + rewrite Henc, Hrun.
      destruct (Z.eqb_spec num_bi_layers 1) as [E | _]; [lia |].
      rewrite Halt. reflexivity.
    + rewrite Hlen. lia.
    + exact Hnth.
Qed.

End EncoderProperties.

(** ** Construction *)

Lemma decay_schedule_result (hp : hparams.t) :
  (known_decay_scheme hp = true ->
   exists s : Z * Z * R, decay_schedule hp = Ok s) /\
  (known_decay_scheme hp = false ->
   exists msg : string, decay_schedule hp = Raise (ValueError msg)).
Proof.
  unfold known_decay_scheme, decay_schedule. cbn [existsb].
  destruct (String.eqb (hparams.decay_scheme hp) "luong5") eqn:E5.
  { rewrite orb_true_r. cbn [orb bind]. split; [eexists; reflexivity | discriminate]. }
  destruct (String.eqb (hparams.decay_scheme hp) "luong10") eqn:E10.
  { rewrite orb_true_r. cbn [orb bind]. split; [eexists; reflexivity | discriminate]. }
  destruct (String.eqb (hparams.decay_scheme hp) "luong234") eqn:E234.
  { rewrite orb_true_r. cbn [orb bind]. split; [eexists; reflexivity | discriminate]. }
  cbn [orb]. rewrite orb_false_r.
  destruct (String.eqb (hparams.decay_scheme hp) "") eqn:E0.
  - split; [eexists; reflexivity | discriminate].
  - split; [discriminate | eexists; reflexivity].
Qed.

Lemma build_learning_rate_result (hp : hparams.t) :
  (known_warmup_scheme hp && known_decay_scheme hp = true ->
   exists rate : ScalarTensor, build_learning_rate hp = Ok rate) /\
  (known_warmup_scheme hp && known_decay_scheme hp = false ->
   exists msg : string, build_learning_rate hp = Raise (ValueError msg)).
Proof.
  unfold build_learning_rate, _get_learning_rate_warmup, known_warmup_scheme.
  destruct (String.eqb (hparams.warmup_scheme hp) "t2t").
  - cbn [bind andb]. unfold _get_learning_rate_decay.
    destruct (decay_schedule_result hp) as [Hk Hu].
    destruct (known_decay_scheme hp).
    + destruct (Hk eq_refl) as ([[s d] f] & ->). cbn [bind].
      split; [eexists; reflexivity | discriminate].
    + destruct (Hu eq_refl) as (msg & ->). cbn [bind].
      split; [discriminate | eexists; reflexivity].
  - cbn [bind andb]. split; [discriminate | eexists; reflexivity].
Qed.

Lemma tile_batch_batched (t : Nest) (k : Z) :
  batched t = true -> exists tiled : Nest, tile_batch t k = Ok tiled.
Proof.
  induction t as [t | items IH] using Nest_ind'; intros Hb.
  - destruct t as [x | rows]; [discriminate | eexists; reflexivity].
  - cbn [batched] in Hb. cbn [tile_batch].
    match goal with
    | |- exists _, bind (?go items) _ = _ =>
        assert (Hgo : exists l', go items = Ok l')
    end.
    { induction items as [| x items IHl]; [eexists; reflexivity |].
      cbn [forallb] in Hb. apply andb_prop in Hb. destruct Hb as [Hx Hrest].
      inversion IH as [| ? ? Px Prest]; subst.
      destruct (Px Hx) as (x' & ->). cbn [bind].
      destruct (IHl Prest Hrest) as (l' & ->). cbn [bind].
      eexists. reflexivity. }
    destruct Hgo as (l' & ->). cbn [bind]. eexists. reflexivity.
Qed.

Lemma batched_interleaved (lf lb items : list Nest) (m : nat) :
  forallb batched lf = true -> forallb batched lb = true ->
  List.length items = (2 * m)%nat ->
  (forall i : nat,
      (i < m)%nat ->
      nth_error items (2 * i) = nth_error lf i /\
      nth_error items (2 * i + 1) = nth_error lb i) ->
  forallb batched items = true.
Proof.
  intros Hf Hb Hlen Hnth. apply forallb_forall. intros x Hx.
  apply In_nth_error in Hx. destruct Hx as [p Hp].
  assert (Hlt : (p < 2 * m)%nat).
  { rewrite <- Hlen. apply nth_error_Some. congruence. }
  rewrite forallb_forall in Hf, Hb.
  destruct (Nat.Even_or_Odd p) as [[i Hi] | [i Hi]]; subst p.
  - destruct (Hnth i ltac:(lia)) as [H0 _]. rewrite H0 in Hp.
    apply Hf. eapply nth_error_In. exact Hp.
  - destruct (Hnth i ltac:(lia)) as [_ H1]. rewrite H1 in Hp.
    apply Hb. eapply nth_error_In. exact Hp.
Qed.

Section Construction.
Context {F : Framework} {D : Decoding}.

Lemma encoder_outcome (self : Self.t) (hp : hparams.t) :
  (hparams.encoder_type hp = "uni" ->
   exists cell : Cell,
     create_rnn_cell
       (encoder_cell_args self hp (Self.num_encoder_layers self)
          (Self.num_encoder_residual_layers self) 0) = Ok cell) ->
  (hparams.encoder_type hp = "bi" ->
   exists fw bw : Cell,
     create_rnn_cell
       (encoder_cell_args self hp
          (py_int_div (Self.num_encoder_layers self) 2)
          (py_int_div (Self.num_encoder_residual_layers self) 2) 0)
     = Ok fw /\
     create_rnn_cell
       (encoder_cell_args self hp
          (py_int_div (Self.num_encoder_layers self) 2)
          (py_int_div (Self.num_encoder_residual_layers self) 2)
          (0 + py_int_div (Self.num_encoder_layers self) 2))
     = Ok bw) ->
  states_well_formed hp ->
  Self.num_encoder_layers self = hparams.num_encoder_layers hp ->
  (known_encoder_type hp = true ->
   exists (eo : Tensor3) (es : Nest),
     Model_build_encoder self hp = Ok (eo, es) /\ batched es = true) /\
  (known_encoder_type hp = false ->
   exists msg : string, Model_build_encoder self hp = Raise (ValueError msg)).
Proof.
  intros Hcu Hcb [Huni Hbi] Hlayers.
  unfold known_encoder_type, Model_build_encoder.
  destruct (String.eqb_spec (hparams.encoder_type hp) "uni") as [Eu | _].
  { cbn [orb]. split; [intros _ | discriminate].
    destruct (Hcu Eu) as (c & Hc). unfold encoder_cell_args in Hc.
    unfold _build_encoder_cell. rewrite Hc.
    cbn [bind].
    match goal with
    | |- context [dynamic_rnn ?c ?i ?l ?t] =>
        pose proof (Huni c i l t) as Hb;
        destruct (dynamic_rnn c i l t) as [eo es]
    end.
    exists eo, es. split; [reflexivity | exact Hb]. }
  destruct (String.eqb_spec (hparams.encoder_type hp) "bi") as [Eb | _].
  2:{ cbn [orb]. split; [discriminate | intros _; eexists; reflexivity]. }
  cbn [orb]. split; [intros _ | discriminate].
  destruct (Hcb Eb) as (fw & bw & Hfw & Hbw).
  unfold encoder_cell_args in Hfw, Hbw.
  unfold _build_bidirectional_rnn, _build_encoder_cell.
  rewrite Hfw. cbn [bind].
  rewrite Hbw. cbn [bind].
  rewrite Hlayers in Hfw, Hbw.
  match goal with
  | |- context [bidirectional_dynamic_rnn ?f ?b ?i ?l ?t] =>
      pose proof (Hbi _ _ f b i l t Hfw Hbw eq_refl eq_refl) as Hst;
      destruct (bidirectional_dynamic_rnn f b i l t) as [outs [sf sb]]
  end.
  cbn [snd fst] in Hst. destruct Hst as (Hsf & Hsb & Hlayered).
  cbn [bind fst snd]. rewrite Hlayers.
  destruct (Z.eqb_spec (py_int_div (hparams.num_encoder_layers hp) 2) 1)
    as [E1 | N1].
  - cbn [bind]. eexists. eexists. split; [reflexivity |].
    cbn [batched forallb]. rewrite Hsf, Hsb. reflexivity.
  - destruct (Z.lt_ge_cases 1 (py_int_div (hparams.num_encoder_layers hp) 2))
      as [Hgt | Hle].
    + destruct (Hlayered Hgt) as (lf & lb & Est & Hlf & Hlb).
      injection Est as -> ->.
      destruct (alternate_states_interleaves lf lb
                  (py_int_div (hparams.num_encoder_layers hp) 2))
        as (items & -> & Hlen & Hnth); [lia | lia |].
      cbn [bind]. eexists. eexists. split; [reflexivity |].
      cbn [batched]. cbn [batched] in Hsf, Hsb.
      exact (batched_interleaved lf lb items _ Hsf Hsb Hlen Hnth).
    + unfold alternate_states, py_range.
      replace (Z.to_nat (py_int_div (hparams.num_encoder_layers hp) 2))
        with 0%nat by lia.
      cbn [seq fold_left bind]. eexists. eexists.
      split; reflexivity.
Qed.

Lemma decoder_outcome (self : Self.t) (hp : hparams.t)
    (encoder_outputs : Tensor3) (encoder_state : Nest) :
  (hparams.attention hp = false ->
   exists cell : Cell,
     create_rnn_cell (decoder_cell_args self hp) = Ok cell) ->
  batched encoder_state = true ->
  (hparams.attention hp = false ->
   exists (logits : Logits) (ids : Ids) (final : Nest),
     _build_decoder (M := Model) self encoder_outputs encoder_state hp =
     Ok (logits, ids, final) /\
     (Self.mode self <> INFER -> exists t : Tensor3, logits = logits_tensor t)) /\
  (hparams.attention hp = true ->
   exists msg : string,
     _build_decoder (M := Model) self encoder_outputs encoder_state hp =
     Raise (ValueError msg)).
Proof.
  intros Hcd Hb. split.
  - intros Hatt.
    destruct (Hcd Hatt) as (cell & Hcell).
    unfold _build_decoder. cbn [_build_decoder_cell Model].
    rewrite (decoder_cell_unfold self hp _ _ _ cell Hatt Hcell).
    assert (Hinit : exists st : Nest,
               (if Mode_eqb (Self.mode self) INFER
                   && (0 <? hparams.beam_width hp)
                then tile_batch encoder_state (hparams.beam_width hp)
                else Ok encoder_state) = Ok st).
    { destruct (Mode_eqb (Self.mode self) INFER && (0 <? hparams.beam_width hp));
        [apply tile_batch_batched; exact Hb | eexists; reflexivity]. }
    destruct Hinit as (st & ->). cbn [bind]. cbv beta iota.
    destruct (Self.mode self) eqn:Hmode; cbn [Mode_eqb negb].
    + unfold dynamic_decode.
      match goal with
      | |- context [basic_decode ?c ?h ?s ?o ?m ?t] =>
          destruct (basic_decode c h s o m t) as [[r i] f]
      end.
      cbn [get_sample_id get_rnn_output bind].
      do 3 eexists. split; [reflexivity |]. intros _. eexists. reflexivity.
    + unfold dynamic_decode.
      match goal with
      | |- context [basic_decode ?c ?h ?s ?o ?m ?t] =>
          destruct (basic_decode c h s o m t) as [[r i] f]
      end.
      cbn [get_sample_id get_rnn_output bind].
      do 3 eexists. split; [reflexivity |]. intros _. eexists. reflexivity.
    + unfold infer_my_decoder.
      destruct (0 <? hparams.beam_width hp).
      * unfold dynamic_decode.
        match goal with
        | |- context [beam_search_decode ?d ?m ?t] =>
            destruct (beam_search_decode d m t) as [p f]
        end.
        cbn [get_predicted_ids bind].
        do 3 eexists. split; [reflexivity |]. intros N. congruence.
      * unfold dynamic_decode.
        match goal with
        | |- context [basic_decode ?c ?h ?s ?o ?m ?t] =>
            destruct (basic_decode c h s o m t) as [[r i] f]
        end.
        cbn [get_sample_id get_rnn_output bind].
        do 3 eexists. split; [reflexivity |]. intros N. congruence.
  - intros Hatt. unfold _build_decoder. cbn [_build_decoder_cell Model].
    unfold Model_build_decoder_cell. rewrite Hatt. cbn [bind].
    eexists. reflexivity.
Qed.

Lemma build_graph_outcome (self : Self.t) (hp : hparams.t) :
  (hparams.encoder_type hp = "uni" ->
   exists cell : Cell,
     create_rnn_cell
       (encoder_cell_args self hp (Self.num_encoder_layers self)
          (Self.num_encoder_residual_layers self) 0) = Ok cell) ->
  (hparams.encoder_type hp = "bi" ->
   exists fw bw : Cell,
     create_rnn_cell
       (encoder_cell_args self hp
          (py_int_div (Self.num_encoder_layers self) 2)
          (py_int_div (Self.num_encoder_residual_layers self) 2) 0)
     = Ok fw /\
     create_rnn_cell
       (encoder_cell_args self hp
          (py_int_div (Self.num_encoder_layers self) 2)
          (py_int_div (Self.num_encoder_residual_layers self) 2)
          (0 + py_int_div (Self.num_encoder_layers self) 2))
     = Ok bw) ->
  (hparams.attention hp = false ->
   exists cell : Cell,
     create_rnn_cell (decoder_cell_args self hp) = Ok cell) ->
  states_well_formed hp ->
  Self.num_encoder_layers self = hparams.num_encoder_layers hp ->
  (known_encoder_type hp && negb (hparams.attention hp) = true ->
   exists (logits : Logits) (loss : option (option R)) (final : Nest)
          (ids : Ids),
     build_graph (M := Model) self hp = Ok (logits, loss, final, ids) /\
     (Self.mode self <> INFER -> exists l : option R, loss = Some l)) /\
  (known_encoder_type hp && negb (hparams.attention hp) = false ->
   exists msg : string,
     build_graph (M := Model) self hp = Raise (ValueError msg)).
Proof.
  intros Hcu Hcb Hcd Hwf Hlayers.
  destruct (encoder_outcome self hp Hcu Hcb Hwf Hlayers) as [Hek Heu].
  unfold build_graph. cbn [_build_encoder Model].
  destruct (known_encoder_type hp).
  2:{ destruct (Heu eq_refl) as (msg & ->). cbn [bind andb].
      split; [discriminate | intros _; eexists; reflexivity]. }
  destruct (Hek eq_refl) as (eo & es & -> & Hb). cbn [bind andb].
  destruct (decoder_outcome self hp eo es Hcd Hb) as [Hdk Hdu].
  destruct (hparams.attention hp).
  { destruct (Hdu eq_refl) as (msg & ->). cbn [bind negb].
    split; [discriminate | intros _; eexists; reflexivity]. }
  destruct (Hdk eq_refl) as (logits & ids & final & -> & Hlog).
  cbn [bind negb]. split; [intros _ | discriminate].
  destruct (Self.mode self) eqn:Hmode; cbn [Mode_eqb negb].
  - destruct Hlog as (t & ->); [discriminate |]. cbn [bind].
    do 4 eexists. split; [reflexivity |]. intros _. eexists. reflexivity.
  - destruct Hlog as (t & ->); [discriminate |]. cbn [bind].
    do 4 eexists. split; [reflexivity |]. intros _. eexists. reflexivity.
  - cbn [bind]. do 4 eexists. split; [reflexivity |]. intros N. congruence.
Qed.

Lemma init_value_error (hp : hparams.t) (mode : Mode)
    (iterator : BatchedInput.t) (table : option (Z -> string))
    (extra_args : option (option SingleCellFn)) :
  hparams.num_encoder_layers hp <> 0 ->
  hparams.num_decoder_layers hp <> 0 ->
  collaborators_accept hp mode iterator extra_args ->
  states_well_formed hp ->
  is_ValueError (__init__ (M := Model) hp mode iterator table extra_args)
  = rejected hp mode.
Proof.
  intros Henc Hdec (Hinit & ee & ed & Hemb & Hcu & Hcb & Hcd) Hwf.
  unfold initial_self in Hcu, Hcb, Hcd.
  unfold __init__, rejected.
  destruct (Z.eqb_spec (hparams.num_encoder_layers hp) 0) as [E | _];
    [contradiction |].
  destruct (Z.eqb_spec (hparams.num_decoder_layers hp) 0) as [E | _];
    [contradiction |].
  cbn [negb py_assert bind].
  destruct Hinit as (i & ->). rewrite Hemb.
  cbn [bind].
  destruct (build_learning_rate_result hp) as [Hlk Hlu].
  revert Hcu Hcb Hcd.
  destruct (hparams.num_residual_layers hp) as [nr |]; intros Hcu Hcb Hcd.
  all: match goal with
       | |- context [build_graph ?s ?h] =>
           destruct (build_graph_outcome s h Hcu Hcb Hcd Hwf eq_refl)
             as [Hok Hbad]
       end.
  all: destruct (known_encoder_type hp && negb (hparams.attention hp)) eqn:Hk.
  (* the graph is rejected *)
  2, 4: destruct (Hbad eq_refl) as (msg & ->); cbn [bind is_ValueError];
    apply andb_false_iff in Hk; destruct Hk as [-> | Hatt];
    [reflexivity
    | apply negb_false_iff in Hatt; rewrite Hatt, orb_true_r; reflexivity].
  (* the graph is built: what remains is the schedule, in TRAIN mode *)
  all: destruct (Hok eq_refl) as (logits & loss & final & ids & -> & _);
    apply andb_prop in Hk; destruct Hk as [-> Hatt];
    apply negb_true_iff in Hatt; rewrite Hatt; cbn [bind negb orb];
    destruct mode; cbn [Mode_eqb bind andb];
    [| reflexivity | destruct table; reflexivity].
  all: destruct (known_warmup_scheme hp && known_decay_scheme hp) eqn:Hs.
  1, 3: destruct (Hlk eq_refl) as (rate & ->); cbn [bind];
    apply andb_prop in Hs; destruct Hs as [-> ->]; cbn [negb orb];
    destruct (String.eqb (hparams.optimizer hp) "sgd"); [reflexivity |];
    destruct (String.eqb (hparams.optimizer hp) "adam"); reflexivity.
  all: destruct (Hlu eq_refl) as (msg & ->); cbn [bind is_ValueError];
    apply andb_false_iff in Hs;
    destruct Hs as [-> | ->]; cbn [negb orb];
    [reflexivity | rewrite orb_true_r; reflexivity].
Qed.

(** Inversion of a successful monadic step. *)
Ltac inv_bind H :=
  match type of H with
  | bind ?m _ = Ok _ =>
      let E := fresh "E" in
      destruct m eqn:E; cbn [bind] in H; [| discriminate H]
  end.

Lemma build_graph_loss {M : Seq2Seq} (self : Self.t) (hp : hparams.t)
    (logits : Logits) (loss : option (option R)) (final : Nest) (ids : Ids) :
  build_graph self hp = Ok (logits, loss, final, ids) ->
  Self.mode self <> INFER -> exists l : option R, loss = Some l.
Proof.
  intros H Hmode. unfold build_graph in H.
  inv_bind H. destruct a as [eo es].
  inv_bind H. destruct a as [[lg sid] fin].
  inv_bind H. injection H as <- <- <- <-.
  destruct (Self.mode self); cbn [Mode_eqb negb] in E1.
  - destruct lg; [discriminate |]. injection E1 as <-. eexists. reflexivity.
  - destruct lg; [discriminate |]. injection E1 as <-. eexists. reflexivity.
  - congruence.
Qed.

Lemma init_ok_calls {M : Seq2Seq} (hp : hparams.t) (mode : Mode)
    (iterator : BatchedInput.t) (table : option (Z -> string))
    (extra_args : option (option SingleCellFn)) (m : BaseModel.t) :
  __init__ hp mode iterator table extra_args = Ok m ->
  BaseModel.mode m = mode /\
  (mode = TRAIN ->
   forall global_step : Z, exists r, train m global_step = Ok r) /\
  (mode = EVAL -> exists r, eval m = Ok r) /\
  (mode = INFER -> exists r, infer m = Ok r).
Proof.
  intros H. unfold __init__ in H.
  inv_bind H. inv_bind H.
  destruct (hparams.num_residual_layers hp) as [nr |].
  all: inv_bind H; inv_bind H;
    match goal with a : (Embedding * Embedding)%type |- _ => destruct a end;
    inv_bind H;
    match goal with
    | a : (Logits * option (option R) * Nest * Ids)%type |- _ =>
        destruct a as [[[lg loss] fin] ids]
    end;
    match goal with
    | E : build_graph ?s ?h = Ok _ |- _ =>
        pose proof (build_graph_loss s h _ _ _ _ E) as Hloss;
        cbn [Self.mode] in Hloss
    end;
    inv_bind H; inv_bind H;
    match goal with
    | a : (option ScalarTensor * option Optimizer)%type |- _ =>
        destruct a as [lr opt]
    end;
    injection H as <-;
    (split; [reflexivity |]);
    destruct mode; cbn [Mode_eqb negb] in *;
    (split; [| split]); try discriminate.
  all: try (intros _; destruct Hloss as (l & ->); [discriminate |]).
  all: unfold train, eval, infer;
    cbn [BaseModel.mode BaseModel.opt BaseModel.train_loss
         BaseModel.eval_loss BaseModel.predict_count BaseModel.word_count
         BaseModel.learning_rate BaseModel.batch_size BaseModel.infer_logits
         BaseModel.sample_id BaseModel.sample_words
         Mode_eqb py_assert bind getattr].
  all: repeat match goal with
         | E : bind _ _ = Ok _ |- _ => inv_bind E
         | E : Ok _ = Ok _ |- _ => inversion E; subst; clear E
         end.
  all: intros; cbn [bind getattr]; eexists; reflexivity.
Qed.

Lemma session_calls_no_value_error (m : BaseModel.t) (global_step : Z) :
  is_ValueError (train m global_step) = false /\
  is_ValueError (eval m) = false /\
  is_ValueError (infer m) = false.
Proof.
  unfold train, eval, infer, py_assert, getattr.
  repeat split.
  - destruct (Mode_eqb (BaseModel.mode m) TRAIN); [| reflexivity].
    destruct (BaseModel.opt m); [| reflexivity].
    destruct (BaseModel.train_loss m); [| reflexivity].
    destruct (BaseModel.predict_count m); [| reflexivity].
    destruct (BaseModel.word_count m); [| reflexivity].
    destruct (BaseModel.learning_rate m); reflexivity.
  - destruct (Mode_eqb (BaseModel.mode m) EVAL); [| reflexivity].
    destruct (BaseModel.eval_loss m); [| reflexivity].
    destruct (BaseModel.predict_count m); reflexivity.
  - destruct (Mode_eqb (BaseModel.mode m) INFER); [| reflexivity].
    destruct (BaseModel.infer_logits m); [| reflexivity].
    destruct (BaseModel.sample_id m); [| reflexivity].
    destruct (BaseModel.sample_words m); reflexivity.
Qed.

(** C8 (amended).  With nonzero layer counts, well-formed RNN states and
    collaborators that accept the configuration (the initializer and the
    embeddings are obtained, and the cell factory returns a cell on the
    argument records that the constructor passes it; nothing is asked of
    the factory on other arguments), the constructor raises [ValueError]
    exactly when [encoder_type] is neither uni nor bi, or attention is
    requested, or, in TRAIN mode only, [warmup_scheme] is not t2t or
    [decay_scheme] is neither empty nor one of luong5, luong10, luong234.
    A model that was constructed answers the session call of its mode,
    and no session call raises [ValueError]. *)
Theorem construction_rejects_configuration (hp : hparams.t) (mode : Mode)
    (iterator : BatchedInput.t) (table : option (Z -> string))
    (extra_args : option (option SingleCellFn)) :
  hparams.num_encoder_layers hp <> 0 ->
  hparams.num_decoder_layers hp <> 0 ->
  collaborators_accept hp mode iterator extra_args ->
  states_well_formed hp ->
  is_ValueError (__init__ (M := Model) hp mode iterator table extra_args)
  = rejected hp mode /\
  (forall m : BaseModel.t,
      __init__ (M := Model) hp mode iterator table extra_args = Ok m ->
      BaseModel.mode m = mode /\
      (mode = TRAIN ->
       forall global_step : Z, exists r, train m global_step = Ok r) /\
      (mode = EVAL -> exists r, eval m = Ok r) /\
      (mode = INFER -> exists r, infer m = Ok r)) /\
  (forall (m : BaseModel.t) (global_step : Z),
      is_ValueError (train m global_step) = false /\
      is_ValueError (eval m) = false /\
      is_ValueError (infer m) = false).
Proof.
  intros Henc Hdec Hcol Hwf. split; [| split].
  - apply init_value_error; assumption.
  - intros m Hm. exact (init_ok_calls hp mode iterator table extra_args m Hm).
  - exact session_calls_no_value_error.
Qed.

End Construction.

(* ================================================================== *)
(** * The statements on the plain instance *)

Lemma plain_states_batched (cell : cell_args.t unit) :
  batched (plain_layer_states cell) = true.
Proof.
  unfold plain_layer_states.
  destruct (1 <? cell_args.num_layers cell); [| reflexivity].
  cbn [batched]. apply forallb_forall. intros x Hx.
  apply in_map_iff in Hx. destruct Hx as (l & <- & _). reflexivity.
Qed.

Lemma plain_states_layers (cell : cell_args.t unit) :
  1 < cell_args.num_layers cell ->
  exists items : list Nest,
    plain_layer_states cell = Tuple items /\
    List.length items = Z.to_nat (cell_args.num_layers cell).
Proof.
  intros Hn. unfold plain_layer_states.
  destruct (Z.ltb_spec 1 (cell_args.num_layers cell)) as [_ | Hle]; [| lia].
  eexists. split; [reflexivity |]. rewrite length_map, length_seq. reflexivity.
Qed.

Lemma plain_collaborators_accept (hp : hparams.t) (mode : Mode)
    (iterator : BatchedInput.t) (extra_args : option (option unit)) :
  @collaborators_accept plain_framework hp mode iterator extra_args.
Proof.
  split; [exists tt; reflexivity |].
  exists true, false. split; [reflexivity |].
  cbv zeta. repeat split.
  - intros _. eexists. reflexivity.
  - intros _. eexists. eexists. split; reflexivity.
  - intros _. eexists. reflexivity.
Qed.

Lemma plain_states_well_formed (hp : hparams.t) :
  @states_well_formed plain_framework hp.
Proof.
  split.
  - intros cell inputs lengths time_major. apply plain_states_batched.
  - intros fw_args bw_args fw bw inputs lengths time_major Hfw Hbw Hnf Hnb.
    cbn in Hfw, Hbw. injection Hfw as <-. injection Hbw as <-.
    cbn [bidirectional_dynamic_rnn plain_framework snd fst].
    split; [apply plain_states_batched |].
    split; [apply plain_states_batched |].
    intros Hgt.
    destruct (plain_states_layers fw_args) as (lf & -> & Hlf);
      [exact (eq_ind_r (fun z => 1 < z) Hgt Hnf) |].
    destruct (plain_states_layers bw_args) as (lb & -> & Hlb);
      [exact (eq_ind_r (fun z => 1 < z) Hgt Hnb) |].
    exists lf, lb. split; [reflexivity |].
    split; [exact (eq_trans Hlf (f_equal Z.to_nat Hnf))
           | exact (eq_trans Hlb (f_equal Z.to_nat Hnb))].
Qed.

(** The factory that follows the documented contract returns the
    arguments it accepts. *)
Lemma strict_create_rnn_cell_ok (args cell : cell_args.t unit) :
  strict_create_rnn_cell args = Ok cell -> cell = args.
Proof.
  unfold strict_create_rnn_cell.
  destruct (cell_args.num_layers args =? 0); [discriminate |].
  destruct (existsb (String.eqb (cell_args.unit_type args))
              ["lstm"; "gru"; "layer-norm-lstm"; "nas"]);
    [| discriminate].
  intros E. injection E as <-. reflexivity.
Qed.

Lemma strict_create_rnn_cell_accepts (args : cell_args.t unit) :
  cell_args.num_layers args <> 0 ->
  existsb (String.eqb (cell_args.unit_type args))
    ["lstm"; "gru"; "layer-norm-lstm"; "nas"] = true ->
  strict_create_rnn_cell args = Ok args.
Proof.
  intros Hn Hu. unfold strict_create_rnn_cell.
  destruct (Z.eqb_spec (cell_args.num_layers args) 0) as [E | _];
    [contradiction |].
  rewrite Hu. reflexivity.
Qed.

(** That factory accepts a configuration with a recognized unit type whose
    encoder, split in two for a bidirectional one, and decoder have at
    least one layer. *)
Lemma strict_collaborators_accept (hp : hparams.t) (mode : Mode)
    (iterator : BatchedInput.t) (extra_args : option (option unit)) :
  existsb (String.eqb (hparams.unit_type hp))
    ["lstm"; "gru"; "layer-norm-lstm"; "nas"] = true ->
  (hparams.encoder_type hp = "uni" -> hparams.num_encoder_layers hp <> 0) ->
  (hparams.encoder_type hp = "bi" ->
   py_int_div (hparams.num_encoder_layers hp) 2 <> 0) ->
  hparams.num_decoder_layers hp <> 0 ->
  @collaborators_accept strict_framework hp mode iterator extra_args.
Proof.
  intros Hunit Huni Hbi Hdec.
  split; [exists tt; reflexivity |].
  exists true, false. split; [reflexivity |].
  cbv zeta. repeat split.
  - intros E. eexists.
    apply strict_create_rnn_cell_accepts; [exact (Huni E) | exact Hunit].
  - intros E. eexists. eexists.
    split; apply strict_create_rnn_cell_accepts;
      solve [exact (Hbi E) | exact Hunit].
  - intros _. eexists.
    apply strict_create_rnn_cell_accepts; [exact Hdec | exact Hunit].
Qed.

Lemma strict_states_well_formed (hp : hparams.t) :
  @states_well_formed strict_framework hp.
Proof.
  split.
  - intros cell inputs lengths time_major. apply plain_states_batched.
  - intros fw_args bw_args fw bw inputs lengths time_major Hfw Hbw Hnf Hnb.
    apply strict_create_rnn_cell_ok in Hfw, Hbw. subst fw bw.
    cbn [bidirectional_dynamic_rnn strict_framework snd fst].
    split; [apply plain_states_batched |].
    split; [apply plain_states_batched |].
    intros Hgt.
    destruct (plain_states_layers fw_args) as (lf & -> & Hlf);
      [exact (eq_ind_r (fun z => 1 < z) Hgt Hnf) |].
    destruct (plain_states_layers bw_args) as (lb & -> & Hlb);
      [exact (eq_ind_r (fun z => 1 < z) Hgt Hnb) |].
    exists lf, lb. split; [reflexivity |].
    split; [exact (eq_trans Hlf (f_equal Z.to_nat Hnf))
           | exact (eq_trans Hlb (f_equal Z.to_nat Hnb))].
Qed.

(** An error of a collaborator is not one of the constructor's own: the
    factory that follows the documented contract refuses the zero layers
    that a bidirectional encoder of one layer asks for in each direction,
    and construction then fails with that factory's error although the
    constructor's own checks pass. *)
Lemma construction_cell_factory_error :
  let hp := sample_hparams 1 "bi" "t2t" "" 4 1000 None 0 0 false in
  rejected hp EVAL = false /\
  ~ @collaborators_accept strict_framework hp EVAL (sample_batch 3 0) None /\
  @__init__ strict_framework strict_decoding Model
    hp EVAL (sample_batch 3 0) None None
  = Raise (ValueError "num_layers must be positive").
Proof.
  cbv zeta. split; [reflexivity |]. split; [| reflexivity].
  intros (_ & ee & ed & _ & _ & Hbi & _).
  destruct (Hbi eq_refl) as (fw & bw & Hfw & _).
  discriminate Hfw.
Qed.

(** C8, as stated, fails: in EVAL mode a configuration whose warmup and
    decay schemes are not recognized is constructed without an error. *)
Lemma construction_accepts_misnamed_schedule_in_eval :
  misconfigured misnamed_schedule_hparams = true /\
  raises (@__init__ plain_framework plain_decoding Model
            misnamed_schedule_hparams EVAL (sample_batch 3 0) None None)
  = false.
Proof.
  split; reflexivity.
Qed.

(** The loss of the sample batch is the masked sum over its two sequences
    and three steps, divided by 2. *)
Lemma compute_loss_masked_sum_witness :
  exists loss : R,
    @_compute_loss plain_framework
      (sample_self TRAIN 2 (sample_batch 3 0)) (sample_logits 3 [0%R; 0%R])
    = Some loss.
Proof.
  assert (Hshape : @loss_shapes plain_framework
                     (sample_self TRAIN 2 (sample_batch 3 0))
                     (sample_logits 3 [0%R; 0%R]) 2 3).
  { repeat split; reflexivity. }
  assert (Hb : (0 < 2)%nat) by lia.
  destruct (compute_loss_masked_sum
              (sample_self TRAIN 2 (sample_batch 3 0))
              (sample_logits 3 [0%R; 0%R]) 2 3 Hshape Hb) as [Hloss _].
  eexists. exact Hloss.
Defined.

Lemma warmup_t2t_learning_rate_witness :
  exists rate : ScalarTensor,
    _get_learning_rate_warmup (tf_constant 1%R) regular_hparams = Ok rate /\
    rate 0 = Some (1 * 0.01)%R /\
    rate 4 = Some 1%R.
Proof.
  assert (Hs : hparams.warmup_scheme regular_hparams = "t2t") by reflexivity.
  assert (Hw : hparams.warmup_steps regular_hparams < 2 ^ 31) by reflexivity.
  destruct (warmup_t2t_learning_rate regular_hparams Hs Hw)
    as (rate & Hrate & _ & H0 & _ & H4).
  exists rate. split; [exact Hrate |]. split; [apply H0; reflexivity | exact H4].
Defined.


Lemma compute_loss_padding_invariant_witness :
  @_compute_loss plain_framework
    (sample_self TRAIN 2 (sample_batch 3 7)) (sample_logits 3 [5%R; 5%R])
  = @_compute_loss plain_framework
      (sample_self TRAIN 2 (sample_batch 4 9)) (sample_logits 4 [1%R]).
Proof.
  refine (proj1 (compute_loss_padding_invariant
                   (sample_self TRAIN 2 (sample_batch 3 7))
                   (sample_self TRAIN 2 (sample_batch 4 9))
                   (sample_logits 3 [5%R; 5%R]) (sample_logits 4 [1%R])
                   2 3 4 _ _ _ _ _ _ _)).
  - repeat split; reflexivity.
  - repeat split; reflexivity.
  - lia.
  - reflexivity.
  - reflexivity.
  - intros i Hi. destruct i as [| [| i]]; cbn; lia.
  - intros i j Hi Hj.
    cbn [sample_self sample_batch Self.iterator Self.time_major
         BatchedInput.target_sequence_length BatchedInput.target_output] in *.
    unfold at_batch_time, sample_tokens, sample_logits. cbn [at_].
    destruct (Z.ltb_spec (Z.of_nat j) (nth i sample_lengths 0)) as [_ | Hge];
      [split; reflexivity | lia].
Defined.

Lemma beam_search_tiles_encoder_state_witness :
  @_build_decoder_cell plain_framework Model
    (sample_self INFER 2 (sample_batch 3 0)) beam_hparams
    (sample_logits 3 []) sample_state sample_lengths
  = Ok (decoder_cell_args (sample_self INFER 2 (sample_batch 3 0)) beam_hparams,
        Tuple [Leaf (Dim [Scalar 1%R; Scalar 1%R; Scalar 2%R; Scalar 2%R])]).
Proof.
  assert (Hk : 0 < hparams.beam_width beam_hparams) by reflexivity.
  exact (proj1 (proj2
    (proj1 (@beam_search_tiles_encoder_state plain_framework plain_decoding
              (sample_self INFER 2 (sample_batch 3 0)) beam_hparams
              (sample_logits 3 []) sample_state
              (decoder_cell_args (sample_self INFER 2 (sample_batch 3 0))
                 beam_hparams)
              eq_refl eq_refl eq_refl)
       Hk _ eq_refl))).
Defined.

Lemma bidirectional_encoder_state_witness :
  exists (outputs : Tensor3) (items : list Nest),
    @_build_encoder plain_framework Model
      (sample_self TRAIN 4 (sample_batch 3 0)) bidirectional_hparams
    = Ok (outputs, Tuple items) /\
    Z.of_nat (List.length items) = 4 /\
    nth_error items 0 = Some (Leaf (Dim [Scalar (INR 0); Scalar 0%R])) /\
    nth_error items 1 = Some (Leaf (Dim [Scalar (INR 0); Scalar 2%R])) /\
    nth_error items 2 = Some (Leaf (Dim [Scalar (INR 1); Scalar 0%R])) /\
    nth_error items 3 = Some (Leaf (Dim [Scalar (INR 1); Scalar 2%R])).
Proof.
  pose proof (@bidirectional_encoder_state plain_framework
                (sample_self TRAIN 4 (sample_batch 3 0)) bidirectional_hparams
                _ _ eq_refl eq_refl eq_refl) as H.
  destruct H as (_ & _ & _ & _ & Hmany).
  destruct (Hmany eq_refl _ _ eq_refl eq_refl eq_refl)
    as (items & Henc & Hlen & Hnth).
  destruct (Hnth 0%nat) as [H0 H1]; [cbn; lia |].
  destruct (Hnth 1%nat) as [H2 H3]; [cbn; lia |].
  eexists. exists items.
  split; [exact Henc |]. split; [exact Hlen |].
  split; [exact H0 |]. split; [exact H1 |]. split; [exact H2 | exact H3].
Defined.

Lemma infer_maximum_iterations_cap_witness :
  _get_infer_maximum_iterations cold_hparams [3; 5] = 50 /\
  _get_infer_maximum_iterations regular_hparams [3; 5] = 10.
Proof.
  split.
  - apply (proj1 (infer_maximum_iterations_cap cold_hparams [3; 5]) 50);
      [reflexivity | discriminate].
  - apply (proj2 (proj2 (proj2 (infer_maximum_iterations_cap
                                  regular_hparams [3; 5])
                           (or_introl eq_refl)))).
    cbn. lia.
Defined.

Lemma construction_rejects_configuration_witness :
  is_ValueError
    (@__init__ strict_framework strict_decoding Model
       misnamed_schedule_hparams TRAIN (sample_batch 3 0)
       (Some sample_reverse_table) None) = true /\
  is_ValueError
    (@__init__ strict_framework strict_decoding Model
       misnamed_schedule_hparams INFER (sample_batch 3 0)
       (Some sample_reverse_table) None) = false /\
  (forall m : BaseModel.t,
      @__init__ strict_framework strict_decoding Model
        misnamed_schedule_hparams INFER (sample_batch 3 0)
        (Some sample_reverse_table) None = Ok m ->
      exists r, infer m = Ok r) /\
  exists m : BaseModel.t,
    @__init__ strict_framework strict_decoding Model
      misnamed_schedule_hparams INFER (sample_batch 3 0)
      (Some sample_reverse_table) None = Ok m.
Proof.
  assert (He : hparams.num_encoder_layers misnamed_schedule_hparams <> 0)
    by discriminate.
  assert (Hd : hparams.num_decoder_layers misnamed_schedule_hparams <> 0)
    by discriminate.
  assert (Ha : forall mode,
             @collaborators_accept strict_framework
               misnamed_schedule_hparams mode (sample_batch 3 0) None).
  { intros mode. apply strict_collaborators_accept;
      [reflexivity | intros _; discriminate | discriminate | discriminate]. }
  split; [| split; [| split]].
  - exact (proj1 (@construction_rejects_configuration strict_framework
                    strict_decoding misnamed_schedule_hparams TRAIN
                    (sample_batch 3 0) (Some sample_reverse_table) None
                    He Hd (Ha TRAIN) (strict_states_well_formed _))).
  - exact (proj1 (@construction_rejects_configuration strict_framework
                    strict_decoding misnamed_schedule_hparams INFER
                    (sample_batch 3 0) (Some sample_reverse_table) None
                    He Hd (Ha INFER) (strict_states_well_formed _))).
  - intros m Hm.
    exact (proj2 (proj2 (proj2
             (proj1 (proj2
                (@construction_rejects_configuration strict_framework
                   strict_decoding misnamed_schedule_hparams INFER
                   (sample_batch 3 0) (Some sample_reverse_table) None
                   He Hd (Ha INFER) (strict_states_well_formed _)))
                m Hm))) eq_refl).
  - eexists. reflexivity.
Defined.

Lemma inference_strategy_selection_witness :
  @infer_my_decoder plain_framework
    (sample_self INFER 2 (sample_batch 3 0)) cold_hparams
    (decoder_cell_args (sample_self INFER 2 (sample_batch 3 0)) cold_hparams)
    sample_state 1 2
  = @BasicDecoder plain_framework
      (decoder_cell_args (sample_self INFER 2 (sample_batch 3 0)) cold_hparams)
      (@GreedyEmbeddingHelper plain_framework false [1; 1] 2)
      sample_state (Some (mkDense 10 false "output_projection")).
Proof.
  apply (proj2 (proj2 (@inference_strategy_selection plain_framework
                         plain_decoding
                         (sample_self INFER 2 (sample_batch 3 0)) cold_hparams
                         _ sample_state 1 2) eq_refl)).
  cbn. lra.
Defined.

Lemma no_decay_learning_rate_witness :
  decay_schedule no_decay_hparams = Ok (1000, 0, 1.0%R) /\
  exists rate : ScalarTensor,
    build_learning_rate no_decay_hparams = Ok rate /\
    exists r : R, rate 50 = Some r.
Proof.
  destruct (no_decay_learning_rate no_decay_hparams eq_refl eq_refl)
    as (Hsched & _ & _ & rate & Hrate & Hdef).
  split; [exact Hsched |].
  exists rate. split; [exact Hrate |].
  apply Hdef. cbn. lia.
Defined.

(* ================================================================== *)
(** * Further properties of the learning rate *)

Lemma exp_mono_le (x y : R) : (x <= y)%R -> (exp x <= exp y)%R.
Proof.
  intros [Hlt | ->]; [left; apply exp_increasing; exact Hlt | apply Rle_refl].
Qed.

Lemma ln_hundredth_neg : (ln 0.01 < 0)%R.
Proof.
  rewrite <- ln_1. apply ln_increasing; lra.
Qed.

(** The warmup scaling [warmup_factor ^ k] as an exponential. *)
Lemma warmup_scaling_exp (n k : Z) :
  tf_pow (exp (ln 0.01 / IZR n)) (IZR k) = exp (IZR k * (ln 0.01 / IZR n)).
Proof.
  unfold tf_pow, Rpower. rewrite ln_exp. reflexivity.
Qed.

Lemma warmup_scaling_antitone (n k1 k2 : Z) :
  0 < n -> k1 <= k2 ->
  (tf_pow (exp (ln 0.01 / IZR n)) (IZR k2)
   <= tf_pow (exp (ln 0.01 / IZR n)) (IZR k1))%R.
Proof.
  intros Hn Hk. rewrite !warmup_scaling_exp. apply exp_mono_le.
  assert (HnR : (0 < IZR n)%R) by (apply IZR_lt; exact Hn).
  assert (Hc : (ln 0.01 / IZR n < 0)%R).
  { unfold Rdiv. rewrite <- (Rmult_0_l (/ IZR n)).
    apply Rmult_lt_compat_r; [apply Rinv_0_lt_compat; exact HnR |].
    exact ln_hundredth_neg. }
  assert (HkR : (IZR k1 <= IZR k2)%R) by (apply IZR_le; exact Hk).
  nra.
Qed.

Lemma warmup_scaling_bounds (n k : Z) :
  0 < n -> 0 <= k <= n ->
  (0.01 <= tf_pow (exp (ln 0.01 / IZR n)) (IZR k) <= 1)%R.
Proof.
  intros Hn Hk. split.
  - rewrite <- (warmup_factor_full n Hn) at 1.
    apply warmup_scaling_antitone; lia.
  - apply Rle_trans with (tf_pow (exp (ln 0.01 / IZR n)) (IZR 0)).
    + apply warmup_scaling_antitone; lia.
    + rewrite warmup_scaling_exp, Rmult_0_l, exp_0. apply Rle_refl.
Qed.

(** X1.  Under t2t with a non-negative base rate, the warmed-up rate never
    decreases as the step counter grows, and it stays between one
    hundredth of the base rate and the base rate. *)
Theorem warmup_rate_rises (hp : hparams.t) :
  hparams.warmup_scheme hp = "t2t" ->
  hparams.warmup_steps hp < 2 ^ 31 ->
  (0 <= hparams.learning_rate hp)%R ->
  let base := hparams.learning_rate hp in
  exists rate : ScalarTensor,
    _get_learning_rate_warmup (tf_constant base) hp = Ok rate /\
    forall g1 g2 : Z,
      0 <= g1 -> g1 <= g2 ->
      exists r1 r2 : R,
        rate g1 = Some r1 /\ rate g2 = Some r2 /\
        (r1 <= r2)%R /\ (0.01 * base <= r1 <= base)%R.
Proof.
  intros Hs Hw Hb base.
  destruct (_get_learning_rate_warmup (tf_constant base) hp)
    as [rate | e] eqn:Hrate;
    [| rewrite (warmup_t2t_unfold _ _ Hs) in Hrate; discriminate].
  exists rate. split; [reflexivity |].
  assert (Hval : forall g : Z,
             0 <= g ->
             exists r : R,
               rate g = Some r /\ (0.01 * base <= r <= base)%R /\
               (g < hparams.warmup_steps hp ->
                r = (base * tf_pow (exp (ln 0.01 / IZR (hparams.warmup_steps hp)))
                              (IZR (hparams.warmup_steps hp - g)))%R) /\
               (hparams.warmup_steps hp <= g -> r = base)).
  { intros g Hg.
    destruct (Z.lt_ge_cases g (hparams.warmup_steps hp)) as [Hlt | Hge].
    - eexists. split; [apply (warmup_rate_before hp base rate g Hrate Hs Hw); lia |].
      pose proof (warmup_scaling_bounds (hparams.warmup_steps hp)
                    (hparams.warmup_steps hp - g) ltac:(lia) ltac:(lia)) as Hbd.
      fold base in Hb.
      split; [split; nra |]. split; [reflexivity | lia].
    - exists base. split; [apply (warmup_rate_after hp _ rate g Hrate Hge) |].
      fold base in Hb. split; [lra |]. split; [lia | reflexivity]. }
  intros g1 g2 H1 H12.
  destruct (Hval g1 H1) as (r1 & Hr1 & Hbd1 & Hin1 & Hout1).
  destruct (Hval g2 ltac:(lia)) as (r2 & Hr2 & Hbd2 & Hin2 & Hout2).
  exists r1, r2. split; [exact Hr1 |]. split; [exact Hr2 |].
  split; [| exact Hbd1].
  destruct (Z.lt_ge_cases g2 (hparams.warmup_steps hp)) as [Hlt | Hge].
  - rewrite (Hin1 ltac:(lia)), (Hin2 Hlt).
    apply Rmult_le_compat_l; [exact Hb |].
    apply warmup_scaling_antitone; lia.
  - rewrite (Hout2 Hge). lra.
Qed.

Lemma warmup_rate_rises_witness :
  exists (rate : ScalarTensor) (r1 r2 : R),
    _get_learning_rate_warmup (tf_constant 1%R) regular_hparams = Ok rate /\
    rate 1 = Some r1 /\ rate 3 = Some r2 /\ (r1 <= r2)%R.
Proof.
  assert (Hs : hparams.warmup_scheme regular_hparams = "t2t") by reflexivity.
  assert (Hw : hparams.warmup_steps regular_hparams < 2 ^ 31) by reflexivity.
  assert (Hb : (0 <= hparams.learning_rate regular_hparams)%R) by (cbn; lra).
  destruct (warmup_rate_rises regular_hparams Hs Hw Hb) as (rate & Hrate & Hmono).
  destruct (Hmono 1 3) as (r1 & r2 & H1 & H2 & Hle & _); [lia | lia |].
  exists rate, r1, r2. repeat split; assumption.
Defined.

Lemma known_preset_schedule (hp : hparams.t) :
  In (hparams.decay_scheme hp) ["luong5"; "luong10"; "luong234"] ->
  0 <= hparams.num_train_steps hp ->
  exists start decay_steps : Z,
    decay_schedule hp = Ok (start, decay_steps, 0.5%R) /\
    0 <= start <= hparams.num_train_steps hp.
Proof.
  intros Hin Hn.
  destruct (decay_schedule hp) as [[[start decay_steps] f] | e] eqn:Hs.
  - destruct (luong_start_bounds hp start decay_steps f Hin Hn Hs) as [Hb ->].
    exists start, decay_steps. split; [reflexivity | exact Hb].
  - exfalso. destruct Hin as [E | [E | [E | []]]]; symmetry in E.
    + rewrite (decay_schedule_luong5 hp E) in Hs. discriminate.
    + rewrite (decay_schedule_luong10 hp E) in Hs. discriminate.
    + rewrite (decay_schedule_luong234 hp E) in Hs. discriminate.
Qed.

Lemma build_learning_rate_ok (hp : hparams.t) (s : Z * Z * R) :
  hparams.warmup_scheme hp = "t2t" ->
  decay_schedule hp = Ok s ->
  exists rate : ScalarTensor, build_learning_rate hp = Ok rate.
Proof.
  intros Hw Hs. destruct s as [[start decay_steps] f].
  eexists.
  apply (build_learning_rate_unfold hp _ start decay_steps f
           (warmup_t2t_unfold _ hp Hw) Hs).
Qed.

(** X2.  Under a luong preset, past warmup and from the start of the decay
    on, one more period of [decay_steps] steps halves the rate exactly. *)
Theorem decay_halves_every_period (hp : hparams.t) :
  In (hparams.decay_scheme hp) ["luong5"; "luong10"; "luong234"] ->
  hparams.warmup_scheme hp = "t2t" ->
  0 <= hparams.num_train_steps hp ->
  exists (start decay_steps : Z) (rate : ScalarTensor),
    decay_schedule hp = Ok (start, decay_steps, 0.5%R) /\
    build_learning_rate hp = Ok rate /\
    forall g : Z,
      0 < decay_steps ->
      start <= g -> hparams.warmup_steps hp <= g ->
      g + decay_steps < 2 ^ 31 ->
      exists r : R,
        rate g = Some r /\ rate (g + decay_steps) = Some (r / 2)%R.
Proof.
  intros Hin Hw Hn.
  destruct (known_preset_schedule hp Hin Hn) as (start & q & Hs & Hb).
  destruct (build_learning_rate_ok hp _ Hw Hs) as (rate & Hrate).
  exists start, q, rate. split; [exact Hs |]. split; [exact Hrate |].
  intros g Hq Hg Hwg Hmax.
  eexists.
  split; [apply (decayed_rate hp rate start q 0.5%R g Hrate Hs); lia || lra |].
  rewrite (decayed_rate hp rate start q 0.5%R (g + q) Hrate Hs)
    by (lia || lra).
  f_equal.
  replace (g + q - start) with ((g - start) + 1 * q) by lia.
  rewrite Z.div_add by lia.
  rewrite Z2Nat.inj_add by (try apply Z.div_pos; lia).
  rewrite pow_add. change (Z.to_nat 1) with 1%nat. rewrite pow_1.
  lra.
Qed.

Lemma decay_halves_every_period_witness :
  exists (rate : ScalarTensor) (r : R),
    build_learning_rate regular_hparams = Ok rate /\
    rate 650 = Some r /\ rate 750 = Some (r / 2)%R.
Proof.
  assert (Hin : In (hparams.decay_scheme regular_hparams)
                  ["luong5"; "luong10"; "luong234"]) by (left; reflexivity).
  assert (Hs : hparams.warmup_scheme regular_hparams = "t2t") by reflexivity.
  assert (Hn : 0 <= hparams.num_train_steps regular_hparams) by discriminate.
  destruct (decay_halves_every_period regular_hparams Hin Hs Hn)
    as (start & q & rate & Hsched & Hrate & Hhalf).
  assert (E : (start, q) = (500, 100)).
  { change (decay_schedule regular_hparams) with
      (@Ok (Z * Z * R) (500, 100, 0.5%R)) in Hsched.
    injection Hsched as <- <-. reflexivity. }
  injection E as -> ->.
  destruct (Hhalf 650) as (r & H1 & H2);
    [reflexivity | discriminate | discriminate | reflexivity |].
  exists rate, r. split; [exact Hrate |]. split; [exact H1 | exact H2].
Defined.

(** X3.  Whatever the recognized decay scheme, for [warmup_steps] and
    [num_train_steps] that are int32 values and a global step that is one,
    the decay stage leaves the rate alone before [start_decay_step]:
    between the end of warmup and the start of the decay the rate is
    exactly the base rate. *)
Theorem rate_plateau_between_warmup_and_decay (hp : hparams.t)
    (start decay_steps : Z) (f : R) :
  hparams.warmup_scheme hp = "t2t" ->
  - 2 ^ 31 <= hparams.warmup_steps hp < 2 ^ 31 ->
  - 2 ^ 31 <= hparams.num_train_steps hp < 2 ^ 31 ->
  decay_schedule hp = Ok (start, decay_steps, f) ->
  exists (warm rate : ScalarTensor),
    _get_learning_rate_warmup (tf_constant (hparams.learning_rate hp)) hp
    = Ok warm /\
    build_learning_rate hp = Ok rate /\
    (forall g : Z,
        - 2 ^ 31 <= g < 2 ^ 31 -> g < start -> rate g = warm g) /\
    (forall g : Z,
        - 2 ^ 31 <= g < 2 ^ 31 ->
        hparams.warmup_steps hp <= g -> g < start ->
        rate g = Some (hparams.learning_rate hp)).
Proof.
  intros Hw _ _ Hs.
  destruct (_get_learning_rate_warmup (tf_constant (hparams.learning_rate hp)) hp)
    as [warm | e] eqn:Hwarm;
    [| rewrite (warmup_t2t_unfold _ _ Hw) in Hwarm; discriminate].
  exists warm. eexists.
  split; [reflexivity |].
  split; [apply (build_learning_rate_unfold hp warm _ _ _ Hwarm Hs) |].
  assert (Hbefore : forall g : Z,
             g < start ->
             tf_cond (g <? start) (warm g)
               (exponential_decay (warm g) (int32_sub g start) decay_steps f)
             = warm g).
  { intros g Hg. unfold tf_cond.
    destruct (Z.ltb_spec g start); [reflexivity | lia]. }
  split.
  - intros g _. exact (Hbefore g).
  - intros g _ Hge Hlt. cbv beta. rewrite (Hbefore g Hlt).
    apply (warmup_rate_after hp _ warm g Hwarm Hge).
Qed.

Lemma rate_plateau_between_warmup_and_decay_witness :
  exists rate : ScalarTensor,
    build_learning_rate regular_hparams = Ok rate /\
    rate 100 = Some 1%R.
Proof.
  assert (Hws : - 2 ^ 31 <= hparams.warmup_steps regular_hparams < 2 ^ 31)
    by (split; [discriminate | reflexivity]).
  assert (Hns : - 2 ^ 31 <= hparams.num_train_steps regular_hparams < 2 ^ 31)
    by (split; [discriminate | reflexivity]).
  destruct (rate_plateau_between_warmup_and_decay regular_hparams
              500 100 0.5%R eq_refl Hws Hns eq_refl)
    as (warm & rate & _ & Hrate & _ & Hplateau).
  exists rate. split; [exact Hrate |].
  apply Hplateau;
    [split; [discriminate | reflexivity] | discriminate | reflexivity].
Defined.

Lemma periods_in_remainder (remain t : Z) :
  0 < t -> t * t <= remain -> remain / (remain / t) = t.
Proof.
  intros Ht Hr.
  pose proof (Z.div_mod remain t ltac:(lia)) as Hdm.
  pose proof (Z.mod_pos_bound remain t Ht) as Hm.
  assert (Hq : t <= remain / t) by (apply Z.div_le_lower_bound; lia).
  symmetry. apply (Z.div_unique_pos remain (remain / t) t (remain mod t)); lia.
Qed.

(** X4.  With enough training steps a preset halves the rate exactly as
    many times as its name says by the last step: at
    [global_step = num_train_steps] the rate is the base rate times
    [0.5 ^ 5] under luong5, [0.5 ^ 10] under luong10 and [0.5 ^ 4] under
    luong234. *)
Theorem decay_total_halvings (hp : hparams.t) :
  In (hparams.decay_scheme hp) ["luong5"; "luong10"; "luong234"] ->
  hparams.warmup_scheme hp = "t2t" ->
  0 <= hparams.num_train_steps hp ->
  hparams.warmup_steps hp <= hparams.num_train_steps hp ->
  hparams.num_train_steps hp < 2 ^ 31 ->
  let n := hparams.num_train_steps hp in
  let base := hparams.learning_rate hp in
  exists rate : ScalarTensor,
    build_learning_rate hp = Ok rate /\
    (hparams.decay_scheme hp = "luong5" -> 50 <= n ->
     rate n = Some (base * 0.5 ^ 5)%R) /\
    (hparams.decay_scheme hp = "luong10" -> 200 <= n ->
     rate n = Some (base * 0.5 ^ 10)%R) /\
    (hparams.decay_scheme hp = "luong234" -> 48 <= n ->
     rate n = Some (base * 0.5 ^ 4)%R).
Proof.
  intros Hin Hw Hn0 Hws Hmax n base.
  destruct (known_preset_schedule hp Hin Hn0) as (start0 & q0 & Hs & _).
  destruct (build_learning_rate_ok hp _ Hw Hs) as (rate & Hr).
  assert (Hend : forall start t : Z,
             decay_schedule hp = Ok (start, (n - start) / t, 0.5%R) ->
             0 < t -> 0 <= start -> t * t <= n - start ->
             rate n = Some (base * 0.5 ^ Z.to_nat t)%R).
  { intros start t Hst Ht H0 Hsq.
    assert (Hq : 0 < (n - start) / t)
      by (apply Z.div_str_pos; nia).
    rewrite (decayed_rate hp rate start _ 0.5%R n Hr Hst)
      by (try lra; try assumption; unfold n in *; lia).
    rewrite periods_in_remainder by assumption. reflexivity. }
  clear Hs. exists rate. split; [exact Hr |].
  split; [| split]; intros E Hn.
  - apply (Hend (n / 2) 5); try lia.
    + exact (decay_schedule_luong5_floor hp E Hn0).
    + apply Z.div_pos; lia.
    + pose proof (Z.div_mod n 2 ltac:(lia)).
      pose proof (Z.mod_pos_bound n 2 ltac:(lia)). lia.
  - apply (Hend (n / 2) 10); try lia.
    + exact (decay_schedule_luong10_floor hp E Hn0).
    + apply Z.div_pos; lia.
    + pose proof (Z.div_mod n 2 ltac:(lia)).
      pose proof (Z.mod_pos_bound n 2 ltac:(lia)). lia.
  - apply (Hend (n * 2 / 3) 4); try lia.
    + exact (decay_schedule_luong234_floor hp E Hn0).
    + apply Z.div_pos; lia.
    + pose proof (Z.div_mod (n * 2) 3 ltac:(lia)).
      pose proof (Z.mod_pos_bound (n * 2) 3 ltac:(lia)). lia.
Qed.

Lemma decay_total_halvings_witness :
  exists rate : ScalarTensor,
    build_learning_rate regular_hparams = Ok rate /\
    rate 1000 = Some (1 * 0.5 ^ 5)%R.
Proof.
  assert (Hin : In (hparams.decay_scheme regular_hparams)
                  ["luong5"; "luong10"; "luong234"]) by (left; reflexivity).
  destruct (decay_total_halvings regular_hparams Hin eq_refl)
    as (rate & Hrate & H5 & _); [discriminate | discriminate | reflexivity |].
  exists rate. split; [exact Hrate |].
  apply H5; [reflexivity | discriminate].
Defined.

(** X5.  A preset needs enough training steps to have a period at all:
    for a number of training steps that is a non-negative int32 value,
    [decay_steps] is never negative, and it is zero exactly when
    [num_train_steps] is below 9 under luong5, below 19 under luong10 and
    below 10 under luong234.  Such a schedule is not refused: the learning
    rate is built all the same. *)
Theorem decay_period_needs_enough_steps (hp : hparams.t) :
  In (hparams.decay_scheme hp) ["luong5"; "luong10"; "luong234"] ->
  hparams.warmup_scheme hp = "t2t" ->
  0 <= hparams.num_train_steps hp < 2 ^ 31 ->
  let n := hparams.num_train_steps hp in
  exists (start decay_steps : Z) (rate : ScalarTensor),
    decay_schedule hp = Ok (start, decay_steps, 0.5%R) /\
    build_learning_rate hp = Ok rate /\
    0 <= decay_steps /\
    (hparams.decay_scheme hp = "luong5" -> (decay_steps = 0 <-> n < 9)) /\
    (hparams.decay_scheme hp = "luong10" -> (decay_steps = 0 <-> n < 19)) /\
    (hparams.decay_scheme hp = "luong234" -> (decay_steps = 0 <-> n < 10)).
Proof.
  intros Hin Hw [Hn _] n.
  destruct (known_preset_schedule hp Hin Hn) as (start & q & Hs & Hb).
  destruct (build_learning_rate_ok hp _ Hw Hs) as (rate & Hrate).
  exists start, q, rate. split; [exact Hs |]. split; [exact Hrate |].
  assert (Hcases :
            (hparams.decay_scheme hp = "luong5" ->
             q = (n - n / 2) / 5) /\
            (hparams.decay_scheme hp = "luong10" ->
             q = (n - n / 2) / 10) /\
            (hparams.decay_scheme hp = "luong234" ->
             q = (n - n * 2 / 3) / 4)).
  { split; [| split]; intros E.
    - pose proof (decay_schedule_luong5_floor hp E Hn) as Hf. cbv zeta in Hf.
      rewrite Hs in Hf. injection Hf as _ ->. reflexivity.
    - pose proof (decay_schedule_luong10_floor hp E Hn) as Hf. cbv zeta in Hf.
      rewrite Hs in Hf. injection Hf as _ ->. reflexivity.
    - pose proof (decay_schedule_luong234_floor hp E Hn) as Hf. cbv zeta in Hf.
      rewrite Hs in Hf. injection Hf as _ ->. reflexivity. }
  destruct Hcases as (H5 & H10 & H234).
  split.
  { destruct Hin as [E | [E | [E | []]]]; symmetry in E.
    - rewrite (H5 E). apply Z.div_pos; [| lia].
      pose proof (half_bounds n Hn). lia.
    - rewrite (H10 E). apply Z.div_pos; [| lia].
      pose proof (half_bounds n Hn). lia.
    - rewrite (H234 E). apply Z.div_pos; [| lia].
      pose proof (two_thirds_bounds n Hn). lia. }
  split; [| split].
  - intros E. rewrite (H5 E). unfold n in *.
    Z.to_euclidean_division_equations. lia.
  - intros E. rewrite (H10 E). unfold n in *.
    Z.to_euclidean_division_equations. lia.
  - intros E. rewrite (H234 E). unfold n in *.
    Z.to_euclidean_division_equations. lia.
Qed.

Lemma decay_period_needs_enough_steps_witness :
  decay_schedule
    (sample_hparams 2 "uni" "t2t" "luong5" 0 8 None 0 0 false)
  = Ok (4, 0, 0.5%R) /\
  exists start decay_steps : Z,
    decay_schedule
      (sample_hparams 2 "uni" "t2t" "luong5" 0 9 None 0 0 false)
    = Ok (start, decay_steps, 0.5%R) /\
    0 < decay_steps.
Proof.
  assert (Hin : forall n,
             In (hparams.decay_scheme
                   (sample_hparams 2 "uni" "t2t" "luong5" 0 n None 0 0 false))
               ["luong5"; "luong10"; "luong234"])
    by (intros n; left; reflexivity).
  split; [reflexivity |].
  destruct (decay_period_needs_enough_steps _ (Hin 9) eq_refl)
    as (start & q & rate & Hs & _ & Hq & H5 & _);
    [split; [discriminate | reflexivity] |].
  exists start, q. split; [exact Hs |].
  specialize (H5 eq_refl). cbn in H5. lia.
Defined.

(** X6.  Warmup and decay compose when they overlap: at a step that is both
    before [warmup_steps] and at or after [start_decay_step], the rate is
    the base rate scaled by the warmup factor and by the staircase decay
    together. *)
Theorem warmup_and_decay_overlap (hp : hparams.t)
    (start decay_steps : Z) (f : R) (g : Z) :
  hparams.warmup_scheme hp = "t2t" ->
  decay_schedule hp = Ok (start, decay_steps, f) ->
  (0 < f)%R -> 0 <= start -> 0 < decay_steps ->
  start <= g -> g < hparams.warmup_steps hp ->
  hparams.warmup_steps hp < 2 ^ 31 ->
  let base := hparams.learning_rate hp in
  let warmup_steps := hparams.warmup_steps hp in
  exists rate : ScalarTensor,
    build_learning_rate hp = Ok rate /\
    rate g =
    Some (base
          * tf_pow (exp (ln 0.01 / IZR warmup_steps)) (IZR (warmup_steps - g))
          * f ^ Z.to_nat ((g - start) / decay_steps))%R.
Proof.
  intros Hw Hs Hf H0 Hq Hg Hlt Hmax base warmup_steps.
  destruct (_get_learning_rate_warmup (tf_constant base) hp)
    as [warm | e] eqn:Hwarm;
    [| rewrite (warmup_t2t_unfold _ _ Hw) in Hwarm; discriminate].
  eexists.
  split; [apply (build_learning_rate_unfold hp warm _ _ _ Hwarm Hs) |].
  cbv beta. unfold tf_cond.
  destruct (Z.ltb_spec g start); [lia |].
  rewrite (warmup_rate_before hp base warm g Hwarm Hw Hmax) by lia.
  unfold int32_sub. rewrite wrap32_id by lia.
  apply exponential_decay_staircase; [exact Hf | lia | exact Hq].
Qed.

Lemma warmup_and_decay_overlap_witness :
  exists rate : ScalarTensor,
    build_learning_rate
      (sample_hparams 2 "uni" "t2t" "luong5" 800 1000 None 0 0 false)
    = Ok rate /\
    rate 700 =
    Some (1 * tf_pow (exp (ln 0.01 / 800)) (IZR (800 - 700))
          * 0.5 ^ Z.to_nat ((700 - 500) / 100))%R.
Proof.
  apply (warmup_and_decay_overlap
           (sample_hparams 2 "uni" "t2t" "luong5" 800 1000 None 0 0 false)
           500 100 0.5%R 700);
    try reflexivity; try discriminate.
  lra.
Defined.

(** X7.  The schedule names are checked in order: an unrecognized warmup
    scheme is reported by name whatever the decay scheme is, and an
    unrecognized decay scheme is reported by name only when the warmup
    scheme is t2t. *)
Theorem schedule_errors_name_the_scheme (hp : hparams.t) :
  (hparams.warmup_scheme hp <> "t2t" ->
   build_learning_rate hp =
   Raise (ValueError
            (String.append "Unknown warmup scheme "
               (hparams.warmup_scheme hp)))) /\
  (hparams.warmup_scheme hp = "t2t" ->
   known_decay_scheme hp = false ->
   build_learning_rate hp =
   Raise (ValueError
            (String.append "Unknown decay scheme "
               (hparams.decay_scheme hp)))).
Proof.
  split.
  - intros Hw. unfold build_learning_rate, _get_learning_rate_warmup.
    destruct (String.eqb_spec (hparams.warmup_scheme hp) "t2t") as [E | _];
      [contradiction | reflexivity].
  - intros Hw Hd.
    unfold build_learning_rate.
    rewrite (warmup_t2t_unfold _ _ Hw). cbn [bind].
    unfold _get_learning_rate_decay, decay_schedule.
    unfold known_decay_scheme in Hd.
    apply orb_false_iff in Hd. destruct Hd as [-> ->]. reflexivity.
Qed.

Lemma schedule_errors_name_the_scheme_witness :
  build_learning_rate misnamed_schedule_hparams =
  Raise (ValueError "Unknown warmup scheme linear") /\
  build_learning_rate
    (sample_hparams 2 "uni" "t2t" "cosine" 4 1000 None 0 0 false) =
  Raise (ValueError "Unknown decay scheme cosine").
Proof.
  split.
  - apply (proj1 (schedule_errors_name_the_scheme misnamed_schedule_hparams)).
    discriminate.
  - apply (proj2 (schedule_errors_name_the_scheme
                    (sample_hparams 2 "uni" "t2t" "cosine" 4 1000 None 0 0
                       false)));
      reflexivity.
Defined.

(* ================================================================== *)
(** * Further properties of the loss *)

Section LossExtras.
Context {F : Framework}.

(** X8.  On an empty batch, no sequence and any padded width, the
    cross-entropies and their product with the mask are computed, empty
    tensors of matching shapes; their sum is 0; and the loss is that sum
    divided by a batch size of zero, which is not a finite number. *)
Theorem compute_loss_empty_batch (self : Self.t) (logits : Tensor3)
    (T : nat) :
  loss_shapes self logits 0 T ->
  let iterator := Self.iterator self in
  let target_output :=
    if Self.time_major self
    then tf_transpose (BatchedInput.target_output iterator)
    else BatchedInput.target_output iterator in
  let mask :=
    sequence_mask (BatchedInput.target_sequence_length iterator)
      (get_max_time self target_output) in
  let target_weights :=
    if Self.time_major self then tf_transpose mask else mask in
  exists crossent weighted : Matrix R,
    sparse_softmax_cross_entropy_with_logits target_output logits
    = Some crossent /\
    tf_multiply crossent target_weights = Some weighted /\
    reduce_sum weighted = 0%R /\
    _compute_loss self logits =
    float_div (reduce_sum weighted) (to_float (Self.batch_size self)) /\
    to_float (Self.batch_size self) = 0%R /\
    _compute_loss self logits = None.
Proof.
  intros (Hd0 & Hd1 & Hlen & Hbs & Hlog).
  cbv zeta. unfold _compute_loss, get_max_time.
  destruct (Self.time_major self).
  - destruct Hlog as [Hl0 Hl1].
    unfold sparse_softmax_cross_entropy_with_logits.
    cbn [tf_transpose dim0 dim1 at_].
    rewrite Hd0, Hd1, Hl0, Hl1, !Nat.eqb_refl. cbn [andb obind].
    match goal with
    | |- context [tf_multiply ?a ?w] =>
        destruct (multiply_same_shape_sum a w) as (prod & Hprod & Hsum)
    end.
    { cbn [dim0 dim1 tf_transpose sequence_mask]. reflexivity. }
    { cbn [dim0 dim1 tf_transpose sequence_mask]. symmetry. exact Hlen. }
    eexists. exists prod. split; [reflexivity |].
    split; [exact Hprod |].
    assert (H0 : reduce_sum prod = 0%R).
    { rewrite Hsum. cbn [dim0 dim1 at_ big_sum]. apply big_sum_zero. }
    split; [exact H0 |].
    rewrite Hprod. cbn [obind]. split; [reflexivity |].
    rewrite Hbs. split; [reflexivity |]. apply float_div_zero.
  - destruct Hlog as [Hl0 Hl1].
    unfold sparse_softmax_cross_entropy_with_logits.
    rewrite Hd0, Hd1, Hl0, Hl1, !Nat.eqb_refl. cbn [andb obind].
    match goal with
    | |- context [tf_multiply ?a ?w] =>
        destruct (multiply_same_shape_sum a w) as (prod & Hprod & Hsum)
    end.
    { cbn [dim0 dim1 sequence_mask]. symmetry. exact Hlen. }
    { cbn [dim0 dim1 sequence_mask]. reflexivity. }
    eexists. exists prod. split; [reflexivity |].
    split; [exact Hprod |].
    assert (H0 : reduce_sum prod = 0%R).
    { rewrite Hsum. cbn [dim0 dim1 at_ big_sum]. reflexivity. }
    split; [exact H0 |].
    rewrite Hprod. cbn [obind]. split; [reflexivity |].
    rewrite Hbs. split; [reflexivity |]. apply float_div_zero.
Qed.

(** X9.  The layout does not change the loss: a time-major model on the
    transposed logits computes the loss of the batch-major model. *)
Theorem compute_loss_layout_independent (self_bm self_tm : Self.t)
    (logits : Tensor3) (b T : nat) :
  Self.time_major self_bm = false ->
  Self.time_major self_tm = true ->
  Self.iterator self_tm = Self.iterator self_bm ->
  Self.batch_size self_tm = Self.batch_size self_bm ->
  loss_shapes self_bm logits b T -> (0 < b)%nat ->
  _compute_loss self_tm (tf_transpose logits) = _compute_loss self_bm logits.
Proof.
  intros Hbm Htm Hit Hbs Hshape Hb.
  assert (Hshape' : loss_shapes self_tm (tf_transpose logits) b T).
  { unfold loss_shapes in *. rewrite Hit, Hbs, Htm. rewrite Hbm in Hshape.
    destruct Hshape as (H0 & H1 & H2 & H3 & H4 & H5).
    repeat split; assumption. }
  rewrite (compute_loss_formula self_tm _ b T Hshape' Hb).
  rewrite (compute_loss_formula self_bm _ b T Hshape Hb).
  cbv zeta. rewrite Hit, Htm, Hbm. reflexivity.
Qed.

(** X10.  Lengths act as if clamped to the padded width: when every target
    length is zero or negative the loss is 0, and when every target length
    reaches the padded width nothing is masked, the loss being the plain
    sum of all cross-entropies over the batch size. *)
Theorem compute_loss_extreme_lengths (self : Self.t) (logits : Tensor3)
    (b T : nat) :
  loss_shapes self logits b T -> (0 < b)%nat ->
  let iterator := Self.iterator self in
  let target_output := BatchedInput.target_output iterator in
  let lengths := BatchedInput.target_sequence_length iterator in
  ((forall i : nat, (i < b)%nat -> nth i lengths 0 <= 0) ->
   _compute_loss self logits = Some 0%R) /\
  ((forall i : nat, (i < b)%nat -> Z.of_nat T <= nth i lengths 0) ->
   _compute_loss self logits =
   Some (big_sum b (fun i => big_sum T (fun j =>
           sparse_softmax_cross_entropy (at_ target_output i j)
             (at_batch_time (Self.time_major self) logits i j)))
         / IZR (Z.of_nat b))%R).
Proof.
  intros Hshape Hb iterator target_output lengths.
  rewrite (compute_loss_formula self logits b T Hshape Hb). cbv zeta.
  fold iterator. fold target_output. fold lengths.
  split; intros Hlen.
  - f_equal.
    rewrite (big_sum_ext b _ (fun _ => 0%R)).
    + rewrite big_sum_zero. unfold Rdiv. apply Rmult_0_l.
    + intros i Hi.
      etransitivity;
        [apply (big_sum_masked T (nth i lengths 0)
                  (fun j =>
                     sparse_softmax_cross_entropy (at_ target_output i j)
                       (at_batch_time (Self.time_major self) logits i j))) |].
      specialize (Hlen i Hi).
      replace (Nat.min T (Z.to_nat (nth i lengths 0))) with 0%nat by lia.
      reflexivity.
  - f_equal. f_equal. apply big_sum_ext. intros i Hi.
    etransitivity;
      [apply (big_sum_masked T (nth i lengths 0)
                (fun j =>
                   sparse_softmax_cross_entropy (at_ target_output i j)
                     (at_batch_time (Self.time_major self) logits i j))) |].
    specialize (Hlen i Hi).
    replace (Nat.min T (Z.to_nat (nth i lengths 0))) with T by lia.
    reflexivity.
Qed.

End LossExtras.

Lemma compute_loss_empty_batch_witness :
  loss_shapes (sample_self EVAL 2 empty_batch) (mkMatrix 0 3 (fun _ _ => [])) 0 3 /\
  @_compute_loss plain_framework
    (sample_self EVAL 2 empty_batch) (mkMatrix 0 3 (fun _ _ => []))
  = None.
Proof.
  assert (Hshape : loss_shapes (sample_self EVAL 2 empty_batch)
                     (mkMatrix 0 3 (fun _ _ => [])) 0 3)
    by (repeat split; reflexivity).
  split; [exact Hshape |].
  destruct (@compute_loss_empty_batch plain_framework
              (sample_self EVAL 2 empty_batch)
              (mkMatrix 0 3 (fun _ _ => [])) 3 Hshape)
    as (crossent & weighted & _ & _ & _ & _ & _ & Hnone).
  exact Hnone.
Defined.

Lemma compute_loss_layout_independent_witness :
  @_compute_loss plain_framework
    (@Self.mk plain_framework (sample_batch 3 0) TRAIN 10 10 1 true None
       2 2 0 0 true false 2 (mkDense 10 false "output_projection"))
    (tf_transpose (sample_logits 3 [0%R; 0%R]))
  = @_compute_loss plain_framework
      (sample_self TRAIN 2 (sample_batch 3 0)) (sample_logits 3 [0%R; 0%R]).
Proof.
  apply (@compute_loss_layout_independent plain_framework _ _ _ 2 3);
    try reflexivity.
  - repeat split; reflexivity.
  - lia.
Defined.

Lemma compute_loss_extreme_lengths_witness :
  @_compute_loss plain_framework
    (sample_self EVAL 2
       (BatchedInput.mk (sample_tokens 3 0) (sample_tokens 3 0)
          (sample_tokens 3 0) [1; 1] [0; -1]))
    (sample_logits 3 [])
  = Some 0%R.
Proof.
  refine (proj1 (@compute_loss_extreme_lengths plain_framework
                   (sample_self EVAL 2
                      (BatchedInput.mk (sample_tokens 3 0) (sample_tokens 3 0)
                         (sample_tokens 3 0) [1; 1] [0; -1]))
                   (sample_logits 3 []) 2 3 _ _) _).
  - repeat split; reflexivity.
  - lia.
  - intros i Hi. destruct i as [| [| i]]; cbn; lia.
Defined.

(* ================================================================== *)
(** * Further properties of the decoder *)

Section DecoderExtras.
Context {F : Framework} {D : Decoding}.

(** X11.  In TRAIN and EVAL mode the decoder is teacher-forced: it runs a
    [BasicDecoder] without output layer on the embedded target input, from
    the encoder state as it is, with no bound on the iterations, and the
    output projection is applied to all steps afterwards; the beam width
    and the sampling temperature have no influence. *)
Theorem training_decoder_teacher_forced (self : Self.t) (hp : hparams.t)
    (encoder_outputs : Tensor3) (encoder_state : Nest) (cell : Cell) :
  Self.mode self <> INFER ->
  hparams.attention hp = false ->
  create_rnn_cell (decoder_cell_args self hp) = Ok cell ->
  let iterator := Self.iterator self in
  let target_input :=
    if Self.time_major self
    then tf_transpose (BatchedInput.target_input iterator)
    else BatchedInput.target_input iterator in
  let helper :=
    TrainingHelper
      (embedding_lookup (Self.embedding_decoder self) target_input)
      (BatchedInput.target_sequence_length iterator)
      (Self.time_major self) in
  let run :=
    basic_decode cell helper encoder_state None None (Self.time_major self) in
  _build_decoder (M := Model) self encoder_outputs encoder_state hp =
  Ok (logits_tensor (dense_apply (Self.output_layer self) (fst (fst run))),
      ids2 (snd (fst run)), snd run) /\
  forall (beam_width : Z) (temperature : R),
    _build_decoder (M := Model) self encoder_outputs encoder_state
      (set_beam_width (set_sampling_temperature hp temperature) beam_width)
    = _build_decoder (M := Model) self encoder_outputs encoder_state hp.
Proof.
  intros Hmode Hatt Hcell iterator target_input helper run.
  assert (Hcellmode :
            Mode_eqb (Self.mode self) INFER = false)
    by (destruct (Self.mode self); [reflexivity | reflexivity | congruence]).
  split.
  - unfold _build_decoder. cbn [_build_decoder_cell Model].
    rewrite (decoder_cell_unfold self hp _ _ _ cell Hatt Hcell).
    rewrite Hcellmode. cbn [andb bind negb]. cbv beta iota.
    unfold dynamic_decode.
    fold iterator. fold target_input. fold helper. fold run.
    destruct run as [[rnn_output sample_id] final]. reflexivity.
  - intros beam_width temperature.
    unfold _build_decoder. cbn [_build_decoder_cell Model].
    unfold Model_build_decoder_cell. rewrite Hcellmode.
    reflexivity.
Qed.

Lemma decoder_cell_nonpositive_beam (self : Self.t) (hp : hparams.t)
    (encoder_outputs : Tensor3) (encoder_state : Nest) (lengths : list Z) :
  hparams.beam_width hp <= 0 ->
  Model_build_decoder_cell self hp encoder_outputs encoder_state lengths =
  Model_build_decoder_cell self (set_beam_width hp 0) encoder_outputs
    encoder_state lengths.
Proof.
  intros Hk. unfold Model_build_decoder_cell.
  cbn [set_beam_width hparams.attention hparams.unit_type hparams.num_units
       hparams.forget_bias hparams.dropout hparams.beam_width].
  destruct (hparams.attention hp); [reflexivity |].
  destruct (create_rnn_cell _) as [cell | e]; [| reflexivity].
  cbn [bind].
  destruct (Z.ltb_spec 0 (hparams.beam_width hp)) as [Hp | _]; [lia |].
  change (0 <? 0) with false. rewrite !andb_false_r. reflexivity.
Qed.

(** X12.  A zero or negative [beam_width] is no beam search: the decoder
    and its result are those of [beam_width = 0] (greedy or sampling, the
    encoder state not tiled), in every mode. *)
Theorem nonpositive_beam_width_is_no_beam (self : Self.t) (hp : hparams.t)
    (encoder_outputs : Tensor3) (encoder_state : Nest) :
  hparams.beam_width hp <= 0 ->
  _build_decoder (M := Model) self encoder_outputs encoder_state hp =
  _build_decoder (M := Model) self encoder_outputs encoder_state
    (set_beam_width hp 0) /\
  forall (cell : Cell) (state : Nest) (sos_id eos_id : Z),
  exists helper : Helper,
    infer_my_decoder self hp cell state sos_id eos_id =
    BasicDecoder cell helper state (Some (Self.output_layer self)).
Proof.
  intros Hk. split.
  - unfold _build_decoder. cbn [_build_decoder_cell Model].
    rewrite (decoder_cell_nonpositive_beam self hp _ _ _ Hk).
    destruct (Model_build_decoder_cell self (set_beam_width hp 0) _ _ _)
      as [[cell state] | e]; [| reflexivity].
    cbn [bind]. cbv beta iota.
    destruct (negb (Mode_eqb (Self.mode self) INFER)); [reflexivity |].
    rewrite (infer_my_decoder_basic self hp) by exact Hk.
    rewrite (infer_my_decoder_basic self (set_beam_width hp 0))
      by (cbn; lia).
    cbn [set_beam_width hparams.beam_width].
    destruct (Z.ltb_spec 0 (hparams.beam_width hp)) as [Hp | _]; [lia |].
    reflexivity.
  - intros cell state sos_id eos_id. eexists.
    apply infer_my_decoder_basic. exact Hk.
Qed.

End DecoderExtras.

Lemma training_decoder_teacher_forced_witness :
  @_build_decoder plain_framework plain_decoding Model
    (sample_self TRAIN 2 (sample_batch 3 0)) (sample_logits 3 [])
    sample_state (set_beam_width (set_sampling_temperature beam_hparams 1%R) 7)
  = @_build_decoder plain_framework plain_decoding Model
      (sample_self TRAIN 2 (sample_batch 3 0)) (sample_logits 3 [])
      sample_state beam_hparams.
Proof.
  refine (proj2 (@training_decoder_teacher_forced plain_framework
                   plain_decoding (sample_self TRAIN 2 (sample_batch 3 0))
                   beam_hparams (sample_logits 3 []) sample_state
                   (decoder_cell_args
                      (sample_self TRAIN 2 (sample_batch 3 0)) beam_hparams)
                   _ eq_refl eq_refl) 7 1%R).
  discriminate.
Defined.

Lemma nonpositive_beam_width_is_no_beam_witness :
  @_build_decoder plain_framework plain_decoding Model
    (sample_self INFER 2 (sample_batch 3 0)) (sample_logits 3 [])
    sample_state (set_beam_width cold_hparams (-3))
  = @_build_decoder plain_framework plain_decoding Model
      (sample_self INFER 2 (sample_batch 3 0)) (sample_logits 3 [])
      sample_state (set_beam_width (set_beam_width cold_hparams (-3)) 0).
Proof.
  apply (proj1 (@nonpositive_beam_width_is_no_beam plain_framework
                  plain_decoding (sample_self INFER 2 (sample_batch 3 0))
                  (set_beam_width cold_hparams (-3)) (sample_logits 3 [])
                  sample_state ltac:(cbn; lia))).
Defined.

(* ================================================================== *)
(** * Further properties of the encoder *)

Section EncoderExtras.
Context {F : Framework} {D : Decoding}.

(** X13.  With an [encoder_type] that is neither uni nor bi, the graph
    construction raises [ValueError] with the message
    "Unknown encoder_type " followed by the name, for every implementation
    of the collaborators and whatever else is configured, attention
    included.  The transposition and the embedding lookup that precede
    the check are total here. *)
Theorem unknown_encoder_type_value_error (self : Self.t)
    (hp : hparams.t) :
  known_encoder_type hp = false ->
  build_graph (M := Model) self hp =
  Raise (ValueError
           (String.append "Unknown encoder_type " (hparams.encoder_type hp))).
Proof.
  intros Hk. unfold known_encoder_type in Hk.
  apply orb_false_iff in Hk. destruct Hk as [Huni Hbi].
  unfold build_graph. cbn [_build_encoder Model].
  unfold Model_build_encoder. rewrite Huni, Hbi. reflexivity.
Qed.

(** X14.  A bidirectional encoder with an odd number of layers loses one:
    with [2 k + 1] layers each direction gets [k]; with a single layer the
    two cells are asked for with zero layers and, if the factory returns
    them, the final state is the empty tuple whatever the run returns. *)
Theorem bidirectional_single_layer_has_no_state (self : Self.t)
    (hp : hparams.t) (fw_cell bw_cell : Cell) :
  hparams.encoder_type hp = "bi" ->
  let num_bi_residual_layers :=
    py_int_div (Self.num_encoder_residual_layers self) 2 in
  let iterator := Self.iterator self in
  let source :=
    if Self.time_major self then tf_transpose (BatchedInput.source iterator)
    else BatchedInput.source iterator in
  let run :=
    bidirectional_dynamic_rnn fw_cell bw_cell
      (embedding_lookup (Self.embedding_encoder self) source)
      (BatchedInput.source_sequence_length iterator)
      (Self.time_major self) in
  (forall k : Z,
      0 <= k -> Self.num_encoder_layers self = 2 * k + 1 ->
      py_int_div (Self.num_encoder_layers self) 2 = k) /\
  (Self.num_encoder_layers self = 1 ->
   create_rnn_cell (encoder_cell_args self hp 0 num_bi_residual_layers 0)
   = Ok fw_cell ->
   create_rnn_cell (encoder_cell_args self hp 0 num_bi_residual_layers 0)
   = Ok bw_cell ->
   _build_encoder (Seq2Seq := Model) self hp =
   Ok (tf_concat_last (fst run), Tuple [])).
Proof.
  intros Hty num_bi_residual_layers iterator source run. split.
  - intros k Hk Hn. rewrite Hn, py_int_div_floor by lia.
    symmetry. apply (Z.div_unique_pos (2 * k + 1) 2 k 1); lia.
  - intros H1 Hfw Hbw.
    cbn [_build_encoder Model]. unfold Model_build_encoder.
    rewrite Hty. cbn [String.eqb Ascii.eqb Bool.eqb andb].
    rewrite H1. change (py_int_div 1 2) with 0.
    fold num_bi_residual_layers iterator source.
    rewrite (bidirectional_rnn_unfold self _ _ hp 0 num_bi_residual_layers
               fw_cell bw_cell Hfw Hbw).
    reflexivity.
Qed.

Lemma fold_left_raised {A B : Type} (f : result A -> B -> result A)
    (l : list B) (e : exn) :
  (forall b, f (Raise e) b = Raise e) ->
  fold_left f l (Raise e) = Raise e.
Proof.
  intros Hf. induction l as [| b l IH]; [reflexivity |].
  cbn [fold_left]. rewrite Hf. exact IH.
Qed.

Lemma alternate_states_short (lf lb : list Nest) (n : Z) :
  (Nat.min (List.length lf) (List.length lb) < Z.to_nat n)%nat ->
  alternate_states (Tuple lf, Tuple lb) n = Raise IndexError.
Proof.
  intros Hshort.
  set (m := Nat.min (List.length lf) (List.length lb)) in *.
  unfold alternate_states, py_range.
  replace (Z.to_nat n) with (m + S (Z.to_nat n - S m))%nat by lia.
  rewrite seq_app, fold_left_app.
  destruct (alternate_loop lf lb m ltac:(lia) ltac:(lia))
    as (items & -> & _ & _).
  cbn [seq fold_left bind fst snd getitem Nat.add].
  destruct (nth_error lf m) as [fw |] eqn:Efw.
  - cbn [bind].
    destruct (nth_error lb m) as [bw |] eqn:Ebw.
    + exfalso.
      assert (m < List.length lf)%nat by (apply nth_error_Some; congruence).
      assert (m < List.length lb)%nat by (apply nth_error_Some; congruence).
      lia.
    + cbn [bind]. rewrite fold_left_raised; reflexivity.
  - cbn [bind]. rewrite fold_left_raised; reflexivity.
Qed.

(** X15.  With more than one layer per direction the bidirectional encoder
    indexes both state tuples up to [num_bi_layers]: when one of them has
    fewer entries it raises [IndexError]. *)
Theorem bidirectional_short_state_index_error (self : Self.t)
    (hp : hparams.t) (fw_cell bw_cell : Cell) (lf lb : list Nest) :
  hparams.encoder_type hp = "bi" ->
  let num_bi_layers := py_int_div (Self.num_encoder_layers self) 2 in
  let num_bi_residual_layers :=
    py_int_div (Self.num_encoder_residual_layers self) 2 in
  let iterator := Self.iterator self in
  let source :=
    if Self.time_major self then tf_transpose (BatchedInput.source iterator)
    else BatchedInput.source iterator in
  let run :=
    bidirectional_dynamic_rnn fw_cell bw_cell
      (embedding_lookup (Self.embedding_encoder self) source)
      (BatchedInput.source_sequence_length iterator)
      (Self.time_major self) in
  create_rnn_cell
    (encoder_cell_args self hp num_bi_layers num_bi_residual_layers 0)
  = Ok fw_cell ->
  create_rnn_cell
    (encoder_cell_args self hp num_bi_layers num_bi_residual_layers
       (0 + num_bi_layers))
  = Ok bw_cell ->
  1 < num_bi_layers ->
  snd run = (Tuple lf, Tuple lb) ->
  (Nat.min (List.length lf) (List.length lb) < Z.to_nat num_bi_layers)%nat ->
  _build_encoder (Seq2Seq := Model) self hp = Raise IndexError.
Proof.
  intros Hty num_bi_layers num_bi_residual_layers iterator source run
    Hfw Hbw Hgt Hrun Hshort.
  cbn [_build_encoder Model]. unfold Model_build_encoder.
  rewrite Hty. cbn [String.eqb Ascii.eqb Bool.eqb andb].
  fold num_bi_layers num_bi_residual_layers iterator source.
  rewrite (bidirectional_rnn_unfold self _ _ hp num_bi_layers
             num_bi_residual_layers fw_cell bw_cell Hfw Hbw).
  cbn [bind]. fold run. rewrite Hrun. cbv beta iota.
  destruct (Z.eqb_spec num_bi_layers 1) as [E | _]; [lia |].
  rewrite (alternate_states_short lf lb num_bi_layers Hshort). reflexivity.
Qed.

End EncoderExtras.

Lemma unknown_encoder_type_value_error_witness :
  @build_graph plain_framework plain_decoding Model
    (sample_self TRAIN 2 (sample_batch 3 0))
    (sample_hparams 2 "tri" "linear" "cosine" 4 1000 None 0 0 true)
  = Raise (ValueError "Unknown encoder_type tri").
Proof.
  apply (@unknown_encoder_type_value_error plain_framework plain_decoding).
  reflexivity.
Defined.

Lemma bidirectional_single_layer_has_no_state_witness :
  exists outputs : Tensor3,
    @_build_encoder plain_framework Model
      (sample_self TRAIN 1 (sample_batch 3 0)) bidirectional_hparams
    = Ok (outputs, Tuple []).
Proof.
  eexists.
  apply (proj2 (@bidirectional_single_layer_has_no_state plain_framework
                  (sample_self TRAIN 1 (sample_batch 3 0))
                  bidirectional_hparams
                  (encoder_cell_args (sample_self TRAIN 1 (sample_batch 3 0))
                     bidirectional_hparams 0 0 0)
                  (encoder_cell_args (sample_self TRAIN 1 (sample_batch 3 0))
                     bidirectional_hparams 0 0 0)
                  eq_refl));
    reflexivity.
Defined.

Lemma bidirectional_short_state_index_error_witness :
  @_build_encoder short_state_framework Model
    (@Self.mk short_state_framework (sample_batch 3 0) TRAIN 10 10 1 false
       None 4 2 0 0 true false 2 (mkDense 10 false "output_projection"))
    bidirectional_hparams
  = Raise IndexError.
Proof.
  refine (@bidirectional_short_state_index_error short_state_framework
            (@Self.mk short_state_framework (sample_batch 3 0) TRAIN 10 10 1
               false None 4 2 0 0 true false 2
               (mkDense 10 false "output_projection"))
            bidirectional_hparams _ _ _ _
            eq_refl eq_refl eq_refl _ eq_refl _).
  - reflexivity.
  - cbn. lia.
Defined.

(* ================================================================== *)
(** * Further properties of construction and of the session calls *)

Section ConstructionExtras.
Context {F : Framework} {D : Decoding}.

(** X16.  What else can stop construction of a configuration that is
    not rejected, when the layer counts are nonzero, the RNN states are
    well formed and the collaborators accept the configuration (the cell
    factory returns a cell on the argument records that the constructor
    passes it): in INFER mode a missing reverse vocabulary table raises
    [AttributeError] once the graph is built; in TRAIN mode an optimizer
    other than sgd and adam leaves [opt] unbound and raises
    [UnboundLocalError]; in every other case the model is constructed. *)
Theorem construction_outcome (hp : hparams.t) (mode : Mode)
    (iterator : BatchedInput.t) (table : option (Z -> string))
    (extra_args : option (option SingleCellFn)) :
  hparams.num_encoder_layers hp <> 0 ->
  hparams.num_decoder_layers hp <> 0 ->
  collaborators_accept hp mode iterator extra_args ->
  states_well_formed hp ->
  rejected hp mode = false ->
  (mode = INFER -> table = None ->
   __init__ (M := Model) hp mode iterator table extra_args =
   Raise (AttributeError "lookup")) /\
  (mode = TRAIN -> known_optimizer hp = false ->
   __init__ (M := Model) hp mode iterator table extra_args =
   Raise (UnboundLocalError "opt")) /\
  ((mode = INFER -> table <> None) ->
   (mode = TRAIN -> known_optimizer hp = true) ->
   exists m : BaseModel.t,
     __init__ (M := Model) hp mode iterator table extra_args = Ok m).
Proof.
  intros Henc Hdec (Hinit & ee & ed & Hemb & Hcu & Hcb & Hcd) Hwf Hrej.
  unfold initial_self in Hcu, Hcb, Hcd.
  unfold rejected in Hrej.
  apply orb_false_iff in Hrej. destruct Hrej as [Hrej Hsched].
  apply orb_false_iff in Hrej. destruct Hrej as [Hke Hatt].
  apply negb_false_iff in Hke.
  unfold __init__, known_optimizer.
  destruct (Z.eqb_spec (hparams.num_encoder_layers hp) 0) as [E | _];
    [contradiction |].
  destruct (Z.eqb_spec (hparams.num_decoder_layers hp) 0) as [E | _];
    [contradiction |].
  cbn [negb py_assert bind].
  destruct Hinit as (i & ->). rewrite Hemb.
  cbn [bind].
  destruct (build_learning_rate_result hp) as [Hlk _].
  revert Hcu Hcb Hcd.
  destruct (hparams.num_residual_layers hp) as [nr |]; intros Hcu Hcb Hcd.
  all: match goal with
       | |- context [build_graph ?s ?h] =>
           destruct (build_graph_outcome s h Hcu Hcb Hcd Hwf eq_refl)
             as [Hok _]
       end.
  all: rewrite Hke, Hatt in Hok;
    destruct (Hok eq_refl) as (logits & loss & final & ids & -> & _);
    cbn [bind].
  all: split; [| split].
  all: try (intros -> ->; reflexivity).
  all: try (intros -> Hopt; cbn [Mode_eqb bind];
            cbn [Mode_eqb andb] in Hsched;
            apply orb_false_iff in Hsched; destruct Hsched as [Hw Hd];
            apply negb_false_iff in Hw; apply negb_false_iff in Hd;
            destruct (Hlk ltac:(rewrite Hw, Hd; reflexivity)) as (rate & ->);
            cbn [bind];
            apply orb_false_iff in Hopt; destruct Hopt as [-> ->];
            reflexivity).
  all: intros Htable Hopt; destruct mode; cbn [Mode_eqb bind].
  all: try (eexists; reflexivity).
  all: try (destruct table as [t |]; [| exfalso; apply (Htable eq_refl); reflexivity];
            cbn [getattr bind]; eexists; reflexivity).
  all: cbn [Mode_eqb andb] in Hsched;
    apply orb_false_iff in Hsched; destruct Hsched as [Hw Hd];
    apply negb_false_iff in Hw; apply negb_false_iff in Hd;
    destruct (Hlk ltac:(rewrite Hw, Hd; reflexivity)) as (rate & ->);
    cbn [bind];
    specialize (Hopt eq_refl); apply orb_true_iff in Hopt;
    destruct (String.eqb (hparams.optimizer hp) "sgd");
    [cbn [bind]; eexists; reflexivity |];
    destruct Hopt as [Hopt | ->]; [discriminate |];
    cbn [bind]; eexists; reflexivity.
Qed.

(** X17.  A layer count of zero fails the assertion before anything is
    built, whatever the collaborators. *)
Theorem zero_layers_assertion (hp : hparams.t) (mode : Mode)
    (iterator : BatchedInput.t) (table : option (Z -> string))
    (extra_args : option (option SingleCellFn)) (M : Seq2Seq) :
  hparams.num_encoder_layers hp = 0 \/ hparams.num_decoder_layers hp = 0 ->
  __init__ hp mode iterator table extra_args = Raise AssertionError.
Proof.
  intros Hz. unfold __init__.
  destruct (Z.eqb_spec (hparams.num_encoder_layers hp) 0) as [_ | Hne];
    [reflexivity |].
  destruct Hz as [E | E]; [contradiction |].
  rewrite E. reflexivity.
Qed.

End ConstructionExtras.

Lemma reduce_sum_int_plain_from (l : list Z) (acc : Z) :
  (forall x, In x l -> 0 <= x) ->
  0 <= acc -> acc + sum_Z l < 2 ^ 31 ->
  fold_left (fun a x => wrap32 (a + x)) l acc = acc + sum_Z l.
Proof.
  revert acc. induction l as [| x l IH]; intros acc Hpos Hacc Hsum.
  - cbn. lia.
  - cbn [fold_left sum_Z fold_right] in *. fold (sum_Z l) in *.
    assert (Hx : 0 <= x) by (apply Hpos; left; reflexivity).
    assert (Hl : 0 <= sum_Z l).
    { clear - Hpos. induction l as [| y l IHl]; [cbn; lia |].
      cbn [sum_Z fold_right]. fold (sum_Z l).
      assert (0 <= y) by (apply Hpos; right; left; reflexivity).
      assert (0 <= sum_Z l).
      { apply IHl. intros z [Hz | Hz]; apply Hpos;
          [left; exact Hz | right; right; exact Hz]. }
      lia. }
    rewrite wrap32_id by lia.
    rewrite IH; [lia | | lia | lia].
    intros y Hy. apply Hpos. right. exact Hy.
Qed.

Lemma reduce_sum_int_plain (l : list Z) :
  (forall x, In x l -> 0 <= x) -> sum_Z l < 2 ^ 31 ->
  reduce_sum_int l = sum_Z l.
Proof.
  intros Hpos Hsum. unfold reduce_sum_int.
  rewrite reduce_sum_int_plain_from; [lia | exact Hpos | lia | lia].
Qed.

Lemma sum_Z_nonneg (l : list Z) :
  (forall x, In x l -> 0 <= x) -> 0 <= sum_Z l.
Proof.
  induction l as [| x l IH]; intros Hpos; [cbn; lia |].
  cbn [sum_Z fold_right]. fold (sum_Z l).
  assert (0 <= x) by (apply Hpos; left; reflexivity).
  assert (0 <= sum_Z l) by (apply IH; intros y Hy; apply Hpos; right; exact Hy).
  lia.
Qed.

(** Inversion of a successful monadic step. *)
Ltac invert_bind H :=
  match type of H with
  | bind ?m _ = Ok _ =>
      let E := fresh "E" in
      destruct m eqn:E; cbn [bind] in H; [| discriminate H]
  end.

Section SessionExtras.
Context {F : Framework} {D : Decoding} {M : Seq2Seq}.

Lemma init_ok_fields (hp : hparams.t) (mode : Mode)
    (iterator : BatchedInput.t) (table : option (Z -> string))
    (extra_args : option (option SingleCellFn)) (m : BaseModel.t) :
  __init__ hp mode iterator table extra_args = Ok m ->
  BaseModel.mode m = mode /\
  BaseModel.time_major m = hparams.time_major hp /\
  BaseModel.batch_size m =
  tf_size (BatchedInput.source_sequence_length iterator) /\
  (mode <> INFER ->
   BaseModel.predict_count m =
   Some (reduce_sum_int (BatchedInput.target_sequence_length iterator))) /\
  (mode = TRAIN ->
   BaseModel.word_count m =
   Some (wrap32
           (reduce_sum_int (BatchedInput.source_sequence_length iterator)
            + reduce_sum_int (BatchedInput.target_sequence_length iterator)))
   /\
   (exists loss, BaseModel.train_loss m = Some loss) /\
   (exists opt, BaseModel.opt m = Some opt) /\
   exists rate : ScalarTensor,
     build_learning_rate hp = Ok rate /\
     BaseModel.learning_rate m = Some rate).
Proof.
  intros H. unfold __init__ in H.
  invert_bind H. invert_bind H.
  destruct (hparams.num_residual_layers hp) as [nr |].
  all: invert_bind H; invert_bind H;
    match goal with a : (Embedding * Embedding)%type |- _ => destruct a end;
    invert_bind H;
    match goal with
    | a : (Logits * option (option R) * Nest * Ids)%type |- _ =>
        destruct a as [[[lg loss] fin] ids]
    end;
    match goal with
    | E : build_graph ?s ?h = Ok _ |- _ =>
        pose proof (build_graph_loss s h _ _ _ _ E) as Hloss;
        cbn [Self.mode] in Hloss
    end;
    invert_bind H; invert_bind H;
    match goal with
    | a : (option ScalarTensor * option Optimizer)%type |- _ =>
        destruct a as [lr opt]
    end;
    injection H as <-;
    cbn [BaseModel.mode BaseModel.time_major BaseModel.batch_size
         BaseModel.predict_count BaseModel.word_count BaseModel.train_loss
         BaseModel.opt BaseModel.learning_rate];
    (split; [reflexivity |]); (split; [reflexivity |]);
    (split; [reflexivity |]);
    destruct mode; cbn [Mode_eqb negb] in *;
    (split; [intros; try reflexivity; congruence |]);
    try (intros; discriminate).
  all: intros _; split; [reflexivity |].
  all: split; [destruct Hloss as (l & ->); [discriminate | eexists; reflexivity] |].
  all: repeat match goal with
         | E : bind _ _ = Ok _ |- _ => invert_bind E
         | E : Ok _ = Ok _ |- _ => inversion E; subst; clear E
         end.
  all: split; [eexists; reflexivity |].
  all: eexists; split; reflexivity.
Qed.

(** X18.  What a training step reports: for a model constructed in TRAIN
    mode (lengths non-negative, their sums below 2^31) and run in a session
    whose global step is [global_step], below 2^31 - 1, [train] returns the
    number of target words, the global step after the update, that is
    [global_step + 1], the number of source and target words, the number
    of sequences of the batch, and the scheduled learning rate at
    [global_step], the step before the update. *)
Theorem train_reports (hp : hparams.t) (iterator : BatchedInput.t)
    (table : option (Z -> string))
    (extra_args : option (option SingleCellFn)) (m : BaseModel.t) :
  __init__ hp TRAIN iterator table extra_args = Ok m ->
  let src := BatchedInput.source_sequence_length iterator in
  let tgt := BatchedInput.target_sequence_length iterator in
  (forall x, In x src -> 0 <= x) ->
  (forall x, In x tgt -> 0 <= x) ->
  sum_Z src + sum_Z tgt < 2 ^ 31 ->
  exists (loss : option R) (rate : ScalarTensor),
    build_learning_rate hp = Ok rate /\
    forall global_step : Z,
      - 2 ^ 31 <= global_step < 2 ^ 31 - 1 ->
      train m global_step =
      Ok (loss, sum_Z tgt, global_step + 1, sum_Z src + sum_Z tgt,
          Z.of_nat (List.length src), rate global_step).
Proof.
  intros Hm src tgt Hsrc Htgt Hsum.
  destruct (init_ok_fields hp TRAIN iterator table extra_args m Hm)
    as (Hmode & _ & Hbs & Hpc & Htrain).
  destruct (Htrain eq_refl)
    as (Hwc & (loss & Hloss) & (opt & Hopt) & rate & Hrate & Hlr).
  specialize (Hpc ltac:(discriminate)).
  pose proof (sum_Z_nonneg src Hsrc) as Hs0.
  pose proof (sum_Z_nonneg tgt Htgt) as Ht0.
  fold src in Hwc, Hbs. fold tgt in Hwc, Hpc.
  rewrite (reduce_sum_int_plain src Hsrc) in Hwc by lia.
  rewrite (reduce_sum_int_plain tgt Htgt) in Hwc, Hpc by lia.
  rewrite wrap32_id in Hwc by lia.
  exists loss, rate. split; [exact Hrate |].
  intros g Hg. unfold train.
  rewrite Hmode, Hopt, Hloss, Hpc, Hwc, Hlr, Hbs.
  rewrite (wrap32_id (g + 1)) by lia.
  reflexivity.
Qed.

(** X19.  A session call on a model of another mode fails its assertion:
    [train] outside TRAIN, [eval] outside EVAL, [infer] and [decode]
    outside INFER raise [AssertionError]. *)
Theorem wrong_mode_call_asserts (hp : hparams.t) (mode : Mode)
    (iterator : BatchedInput.t) (table : option (Z -> string))
    (extra_args : option (option SingleCellFn)) (m : BaseModel.t) :
  __init__ hp mode iterator table extra_args = Ok m ->
  (mode <> TRAIN ->
   forall global_step : Z, train m global_step = Raise AssertionError) /\
  (mode <> EVAL -> eval m = Raise AssertionError) /\
  (mode <> INFER ->
   infer m = Raise AssertionError /\
   forall fetch : Words -> ndarray string,
     decode m fetch = Raise AssertionError).
Proof.
  intros Hm.
  destruct (init_ok_fields hp mode iterator table extra_args m Hm)
    as (Hmode & _).
  unfold decode, train, eval, infer. rewrite Hmode.
  destruct mode; repeat split; intros; try congruence; reflexivity.
Qed.

End SessionExtras.

(** X20.  [decode] returns the words in one layout whatever the model's
    layout: a [time x batch] array comes back as [batch x time], a
    batch-major array of rank 2 comes back as it is, and the beam-search
    arrays [time x batch x beam] and [batch x time x beam] both come back
    as [beam x batch x time]. *)
Theorem decode_canonical_layout (self : BaseModel.t)
    (fetch : Words -> ndarray string)
    (logits : Logits) (ids : Ids) (words : Words) :
  infer self = Ok (logits, ids, words) ->
  let fetched := fetch words in
  (BaseModel.time_major self = true ->
   (forall T B : nat,
       shape fetched = [T; B] ->
       exists out : ndarray string,
         decode self fetch = Ok out /\ shape out = [B; T] /\
         forall b t : nat, item out [b; t] = item fetched [t; b]) /\
   (forall T B K : nat,
       shape fetched = [T; B; K] ->
       exists out : ndarray string,
         decode self fetch = Ok out /\ shape out = [K; B; T] /\
         forall k b t : nat, item out [k; b; t] = item fetched [t; b; k])) /\
  (BaseModel.time_major self = false ->
   (ndim fetched <> 3%nat -> decode self fetch = Ok fetched) /\
   (forall B T K : nat,
       shape fetched = [B; T; K] ->
       exists out : ndarray string,
         decode self fetch = Ok out /\ shape out = [K; B; T] /\
         forall k b t : nat, item out [k; b; t] = item fetched [b; t; k])).
Proof.
  intros Hinfer fetched. unfold decode. rewrite Hinfer. cbn [bind].
  fold fetched.
  split; intros Htm; rewrite Htm.
  - split.
    + intros T B Hshape. eexists. split; [reflexivity |].
      unfold np_transpose_all, np_transpose, ndim. rewrite Hshape.
      cbn. split; [reflexivity | intros b t; reflexivity].
    + intros T B K Hshape. eexists. split; [reflexivity |].
      unfold np_transpose_all, np_transpose, ndim. rewrite Hshape.
      cbn. split; [reflexivity | intros k b t; reflexivity].
  - split.
    + intros Hnd. destruct (Nat.eqb_spec (ndim fetched) 3) as [E | _];
        [contradiction | reflexivity].
    + intros B T K Hshape.
      assert (Hnd : ndim fetched = 3%nat) by (unfold ndim; rewrite Hshape; reflexivity).
      rewrite Hnd. cbn [Nat.eqb]. eexists. split; [reflexivity |].
      unfold np_transpose. rewrite Hnd, Hshape.
      cbn. split; [reflexivity | intros k b t; reflexivity].
Qed.

Lemma construction_outcome_witness :
  @__init__ strict_framework strict_decoding Model
    regular_hparams INFER (sample_batch 3 0) None None
  = Raise (AttributeError "lookup") /\
  exists m : BaseModel.t,
    @__init__ strict_framework strict_decoding Model
      regular_hparams INFER (sample_batch 3 0)
      (Some sample_reverse_table) None = Ok m.
Proof.
  assert (He : hparams.num_encoder_layers regular_hparams <> 0)
    by discriminate.
  assert (Hd : hparams.num_decoder_layers regular_hparams <> 0)
    by discriminate.
  assert (Ha : @collaborators_accept strict_framework
                 regular_hparams INFER (sample_batch 3 0) None).
  { apply strict_collaborators_accept;
      [reflexivity | intros _; discriminate | discriminate | discriminate]. }
  split.
  - exact (proj1 (@construction_outcome strict_framework strict_decoding
                    regular_hparams INFER (sample_batch 3 0) None None
                    He Hd Ha (strict_states_well_formed _) eq_refl)
             eq_refl eq_refl).
  - refine (proj2 (proj2
              (@construction_outcome strict_framework strict_decoding
                 regular_hparams INFER (sample_batch 3 0)
                 (Some sample_reverse_table) None
                 He Hd Ha (strict_states_well_formed _) eq_refl)) _ _);
      intros; discriminate.
Defined.

Lemma zero_layers_assertion_witness :
  @__init__ plain_framework plain_decoding Model
    (sample_hparams 0 "uni" "t2t" "" 4 1000 None 0 0 false)
    TRAIN (sample_batch 3 0) None None
  = Raise AssertionError.
Proof.
  apply (@zero_layers_assertion plain_framework plain_decoding).
  left. reflexivity.
Defined.

Lemma train_reports_witness :
  exists (m : BaseModel.t) (loss : option R) (rate : ScalarTensor),
    @__init__ plain_framework plain_decoding Model
      regular_hparams TRAIN (sample_batch 3 0) None None = Ok m /\
    train m 7 = Ok (loss, 5, 8, 10, 2, rate 7).
Proof.
  assert (Hm : exists m : BaseModel.t,
             @__init__ plain_framework plain_decoding Model
               regular_hparams TRAIN (sample_batch 3 0) None None = Ok m)
    by (eexists; reflexivity).
  destruct Hm as (m & Hm).
  destruct (@train_reports plain_framework plain_decoding Model
              regular_hparams (sample_batch 3 0) None None m Hm)
    as (loss & rate & _ & Htrain).
  - intros x [<- | [<- | []]]; lia.
  - intros x [<- | [<- | []]]; lia.
  - reflexivity.
  - exists m, loss, rate. split; [exact Hm |].
    apply (Htrain 7). lia.
Defined.

Lemma wrong_mode_call_asserts_witness :
  exists m : BaseModel.t,
    @__init__ plain_framework plain_decoding Model
      regular_hparams EVAL (sample_batch 3 0) None None = Ok m /\
    train m 0 = Raise AssertionError /\
    decode m (fun _ => mkArray [] (fun _ => "")) = Raise AssertionError.
Proof.
  assert (Hm : exists m : BaseModel.t,
             @__init__ plain_framework plain_decoding Model
               regular_hparams EVAL (sample_batch 3 0) None None = Ok m)
    by (eexists; reflexivity).
  destruct Hm as (m & Hm).
  destruct (@wrong_mode_call_asserts plain_framework plain_decoding Model
              regular_hparams EVAL (sample_batch 3 0) None None m Hm)
    as (Htrain & _ & Hinfer).
  exists m. split; [exact Hm |]. split.
  - apply Htrain. discriminate.
  - apply (proj2 (Hinfer ltac:(discriminate))).
Defined.

Lemma decode_canonical_layout_witness :
  exists out : ndarray string,
    decode sample_infer_model sample_fetch = Ok out /\
    shape out = [4; 2; 3]%nat /\
    item out [1; 0; 2]%nat = "b".
Proof.
  destruct (proj2 (proj1 (decode_canonical_layout sample_infer_model
                            sample_fetch _ _ _ eq_refl) eq_refl)
              3%nat 2%nat 4%nat eq_refl)
    as (out & Hout & Hshape & Hitem).
  exists out. split; [exact Hout |]. split; [exact Hshape |].
  rewrite Hitem. reflexivity.
Defined.
